(** * Altbot: the event orchestrator, its tables and its reply rules

    A shallow embedding of the Go sources of Altbot (main.go, the GDPR
    consent file, the API key store and api_server.go) and the properties
    of the specification stated over it.

    Conventions.
    - A Go [string] is a sequence of bytes: Rocq's [string].
    - A Go [int] is a 64-bit signed integer: a [Z] with the wrap-around of
      [++] written out ([int_incr]).
    - A Go [map[K]V] is a [gmap]; reading a missing key gives the zero value
      ([map_int], [map_bool]).
    - The platform client, the clock, the downloader and the model provider
      are oracles of the environment; every call that matters to a property
      is recorded in a trace of events. *)

From Stdlib Require Import ZArith Lia Bool List String Ascii.
From stdpp Require Import base option list gmap fin_maps strings.

Import ListNotations.
Local Open Scope string_scope.
Local Open Scope Z_scope.

(* ===================================================================== *)
(** * Go strings *)
(* ===================================================================== *)

Module GoString.

(** [len(s)] *)
Definition len (s : string) : nat := String.length s.

(** [s[i]], for an index in range. *)
Definition byte_at (s : string) (i : nat) : option ascii := String.get i s.

(** [s[i:i+n]] *)
Definition slice (s : string) (i n : nat) : string := String.substring i n s.

(** [strings.HasPrefix(s, p)] *)
Definition HasPrefix (s p : string) : bool := String.prefix p s.

Definition is_upper (b : ascii) : bool :=
  (65 <=? Z.of_nat (nat_of_ascii b)) && (Z.of_nat (nat_of_ascii b) <=? 90).

Definition lower_byte (b : ascii) : ascii :=
  if is_upper b then ascii_of_nat (nat_of_ascii b + 32) else b.

(** [strings.ToLower] on ASCII text: the byte-wise path the Go library
    takes when the string has no byte above 0x7f.  Bytes from 0x80 on are
    left as they are here; the properties below that go through [ToLower]
    are stated for ASCII input ([is_ascii]). *)
Fixpoint ToLower (s : string) : string :=
  match s with
  | EmptyString => EmptyString
  | String b s' => String (lower_byte b) (ToLower s')
  end.

Fixpoint is_ascii (s : string) : bool :=
  match s with
  | EmptyString => true
  | String b s' => (Z.of_nat (nat_of_ascii b) <? 128) && is_ascii s'
  end.

(** [strings.ToLower(s)] on any text.  A text without a byte above 0x7f is
    lowered byte by byte ([ToLower] above); for any other text Go maps
    [unicode.ToLower] over its runes, which is outside the model:
    [lower_runes] stands for that mapping. *)
Definition strings_ToLower (lower_runes : string -> string) (s : string)
  : string :=
  if is_ascii s then ToLower s else lower_runes s.

(** [isLetter] of the consent file: a byte in a-z or A-Z. *)
Definition isLetter (b : ascii) : bool :=
  let n := Z.of_nat (nat_of_ascii b) in
  ((97 <=? n) && (n <=? 122)) || ((65 <=? n) && (n <=? 90)).

(** [strings.Contains(s, sub)] *)
Fixpoint Contains (s sub : string) : bool :=
  String.prefix sub s ||
  match s with
  | EmptyString => false
  | String _ s' => Contains s' sub
  end.

(** [strings.Join(elems, sep)] *)
Fixpoint Join (elems : list string) (sep : string) : string :=
  match elems with
  | [] => EmptyString
  | [e] => e
  | e :: rest => e +:+ sep +:+ Join rest sep
  end.

End GoString.

(* ===================================================================== *)
(** * Go integers and maps *)
(* ===================================================================== *)

Module GoInt.

(** The value of a 64-bit signed [int] after an arithmetic result [z]. *)
Definition wrap (z : Z) : Z := (z + 2 ^ 63) mod 2 ^ 64 - 2 ^ 63.

(** The values of an [int]. *)
Definition in_range (z : Z) : Prop := - 2 ^ 63 <= z < 2 ^ 63.

(** [x++] *)
Definition int_incr (x : Z) : Z := wrap (x + 1).

(** [m[k]] on a [map[string]int]: zero for a missing key. *)
Definition map_int (m : gmap string Z) (k : string) : Z := default 0 (m !! k).

(** [m[k]] on a [map[string]bool]: false for a missing key. *)
Definition map_bool (m : gmap string bool) (k : string) : bool :=
  default false (m !! k).

(** [m[k]++] *)
Definition map_incr (m : gmap string Z) (k : string) : gmap string Z :=
  <[k := int_incr (map_int m k)]> m.

End GoInt.

(* ===================================================================== *)
(** * The platform client (go-mastodon) as seen by the bot *)
(* ===================================================================== *)

Module Mastodon.

Record Account := {
  acc_ID : string;
  acc_Acct : string;
  acc_Bot : bool;
  acc_Note : string;
  acc_CreatedAt : Z
}.

Record Attachment := {
  att_Type : string;
  att_URL : string;
  att_Description : string
}.

(** [Status.InReplyToID] is an [interface{}]: nil, an id (a [string] or a
    [mastodon.ID]), or a value of some other dynamic type. *)
Inductive ReplyRef :=
| RefNil
| RefID (id : string)
| RefOther.

Record Status := {
  st_ID : string;
  st_InReplyToID : ReplyRef;
  st_Account : Account;
  st_Content : string;
  st_MediaAttachments : list Attachment;
  st_Visibility : string;
  st_Language : string;
  st_SpoilerText : string
}.

Record Toot := {
  toot_Status : string;
  toot_InReplyToID : string;
  toot_Visibility : string;
  toot_Language : string;
  toot_SpoilerText : string
}.

Record Notification := {
  ntf_Account : Account;
  ntf_Status : Status
}.

(** The calls the bot makes on [*mastodon.Client].  A failed call is [None]
    (or [false] for [DeleteStatus], which returns only an error).
    [PostStatus] returns the id of the status it created. *)
Record Client := {
  GetStatus : string -> option Status;
  GetAccount : string -> option Account;
  PostStatus : Toot -> option string;
  DeleteStatus : string -> bool
}.

End Mastodon.

(* ===================================================================== *)
(** * Configuration, environment and the trace of outside calls *)
(* ===================================================================== *)

(** The fields of [Config] that the modelled functions read, with the two
    capability flags that [main] sets from the provider and the [devMode]
    flag of the consent file. *)
Record Config := {
  Server_Username : string;
  DNI_Tags : list string;
  DNI_IgnoreBots : bool;
  Behavior_ReplyVisibility : string;
  Behavior_AskForConsent : bool;
  LLM_Provider : string;
  PowerMetrics_Enabled : bool;
  AltTextReminders_Enabled : bool;
  RateLimit_Enabled : bool;
  RateLimit_MaxRequestsPerMinute : Z;
  RateLimit_MaxRequestsPerHour : Z;
  RateLimit_NewAccountMaxRequestsPerMinute : Z;
  RateLimit_NewAccountMaxRequestsPerHour : Z;
  RateLimit_ShadowBanThreshold : Z;
  RateLimit_AdminContactHandle : string;
  videoProcessingCapability : bool;
  audioProcessingCapability : bool;
  devMode : bool
}.

Inductive MediaKind := Image | Video | Audio.

(** What [generateImageAltText], [generateVideoAltText] and
    [generateAudioAltText] can do: fail while downloading or decoding,
    before the provider is reached, or call the provider, which fails
    ([None]) or returns a text (post-processed). *)
Inductive GenOutcome :=
| GenPrepError
| GenProvider (result : option string).

(** What a handler does outside the tables modelled here: calls on the
    platform client and on the model provider, and the queueing of a post
    for the alt-text reminder. *)
Inductive Event :=
| EvPostStatus (t : Mastodon.Toot)
| EvDeleteStatus (id : string)
| EvProviderCall (kind : MediaKind) (url : string)
| EvQueueAltTextCheck (postID userID : string).

(** The environment of one handler run. *)
Record Env := {
  client : Mastodon.Client;
  (** [time.Now()] *)
  now : Z;
  (** [time.Since(t).Hours() < 24*float64(NewAccountPeriodDays)], the
      floating-point test of [IsNewAccount], as the clock decides it. *)
  within_new_account_period : Z -> bool;
  (** [strings.Map(unicode.ToLower, s)], the path of [strings.ToLower] for
      a text with a byte above 0x7f *)
  unicode_ToLower : string -> string;
  (** download, pre-processing and provider call for one attachment *)
  generate : MediaKind -> string -> string -> GenOutcome;
  (** [time.Since(start).Milliseconds()] of one worker *)
  elapsed_ms : Mastodon.Attachment -> Z;
  (** [getLocalizedString(lang, key, category)] *)
  getLocalizedString : string -> string -> string -> string;
  (** [fmt.Sprintf(format, arg)] for a localized format with one verb *)
  sprintf1 : string -> string -> string;
  (** [getProviderAttribution(config, lang)] *)
  getProviderAttribution : string -> string;
  (** the formatted energy line for a total processing time *)
  powerInfo : string -> Z -> string
}.

(* ===================================================================== *)
(** * The rate limiter (main.go, [RateLimiter]) *)
(* ===================================================================== *)

Module RateLimiter.
Import GoInt.

Record t := {
  MinuteCounts : gmap string Z;
  HourCounts : gmap string Z;
  AccountAges : gmap string Z;
  ExceededCounts : gmap string Z;
  ShadowBanned : gmap string bool;
  Whitelist : gmap string bool
}.

(** [NewRateLimiter] *)
Definition NewRateLimiter : t :=
  {| MinuteCounts := ∅; HourCounts := ∅; AccountAges := ∅;
     ExceededCounts := ∅; ShadowBanned := ∅; Whitelist := ∅ |}.

(** [IsShadowBanned] *)
Definition IsShadowBanned (rl : t) (userID : string) : bool :=
  map_bool (ShadowBanned rl) userID.

(** [IsNewAccount]: the creation date comes from the cache or, on a miss,
    from the platform (and is then cached); a failed lookup answers false
    and caches nothing. *)
Definition IsNewAccount (e : Env) (rl : t) (userID : string) : bool * t :=
  match AccountAges rl !! userID with
  | Some creationDate => (within_new_account_period e creationDate, rl)
  | None =>
      match Mastodon.GetAccount (client e) userID with
      | None => (false, rl)
      | Some account =>
          let creationDate := Mastodon.acc_CreatedAt account in
          (within_new_account_period e creationDate,
           {| MinuteCounts := MinuteCounts rl;
              HourCounts := HourCounts rl;
              AccountAges := <[userID := creationDate]> (AccountAges rl);
              ExceededCounts := ExceededCounts rl;
              ShadowBanned := ShadowBanned rl;
              Whitelist := Whitelist rl |})
      end
  end.

(** The message of [notifyAdmin]. *)
Definition shadow_ban_message (cfg : Config) (name userID : string) : string :=
  RateLimit_AdminContactHandle cfg +:+ " User " +:+ name +:+
  " has been shadow banned for exceeding rate limits." +:+
  String (ascii_of_nat 10) "To unban, reply with 'unban " +:+ userID +:+ "'.".

(** [notifyAdmin]: one direct message to the admin, unless the account
    lookup fails.  An error of the post itself is only logged. *)
Definition notifyAdmin (cfg : Config) (e : Env) (userID : string) : list Event :=
  match Mastodon.GetAccount (client e) userID with
  | None => []
  | Some account =>
      [EvPostStatus
         {| Mastodon.toot_Status :=
              shadow_ban_message cfg (Mastodon.acc_Acct account) userID;
            Mastodon.toot_InReplyToID := "";
            Mastodon.toot_Visibility := "direct";
            Mastodon.toot_Language := "";
            Mastodon.toot_SpoilerText := "" |}]
  end.

(** [ShadowBanUser] *)
Definition ShadowBanUser (cfg : Config) (e : Env) (rl : t) (userID : string)
  : t * list Event :=
  if map_bool (Whitelist rl) userID then (rl, [])
  else
    ({| MinuteCounts := MinuteCounts rl;
        HourCounts := HourCounts rl;
        AccountAges := AccountAges rl;
        ExceededCounts := ExceededCounts rl;
        ShadowBanned := <[userID := true]> (ShadowBanned rl);
        Whitelist := Whitelist rl |},
     notifyAdmin cfg e userID).

(** The body shared by the two limit checks of [Increment]:
    [rl.ExceededCounts[userID]++], then the escalation test. *)
Definition exceeded (cfg : Config) (e : Env) (rl : t) (userID : string)
  : t * list Event :=
  let rl1 :=
    {| MinuteCounts := MinuteCounts rl;
       HourCounts := HourCounts rl;
       AccountAges := AccountAges rl;
       ExceededCounts := map_incr (ExceededCounts rl) userID;
       ShadowBanned := ShadowBanned rl;
       Whitelist := Whitelist rl |} in
  if RateLimit_ShadowBanThreshold cfg <=? map_int (ExceededCounts rl1) userID
  then ShadowBanUser cfg e rl1 userID
  else (rl1, []).

(** [Increment]: the answer (true = allow), the limiter afterwards and the
    outside calls made.  The snapshot to [ratelimiter.json] changes nothing
    in memory; its error is only logged. *)
Definition Increment (cfg : Config) (e : Env) (rl : t) (userID : string)
  : bool * t * list Event :=
  if negb (RateLimit_Enabled cfg) then (true, rl, [])
  else if IsShadowBanned rl userID then (false, rl, [])
  else
    let '(isNew, rl0) := IsNewAccount e rl userID in
    let maxPerMinute :=
      if isNew then RateLimit_NewAccountMaxRequestsPerMinute cfg
      else RateLimit_MaxRequestsPerMinute cfg in
    let maxPerHour :=
      if isNew then RateLimit_NewAccountMaxRequestsPerHour cfg
      else RateLimit_MaxRequestsPerHour cfg in
    if maxPerMinute <=? map_int (MinuteCounts rl0) userID then
      let '(rl1, evs) := exceeded cfg e rl0 userID in (false, rl1, evs)
    else if maxPerHour <=? map_int (HourCounts rl0) userID then
      let '(rl1, evs) := exceeded cfg e rl0 userID in (false, rl1, evs)
    else
      (true,
       {| MinuteCounts := map_incr (MinuteCounts rl0) userID;
          HourCounts := map_incr (HourCounts rl0) userID;
          AccountAges := AccountAges rl0;
          ExceededCounts := ExceededCounts rl0;
          ShadowBanned := ShadowBanned rl0;
          Whitelist := Whitelist rl0 |},
       []).

(** [UnbanAndWhitelistUser] *)
Definition UnbanAndWhitelistUser (rl : t) (userID : string) : t :=
  {| MinuteCounts := MinuteCounts rl;
     HourCounts := HourCounts rl;
     AccountAges := AccountAges rl;
     ExceededCounts := ExceededCounts rl;
     ShadowBanned := delete userID (ShadowBanned rl);
     Whitelist := <[userID := true]> (Whitelist rl) |}.

(** [ResetMinuteCounts]: every key present is set to zero. *)
Definition ResetMinuteCounts (rl : t) : t :=
  {| MinuteCounts := (fun _ => 0) <$> MinuteCounts rl;
     HourCounts := HourCounts rl;
     AccountAges := AccountAges rl;
     ExceededCounts := ExceededCounts rl;
     ShadowBanned := ShadowBanned rl;
     Whitelist := Whitelist rl |}.

(** [ResetHourCounts]: hour counters and exceed counters are set to zero. *)
Definition ResetHourCounts (rl : t) : t :=
  {| MinuteCounts := MinuteCounts rl;
     HourCounts := (fun _ => 0) <$> HourCounts rl;
     AccountAges := AccountAges rl;
     ExceededCounts := (fun _ => 0) <$> ExceededCounts rl;
     ShadowBanned := ShadowBanned rl;
     Whitelist := Whitelist rl |}.

(** The operations on the limiter, with their arguments. *)
Inductive Op :=
| OpIncrement (e : Env) (userID : string)
| OpResetMinuteCounts
| OpResetHourCounts
| OpUnbanAndWhitelistUser (userID : string).

Definition apply_op (cfg : Config) (rl : t) (op : Op) : t :=
  match op with
  | OpIncrement e userID => snd (fst (Increment cfg e rl userID))
  | OpResetMinuteCounts => ResetMinuteCounts rl
  | OpResetHourCounts => ResetHourCounts rl
  | OpUnbanAndWhitelistUser userID => UnbanAndWhitelistUser rl userID
  end.

(** The state reached from the empty limiter by a sequence of operations. *)
Definition run (cfg : Config) (ops : list Op) : t :=
  fold_left (apply_op cfg) ops NewRateLimiter.

(** Five successive [Increment] calls for one user with no reset between
    them: the five answers, the limiter after each call and the outside
    calls of each. *)
Fixpoint increments (cfg : Config) (e : Env) (rl : t) (userID : string)
    (n : nat) : list (bool * t * list Event) :=
  match n with
  | O => []
  | S n' =>
      let r := Increment cfg e rl userID in
      r :: increments cfg e (snd (fst r)) userID n'
  end.

End RateLimiter.

(* ===================================================================== *)
(** * The tables of the orchestrator *)
(* ===================================================================== *)

Record ConsentRecord := {
  cr_UserID : string;
  cr_Timestamp : Z;
  cr_ConsentMethod : string
}.

Record PendingGDPRRequest := {
  pg_UserID : string;
  pg_RequestStatusID : string;
  pg_Timestamp : Z
}.

Record ConsentRequest := {
  cq_RequestID : string;
  cq_Timestamp : Z
}.

Record ReplyInfo := {
  ri_ReplyID : string;
  ri_Timestamp : Z
}.

(** The process-wide variables the handlers read and write:
    [consentDB.Users], [pendingGDPRRequests], [consentRequests],
    [replyMap], [rateLimiter], and the calls made so far (oldest first). *)
Record Bot := {
  consentDB : gmap string ConsentRecord;
  pendingGDPRRequests : gmap string PendingGDPRRequest;
  consentRequests : gmap string ConsentRequest;
  replyMap : gmap string ReplyInfo;
  rateLimiter : RateLimiter.t;
  trace : list Event
}.

Definition set_consentDB (b : Bot) (db : gmap string ConsentRecord) : Bot :=
  {| consentDB := db; pendingGDPRRequests := pendingGDPRRequests b;
     consentRequests := consentRequests b; replyMap := replyMap b;
     rateLimiter := rateLimiter b; trace := trace b |}.

Definition set_pendingGDPRRequests (b : Bot)
    (p : gmap string PendingGDPRRequest) : Bot :=
  {| consentDB := consentDB b; pendingGDPRRequests := p;
     consentRequests := consentRequests b; replyMap := replyMap b;
     rateLimiter := rateLimiter b; trace := trace b |}.

Definition set_consentRequests (b : Bot) (q : gmap string ConsentRequest) : Bot :=
  {| consentDB := consentDB b; pendingGDPRRequests := pendingGDPRRequests b;
     consentRequests := q; replyMap := replyMap b;
     rateLimiter := rateLimiter b; trace := trace b |}.

Definition set_replyMap (b : Bot) (m : gmap string ReplyInfo) : Bot :=
  {| consentDB := consentDB b; pendingGDPRRequests := pendingGDPRRequests b;
     consentRequests := consentRequests b; replyMap := m;
     rateLimiter := rateLimiter b; trace := trace b |}.

Definition set_rateLimiter (b : Bot) (rl : RateLimiter.t) : Bot :=
  {| consentDB := consentDB b; pendingGDPRRequests := pendingGDPRRequests b;
     consentRequests := consentRequests b; replyMap := replyMap b;
     rateLimiter := rl; trace := trace b |}.

(** Record outside calls at the end of the trace. *)
Definition emit (b : Bot) (evs : list Event) : Bot :=
  {| consentDB := consentDB b; pendingGDPRRequests := pendingGDPRRequests b;
     consentRequests := consentRequests b; replyMap := replyMap b;
     rateLimiter := rateLimiter b; trace := trace b ++ evs |}.

(** [c.PostStatus(ctx, toot)]: the call is recorded, its answer is the
    platform's. *)
Definition post (e : Env) (b : Bot) (t : Mastodon.Toot) : option string * Bot :=
  (Mastodon.PostStatus (client e) t, emit b [EvPostStatus t]).

(** The calls to the model provider among a list of events. *)
Definition provider_calls (evs : list Event) : list (MediaKind * string) :=
  omap (fun ev =>
          match ev with
          | EvProviderCall kind url => Some (kind, url)
          | _ => None
          end) evs.

(** The [DeleteStatus] calls among a list of events. *)
Definition delete_calls (evs : list Event) : list string :=
  omap (fun ev => match ev with EvDeleteStatus id => Some id | _ => None end) evs.

(** How a call ends that may lock a mutex its own goroutine already holds
    (Go's [sync.Mutex] is not reentrant): [Returns b] is the memory when
    the call returns; [Deadlock b] is the memory at the second [Lock], where
    the goroutine blocks for ever with the mutex held. *)
Inductive Outcome :=
| Returns (b : Bot)
| Deadlock (b : Bot).

(** The memory of an outcome. *)
Definition memory (o : Outcome) : Bot :=
  match o with
  | Returns b => b
  | Deadlock b => b
  end.

(* ===================================================================== *)
(** * GDPR consent (the consent file) *)
(* ===================================================================== *)

Module Consent.
Import GoString.

(** [HasUserConsent] *)
Definition HasUserConsent (b : Bot) (userID : string) : bool :=
  bool_decide (is_Some (consentDB b !! userID)).

(** [RecordUserConsent]: the record is written in memory first; the answer
    is that of the snapshot to disk ([saved] = no error). *)
Definition RecordUserConsent (e : Env) (saved : bool) (b : Bot)
    (userID method : string) : bool * Bot :=
  (saved,
   set_consentDB b
     (<[userID := {| cr_UserID := userID; cr_Timestamp := now e;
                     cr_ConsentMethod := method |}]> (consentDB b))).

(** [RemoveUserConsent] locks [consentDB.mu], defers the unlock, deletes
    the record and calls [saveConsentDatabase], which locks [consentDB.mu]
    again: the call deletes the record in memory and never returns. *)
Definition RemoveUserConsent (b : Bot) (userID : string) : Outcome :=
  Deadlock (set_consentDB b (delete userID (consentDB b))).

(** [HandleBlockEvent]: a block is meant to revoke consent.  For a user
    with a record the handler is stuck in [RemoveUserConsent]. *)
Definition HandleBlockEvent (b : Bot) (userID : string) : Outcome :=
  if HasUserConsent b userID then RemoveUserConsent b userID else Returns b.

(** [AddPendingGDPRRequest] *)
Definition AddPendingGDPRRequest (e : Env) (b : Bot)
    (userID requestStatusID : string) : Bot :=
  set_pendingGDPRRequests b
    (<[userID := {| pg_UserID := userID;
                    pg_RequestStatusID := requestStatusID;
                    pg_Timestamp := now e |}]> (pendingGDPRRequests b)).

(** [RequestGDPRConsent]: a direct message with the consent prompt; on
    success the request is recorded as pending.  In dev mode nothing is
    posted. *)
Definition RequestGDPRConsent (cfg : Config) (e : Env) (b : Bot)
    (userID username language replyToID : string) (isStandaloneMsg : bool)
  : option string * Bot :=
  let nl := String (ascii_of_nat 10) EmptyString in
  let message :=
    if isStandaloneMsg then
      "@" +:+ username +:+ " " +:+
      getLocalizedString e "en" "gdprWelcomeMessage" "response" +:+ nl +:+ nl +:+
      getLocalizedString e "en" "gdprConsentRequest" "response"
    else
      "@" +:+ username +:+ " " +:+
      getLocalizedString e "en" "gdprConsentRequest" "response" in
  if devMode cfg then (Some "", b)
  else
    let '(r, b1) :=
      post e b {| Mastodon.toot_Status := message;
                  Mastodon.toot_InReplyToID := replyToID;
                  Mastodon.toot_Visibility := "direct";
                  Mastodon.toot_Language := language;
                  Mastodon.toot_SpoilerText := "" |} in
    match r with
    | None => (None, b1)
    | Some id => (Some id, AddPendingGDPRRequest e b1 userID id)
    end.

(** [containsWholeWord]: the loop runs [i] from 0 to [textLen-wordLen]
    (no iteration when that is negative) and answers true at the first
    match with both boundaries free of letters.  [text[i-1]] and
    [text[i+wordLen]] are read only behind their guards. *)
Definition boundary_free (ob : option ascii) : bool :=
  match ob with
  | Some b => negb (isLetter b)
  | None => true
  end.

Definition match_at (text word : string) (i : nat) : bool :=
  let wordLen := len word in
  let textLen := len text in
  String.eqb (slice text i wordLen) word &&
  ((Nat.eqb i 0) || boundary_free (byte_at text (i - 1))) &&
  ((Nat.eqb (i + wordLen) textLen) || boundary_free (byte_at text (i + wordLen))).

Definition containsWholeWord (text word : string) : bool :=
  if String.eqb text word then true
  else
    let wordLen := Z.of_nat (len word) in
    let textLen := Z.of_nat (len text) in
    existsb (match_at text word) (seq 0 (Z.to_nat (textLen - wordLen + 1))).

Definition affirmativeResponses : list string :=
  ["yes"; "agree"; "i agree"; "consent"; "i consent"; "ok"; "okay"; "ja";
   "oui"; "si"].

(** The loop of [checkAndRecordConsent] over the affirmative tokens, on the
    lowercased plain text. *)
Definition affirmative (responseText : string) : bool :=
  existsb (containsWholeWord responseText) affirmativeResponses.

(** [sendConsentConfirmation] *)
Definition sendConsentConfirmation (cfg : Config) (e : Env) (b : Bot)
    (status : Mastodon.Status) : Bot :=
  if devMode cfg then b
  else
    snd (post e b
           {| Mastodon.toot_Status :=
                "@" +:+ Mastodon.acc_Acct (Mastodon.st_Account status) +:+ " " +:+
                getLocalizedString e "en" "gdprConsentConfirmation" "response";
              Mastodon.toot_InReplyToID := Mastodon.st_ID status;
              Mastodon.toot_Visibility := "direct";
              Mastodon.toot_Language := Mastodon.st_Language status;
              Mastodon.toot_SpoilerText := "" |}).

(** [checkAndRecordConsent].  [plainTextContent] is what [stripHTMLTags]
    extracts from [status.Content] (the HTML parser is outside the model);
    [saved] is the outcome of the snapshot in [RecordUserConsent]. *)
Definition checkAndRecordConsent (cfg : Config) (e : Env) (saved : bool)
    (b : Bot) (status : Mastodon.Status) (plainTextContent userID : string)
  : bool * Bot :=
  if String.eqb plainTextContent "" then (false, b)
  else
    let responseText := strings_ToLower (unicode_ToLower e) plainTextContent in
    if negb (affirmative responseText) then (false, b)
    else
      let '(ok, b1) := RecordUserConsent e saved b userID "explicit" in
      if negb ok then (false, b1)
      else (true, sendConsentConfirmation cfg e b1 status).

End Consent.

(* ===================================================================== *)
(** * The generation job and the reply (main.go, [generateAndPostAltText]) *)
(* ===================================================================== *)

Module Job.
Import GoString GoInt.

(** The [switch] on the lowercased pair "configured,post" of the reply
    assembler: the cases in source order, first match wins. *)
Definition visibility_cases : list (string * string) :=
  [ ("public,public", "public");
    ("public,unlisted", "unlisted");
    ("public,private", "private");
    ("public,direct", "direct");
    ("unlisted,public", "unlisted");
    ("unlisted,unlisted", "unlisted");
    ("unlisted,private", "private");
    ("unlisted,direct", "direct");
    ("private,public", "private");
    ("private,unlisted", "private");
    ("private,private", "private");
    ("private,direct", "direct");
    ("direct,public", "direct");
    ("direct,unlisted", "direct");
    ("direct,private", "direct");
    ("direct,direct", "direct") ].

Fixpoint switch_string (key : string) (cases : list (string * string))
    (default : string) : string :=
  match cases with
  | [] => default
  | (k, v) :: rest =>
      if String.eqb key k then v else switch_string key rest default
  end.

(** The visibility of the reply: [visibility] starts as the visibility of
    the post replied to, the switch may replace it, and a private post
    always gets a direct reply. *)
Definition replyVisibility (configured postVisibility : string) : string :=
  let visibility :=
    switch_string (ToLower (configured +:+ "," +:+ postVisibility))
      visibility_cases postVisibility in
  if String.eqb postVisibility "private" then "direct" else visibility.

(** The content warning of the reply. *)
Definition contentWarning (spoilerText : string) : string :=
  if negb (String.eqb spoilerText "") && negb (HasPrefix spoilerText "re:")
  then "re: " +:+ spoilerText
  else spoilerText.

(** The variables shared by the workers of one job. *)
Record State := {
  bot : Bot;
  responses : list string;
  sucessCount : Z;
  totalProcessingTimeMs : Z;
  altTextAlreadyExists : bool
}.

Definition with_bot (s : State) (b : Bot) : State :=
  {| bot := b; responses := responses s; sucessCount := sucessCount s;
     totalProcessingTimeMs := totalProcessingTimeMs s;
     altTextAlreadyExists := altTextAlreadyExists s |}.

(** [responses = append(responses, r)] *)
Definition respond (s : State) (r : string) : State :=
  {| bot := bot s; responses := responses s ++ [r];
     sucessCount := sucessCount s;
     totalProcessingTimeMs := totalProcessingTimeMs s;
     altTextAlreadyExists := altTextAlreadyExists s |}.

(** The tail of a worker, after one of the three generators or after no
    branch at all was taken ([altText] empty, [err] nil): an error or an
    empty text becomes the localized error string, the element is appended
    and the success counter moves. *)
Definition finish (e : Env) (lang : string) (att : Mastodon.Attachment)
    (s : State) (altText : string) (err : bool) : State :=
  let failed := err || String.eqb altText "" in
  let sucessCount1 := if failed then wrap (sucessCount s - 1) else sucessCount s in
  let altText1 :=
    if failed then getLocalizedString e lang "altTextError" "response"
    else altText in
  {| bot := bot s;
     responses := responses s ++ [altText1];
     sucessCount := wrap (sucessCount1 + 1);
     totalProcessingTimeMs := wrap (totalProcessingTimeMs s + elapsed_ms e att);
     altTextAlreadyExists := altTextAlreadyExists s |}.

(** One of [generateImageAltText], [generateVideoAltText],
    [generateAudioAltText]: the provider call is recorded when the
    generator reaches the provider. *)
Definition call_generator (e : Env) (lang : string) (kind : MediaKind)
    (att : Mastodon.Attachment) (s : State) : State :=
  let url := Mastodon.att_URL att in
  match generate e kind url lang with
  | GenPrepError => finish e lang att s "" true
  | GenProvider None =>
      finish e lang att (with_bot s (emit (bot s) [EvProviderCall kind url])) "" true
  | GenProvider (Some text) =>
      finish e lang att (with_bot s (emit (bot s) [EvProviderCall kind url])) text false
  end.

(** The worker of one attachment.  [altTextGenerated] is still false while
    the workers run (it is assigned after the join).  The workers are
    goroutines; this is the worker as it runs when no other worker runs at
    the same time.  [altTextAlreadyExists] is tested and set outside the
    mutex, so workers that overlap can both find it false. *)
Definition worker (cfg : Config) (e : Env) (replyPost : Mastodon.Status)
    (s : State) (att : Mastodon.Attachment) : State :=
  let lang := Mastodon.st_Language replyPost in
  let userID := Mastodon.acc_ID (Mastodon.st_Account replyPost) in
  let ty := Mastodon.att_Type att in
  let noAlt := String.eqb (Mastodon.att_Description att) "" in
  let '(allowed, rl, evs) :=
    RateLimiter.Increment cfg e (rateLimiter (bot s)) userID in
  let s := with_bot s (emit (set_rateLimiter (bot s) rl) evs) in
  if negb allowed then
    respond s (getLocalizedString e lang "altTextError" "response")
  else if String.eqb ty "image" && noAlt then
    call_generator e lang Image att s
  else if (String.eqb ty "video" || String.eqb ty "gifv")
          && videoProcessingCapability cfg && noAlt then
    call_generator e lang Video att s
  else if String.eqb ty "audio" && audioProcessingCapability cfg && noAlt then
    call_generator e lang Audio att s
  else if negb noAlt then
    if negb (altTextAlreadyExists s) then
      let s1 := respond s (getLocalizedString e lang "imageAlreadyHasAltText" "response") in
      {| bot := bot s1; responses := responses s1;
         sucessCount := sucessCount s1;
         totalProcessingTimeMs := totalProcessingTimeMs s1;
         altTextAlreadyExists := true |}
    else s
  else if videoProcessingCapability cfg && audioProcessingCapability cfg then
    respond s (getLocalizedString e lang "unsupportedFile" "response")
  else
    finish e lang att s "" false.

(** The shared variables when the workers start. *)
Definition start (b : Bot) : State :=
  {| bot := b; responses := []; sucessCount := 0;
     totalProcessingTimeMs := 0; altTextAlreadyExists := false |}.

(** [generateAndPostAltText].  The workers are goroutines joined before the
    reply is assembled; here they run one after the other in attachment
    order, which is one of their schedules. *)
Definition generateAndPostAltText (cfg : Config) (e : Env) (b : Bot)
    (status : Mastodon.Status) (replyToID : string) : Bot :=
  match Mastodon.GetStatus (client e) replyToID with
  | None => b
  | Some replyPost =>
      let lang := Mastodon.st_Language replyPost in
      let nl := String (ascii_of_nat 10) EmptyString in
      let isLocalModel := negb (String.eqb (LLM_Provider cfg) "gemini") in
      let s := fold_left (worker cfg e replyPost)
                 (Mastodon.st_MediaAttachments status) (start b) in
      let altTextGenerated := 0 <? sucessCount s in
      let combined0 := Join (responses s) (nl +:+ "―" +:+ nl) in
      let cw := contentWarning (Mastodon.st_SpoilerText status) in
      let combined1 :=
        "@" +:+ Mastodon.acc_Acct (Mastodon.st_Account replyPost) +:+ " " +:+ combined0 in
      let combined2 :=
        if altTextGenerated
        then combined1 +:+ nl +:+ nl +:+ getProviderAttribution e lang
        else combined1 in
      let combined3 :=
        if PowerMetrics_Enabled cfg && isLocalModel && altTextGenerated
        then combined2 +:+ powerInfo e lang (totalProcessingTimeMs s)
        else combined2 in
      if String.eqb combined3 "" then bot s
      else
        let visibility :=
          replyVisibility (Behavior_ReplyVisibility cfg)
            (Mastodon.st_Visibility replyPost) in
        let '(reply, b1) :=
          post e (bot s)
            {| Mastodon.toot_Status := combined3;
               Mastodon.toot_InReplyToID := replyToID;
               Mastodon.toot_Visibility := visibility;
               Mastodon.toot_Language := lang;
               Mastodon.toot_SpoilerText := cw |} in
        let b2 :=
          match reply with
          | Some _ => b1
          | None =>
              snd (post e b1
                     {| Mastodon.toot_Status :=
                          getLocalizedString e lang "replyError" "response";
                        Mastodon.toot_InReplyToID := replyToID;
                        Mastodon.toot_Visibility := visibility;
                        Mastodon.toot_Language := "";
                        Mastodon.toot_SpoilerText := "" |})
          end in
        let userID := Mastodon.acc_ID (Mastodon.st_Account replyPost) in
        let b3 :=
          if AltTextReminders_Enabled cfg
             && negb (String.eqb visibility "direct")
             && Consent.HasUserConsent b2 userID
          then emit b2 [EvQueueAltTextCheck (Mastodon.st_ID status) userID]
          else b2 in
        match reply with
        | Some id =>
            set_replyMap b3
              (<[Mastodon.st_ID status :=
                   {| ri_ReplyID := id; ri_Timestamp := now e |}]> (replyMap b3))
        | None => b3
        end
  end.

End Job.

(* ===================================================================== *)
(** * The event handlers (main.go) *)
(* ===================================================================== *)

Module Handlers.
Import GoString.

(** [isDNI] *)
Definition isDNI (cfg : Config) (account : Mastodon.Account) : bool :=
  if String.eqb (Mastodon.acc_Acct account) (Server_Username cfg) then true
  else if Mastodon.acc_Bot account && DNI_IgnoreBots cfg then true
  else existsb (fun tag => Contains (Mastodon.acc_Note account) tag) (DNI_Tags cfg).

(** The media test of [requestConsent] and [handleUpdate], with Go's
    precedence ([&&] binds tighter than [||]):
    image, or video, or gifv with the video capability, or audio with the
    audio capability. *)
Definition eligible_type (cfg : Config) (att : Mastodon.Attachment) : bool :=
  let ty := Mastodon.att_Type att in
  String.eqb ty "image"
  || ((String.eqb ty "video"
       || (String.eqb ty "gifv" && videoProcessingCapability cfg))
      || (String.eqb ty "audio" && audioProcessingCapability cfg)).

(** [requestConsent]: the legacy, per-post consent request addressed to the
    author of the post. *)
Definition requestConsent (cfg : Config) (e : Env) (b : Bot)
    (status : Mastodon.Status) (notification : Mastodon.Notification) : Bot :=
  let hasAltText :=
    forallb (fun att =>
               negb (String.eqb (Mastodon.att_Description att) ""
                     && eligible_type cfg att))
            (Mastodon.st_MediaAttachments status) in
  if hasAltText then b
  else
    match consentRequests b !! Mastodon.st_ID status with
    | Some _ => b
    | None =>
        let lang := Mastodon.st_Language (Mastodon.ntf_Status notification) in
        let b1 :=
          set_consentRequests b
            (<[Mastodon.st_ID status :=
                 {| cq_RequestID := Mastodon.st_ID (Mastodon.ntf_Status notification);
                    cq_Timestamp := now e |}]> (consentRequests b)) in
        let message :=
          "@" +:+ Mastodon.acc_Acct (Mastodon.st_Account status) +:+ " " +:+
          sprintf1 e (getLocalizedString e lang "consentRequest" "response")
            (Mastodon.acc_Acct (Mastodon.ntf_Account notification)) in
        snd (post e b1
               {| Mastodon.toot_Status := message;
                  Mastodon.toot_InReplyToID := Mastodon.st_ID status;
                  Mastodon.toot_Visibility := Mastodon.st_Visibility status;
                  Mastodon.toot_Language := lang;
                  Mastodon.toot_SpoilerText := "" |})
    end.

(** [handleMention] *)
Definition handleMention (cfg : Config) (e : Env) (b : Bot)
    (notification : Mastodon.Notification) : Bot :=
  let sender := Mastodon.ntf_Account notification in
  let mention := Mastodon.ntf_Status notification in
  if isDNI cfg sender then b
  else
    match Mastodon.st_InReplyToID mention with
    | Mastodon.RefNil => b
    | ref =>
        let originalStatusID :=
          match ref with Mastodon.RefID id => id | _ => "" end in
        match Mastodon.GetStatus (client e) originalStatusID with
        | None => b
        | Some status =>
            if Nat.eqb (List.length (Mastodon.st_MediaAttachments status)) 0 then b
            else if String.eqb (Mastodon.acc_ID (Mastodon.st_Account status))
                               (Mastodon.acc_ID sender) then
              let userID := Mastodon.acc_ID sender in
              if negb (Consent.HasUserConsent b userID) then
                snd (Consent.RequestGDPRConsent cfg e b userID
                       (Mastodon.acc_Acct sender) (Mastodon.st_Language mention)
                       (Mastodon.st_ID mention) false)
              else
                Job.generateAndPostAltText cfg e b status (Mastodon.st_ID mention)
            else if negb (Behavior_AskForConsent cfg) then
              Job.generateAndPostAltText cfg e b status (Mastodon.st_ID mention)
            else
              requestConsent cfg e b status notification
        end
    end.

(** The loop of [handleUpdate] over the attachments: the first eligible
    attachment without a description decides. *)
Fixpoint handleUpdate_loop (cfg : Config) (e : Env) (b : Bot)
    (status : Mastodon.Status) (atts : list Mastodon.Attachment) : Bot :=
  match atts with
  | [] => b
  | att :: rest =>
      if eligible_type cfg att then
        if String.eqb (Mastodon.att_Description att) "" then
          let userID := Mastodon.acc_ID (Mastodon.st_Account status) in
          if negb (Consent.HasUserConsent b userID) then
            snd (Consent.RequestGDPRConsent cfg e b userID
                   (Mastodon.acc_Acct (Mastodon.st_Account status))
                   (Mastodon.st_Language status) (Mastodon.st_ID status) false)
          else
            Job.generateAndPostAltText cfg e b status (Mastodon.st_ID status)
        else handleUpdate_loop cfg e b status rest
      else handleUpdate_loop cfg e b status rest
  end.

(** [handleUpdate] *)
Definition handleUpdate (cfg : Config) (e : Env) (b : Bot)
    (status : Mastodon.Status) : Bot :=
  if String.eqb (Mastodon.acc_Acct (Mastodon.st_Account status))
                (Server_Username cfg) then b
  else handleUpdate_loop cfg e b status (Mastodon.st_MediaAttachments status).

(** [handleDeleteEvent]: the delete cascade.  The entry goes only when the
    platform confirms the deletion of the reply. *)
Definition handleDeleteEvent (e : Env) (b : Bot) (originalID : string) : Bot :=
  match replyMap b !! originalID with
  | Some replyInfo =>
      let b1 := emit b [EvDeleteStatus (ri_ReplyID replyInfo)] in
      if Mastodon.DeleteStatus (client e) (ri_ReplyID replyInfo)
      then set_replyMap b1 (delete originalID (replyMap b1))
      else b1
  | None => b
  end.

End Handlers.

(* ===================================================================== *)
(** * The API key store and the alt-text endpoint *)
(* ===================================================================== *)

Module API.
Import GoString GoInt.

Record APIKey := {
  Key : string;
  Email : string;
  CreatedAt : Z;
  ExpiresAt : Z;
  UsageMonth : Z;
  LastReset : Z;
  Active : bool;
  Note : string
}.

Definition with_usage (k : APIKey) (usage lastReset : Z) : APIKey :=
  {| Key := Key k; Email := Email k; CreatedAt := CreatedAt k;
     ExpiresAt := ExpiresAt k; UsageMonth := usage; LastReset := lastReset;
     Active := Active k; Note := Note k |}.

(** [apiKeyStore.Keys] is a [gmap string APIKey].  The Go map holds
    pointers: what a function changes in a key it looked up is changed in
    the store, so every such change is written back here. *)

(** The clock and the key file as one request sees them. *)
Record Clock := {
  (** [time.Now()] in [ValidateAPIKey] *)
  now_validate : Z;
  (** [time.Now()] in [CheckAndIncrementUsage] *)
  now_usage : Z;
  (** [t.Month()] and [t.Year()] *)
  Month : Z -> Z;
  Year : Z -> Z;
  (** what [LoadFromFile] decodes, [None] when reading or decoding fails *)
  key_file : option (gmap string APIKey)
}.

(** [LoadFromFile]: [json.Unmarshal] into the existing map keeps the
    entries the file does not name and replaces the others. *)
Definition LoadFromFile (c : Clock) (store : gmap string APIKey)
  : bool * gmap string APIKey :=
  match key_file c with
  | Some f => (true, f ∪ store)
  | None => (false, store)
  end.

(** [ValidateAPIKey]: the key record, or [None] for an error (unknown,
    deactivated or expired key), and the store after a possible reload. *)
Definition ValidateAPIKey (c : Clock) (store : gmap string APIKey)
    (key : string) : option APIKey * gmap string APIKey :=
  let '(found, store1) :=
    match store !! key with
    | Some k => (Some k, store)
    | None =>
        let '(ok, store1) := LoadFromFile c store in
        if ok then (store1 !! key, store1) else (None, store1)
    end in
  match found with
  | None => (None, store1)
  | Some k =>
      if negb (Active k) then (None, store1)
      else if ExpiresAt k <? now_validate c then (None, store1)
      else (Some k, store1)
  end.

(** The key after the month rollover of [CheckAndIncrementUsage]. *)
Definition rollover (c : Clock) (k : APIKey) : APIKey :=
  if negb (Month c (now_usage c) =? Month c (LastReset k))
     || negb (Year c (now_usage c) =? Year c (LastReset k))
  then with_usage k 0 (now_usage c)
  else k.

(** [CheckAndIncrementUsage]: true when the request is within the quota.
    The periodic save to disk changes nothing in memory. *)
Definition CheckAndIncrementUsage (c : Clock) (store : gmap string APIKey)
    (key : string) (monthlyLimit : Z) : bool * gmap string APIKey :=
  match store !! key with
  | None => (false, store)
  | Some k =>
      let k1 := rollover c k in
      if monthlyLimit <=? UsageMonth k1 then (false, <[key := k1]> store)
      else (true, <[key := with_usage k1 (int_incr (UsageMonth k1)) (LastReset k1)]> store)
  end.

(** [extractAPIKey] *)
Definition extractAPIKey (authorization : string) : string :=
  if String.eqb authorization "" then ""
  else if HasPrefix authorization "Bearer "
  then String.substring 7 (String.length authorization - 7) authorization
  else authorization.

(** What the body of a request turns out to be when the handler parses it.
    [format] is the answer of [getImageFormat] for the uploaded file. *)
Inductive Body :=
| BodyMalformed
| BodyWithoutImage
| BodyUnreadable
| BodyImage (format language : string).

(** What happens to a request handed to the queue. *)
Inductive Processing :=
| QueueFull
| ProcessingTimeout
| ProcessingError
| ProcessingDone (altText : string).

Record Request := {
  req_Method : string;
  req_Authorization : string;
  req_Body : Body;
  req_Processing : Processing
}.

(** [handleAltText]: the HTTP status of the answer and the key store
    afterwards. *)
Definition handleAltText (c : Clock) (monthlyLimit : Z)
    (store : gmap string APIKey) (r : Request) : Z * gmap string APIKey :=
  if negb (String.eqb (req_Method r) "POST") then (405, store)
  else
    let apiKey := extractAPIKey (req_Authorization r) in
    if String.eqb apiKey "" then (401, store)
    else
      let '(keyData, store1) := ValidateAPIKey c store apiKey in
      match keyData with
      | None => (401, store1)
      | Some _ =>
          let '(ok, store2) := CheckAndIncrementUsage c store1 apiKey monthlyLimit in
          if negb ok then (429, store2)
          else
            match req_Body r with
            | BodyMalformed => (400, store2)
            | BodyWithoutImage => (400, store2)
            | BodyUnreadable => (400, store2)
            | BodyImage format language =>
                if String.eqb format "" then (400, store2)
                else
                  match req_Processing r with
                  | QueueFull => (503, store2)
                  | ProcessingTimeout => (504, store2)
                  | ProcessingError => (500, store2)
                  | ProcessingDone _ => (200, store2)
                  end
            end
      end.

(** The monthly usage recorded for a key. *)
Definition usage (store : gmap string APIKey) (key : string) : option Z :=
  UsageMonth <$> store !! key.

End API.

(* ===================================================================== *)
(** * The properties, in the words of the specification *)
(* ===================================================================== *)

Module Spec.

(** An ASCII letter, [A-Za-z]. *)
Definition ascii_letter (b : ascii) : Prop :=
  (97 <= nat_of_ascii b <= 122)%nat \/ (65 <= nat_of_ascii b <= 90)%nat.

(** The character just before the end of [s] and the first one of [s]. *)
Definition last_byte (s : string) : option ascii :=
  match String.length s with
  | O => None
  | S n => String.get n s
  end.

Definition first_byte (s : string) : option ascii := String.get 0 s.

Definition not_a_letter (ob : option ascii) : Prop :=
  match ob with
  | Some b => ~ ascii_letter b
  | None => True
  end.

(** [word] occurs in [text] as a whole word: somewhere in [text], with no
    letter right before it and no letter right after it. *)
Definition whole_word_in (word text : string) : Prop :=
  exists pre post,
    text = pre +:+ word +:+ post
    /\ not_a_letter (last_byte pre)
    /\ not_a_letter (first_byte post).

(** The affirmative tokens of the specification. *)
Definition affirmative_tokens : list string :=
  ["yes"; "agree"; "i agree"; "consent"; "i consent"; "ok"; "okay"; "ja";
   "oui"; "si"].

(** The four visibilities of a post. *)
Definition post_visibility (v : string) : Prop :=
  v = "public" \/ v = "unlisted" \/ v = "private" \/ v = "direct".

(** The content warning of a reply as the specification words it: the
    prefix goes in front of a non-empty warning that does not already
    begin with "re: ". *)
Definition contentWarning_spec (spoilerText : string) : string :=
  if negb (String.eqb spoilerText "") && negb (String.prefix "re: " spoilerText)
  then "re: " +:+ spoilerText
  else spoilerText.

(** The visibility table of the reply assembler, row by row: configured
    reply visibility, visibility of the post, result. *)
Definition visibility_table : list (string * string * string) :=
  [ ("public", "public", "public");
    ("public", "unlisted", "unlisted");
    ("public", "private", "private");
    ("public", "direct", "direct");
    ("unlisted", "public", "unlisted");
    ("unlisted", "unlisted", "unlisted");
    ("unlisted", "private", "private");
    ("unlisted", "direct", "direct");
    ("private", "public", "private");
    ("private", "unlisted", "private");
    ("private", "private", "private");
    ("private", "direct", "direct");
    ("direct", "public", "direct");
    ("direct", "unlisted", "direct");
    ("direct", "private", "direct");
    ("direct", "direct", "direct") ].

(** Looking a pair up in the table; [default] when no row matches. *)
Fixpoint table_lookup (configured post : string)
    (rows : list (string * string * string)) (default : string) : string :=
  match rows with
  | [] => default
  | (c, p, v) :: rest =>
      if String.eqb configured c && String.eqb post p then v
      else table_lookup configured post rest default
  end.

(** The mapping of the specification: the table, then the downgrade to
    direct for a private post. *)
Definition visibility_mapping (configured post : string) : string :=
  if String.eqb post "private" then "direct"
  else table_lookup configured post visibility_table post.

(** No comma in a string. *)
Fixpoint comma_free (s : string) : bool :=
  match s with
  | EmptyString => true
  | String c s' => negb (Ascii.eqb c ",") && comma_free s'
  end.

(** The post a mention is about: the status it replies to, as
    [handleMention] fetches it. *)
Definition source_post (e : Env) (notification : Mastodon.Notification)
  : option Mastodon.Status :=
  match Mastodon.st_InReplyToID (Mastodon.ntf_Status notification) with
  | Mastodon.RefNil => None
  | Mastodon.RefID id => Mastodon.GetStatus (client e) id
  | Mastodon.RefOther => Mastodon.GetStatus (client e) ""
  end.

(** The consent gate as the specification states it for a mention: when
    the author of the source post has no consent record, handling the
    mention calls the model provider no further. *)
Definition consent_gate_on_mention (cfg : Config) (e : Env) (b : Bot)
    (notification : Mastodon.Notification) : Prop :=
  forall status,
    source_post e notification = Some status ->
    Consent.HasUserConsent b (Mastodon.acc_ID (Mastodon.st_Account status)) = false ->
    provider_calls (trace (Handlers.handleMention cfg e b notification))
    = provider_calls (trace b).

(** The delete cascade as the specification states it: for a source with
    an entry, exactly one [DeleteStatus] call, for the recorded reply, and
    the entry is gone; for an id without entry, nothing happens. *)
Definition delete_cascade (e : Env) (b : Bot) (sourcePostId : string) : Prop :=
  let b' := Handlers.handleDeleteEvent e b sourcePostId in
  match replyMap b !! sourcePostId with
  | Some replyInfo =>
      trace b' = (trace b ++ [EvDeleteStatus (ri_ReplyID replyInfo)])%list
      /\ replyMap b' !! sourcePostId = None
  | None => b' = b
  end.

(** The escalation invariant of the rate limiter: an exceed counter above
    the threshold belongs to a banned or to a whitelisted user. *)
Definition exceed_implies_banned_or_whitelisted (cfg : Config)
    (rl : RateLimiter.t) : Prop :=
  forall u,
    RateLimit_ShadowBanThreshold cfg
    < GoInt.map_int (RateLimiter.ExceededCounts rl) u ->
    RateLimiter.IsShadowBanned rl u = true
    \/ GoInt.map_bool (RateLimiter.Whitelist rl) u = true.

(** No whitelisted user is in the ban set. *)
Definition whitelisted_not_banned (rl : RateLimiter.t) : Prop :=
  forall u,
    GoInt.map_bool (RateLimiter.Whitelist rl) u = true ->
    RateLimiter.IsShadowBanned rl u = false.

(** An operation does not add a whitelisted user to the ban set. *)
Definition never_bans_whitelisted (cfg : Config) (rl : RateLimiter.t)
    (op : RateLimiter.Op) : Prop :=
  forall u,
    GoInt.map_bool (RateLimiter.Whitelist rl) u = true ->
    RateLimiter.IsShadowBanned (RateLimiter.apply_op cfg rl op) u = true ->
    RateLimiter.IsShadowBanned rl u = true.

(** The escalation scenario as the specification states it, for five
    successive [Increment] calls: the first three are allowed, the 4th and
    5th denied, the exceed counter ends at 2, and right after the 4th call
    the user is banned and one notification has gone to the admin (so that
    the 5th call is rejected for the ban). *)
Definition escalation_as_stated (cfg : Config) (e : Env)
    (rl : RateLimiter.t) (userID : string) : Prop :=
  let rs := RateLimiter.increments cfg e rl userID 5 in
  let after n := snd (fst (nth n rs (false, rl, []))) in
  map (fun r => fst (fst r)) rs = [true; true; true; false; false]
  /\ GoInt.map_int (RateLimiter.ExceededCounts (after 4%nat)) userID = 2
  /\ RateLimiter.IsShadowBanned (after 3%nat) userID = true
  /\ List.length (snd (nth 3 rs (false, rl, []))) = 1%nat.

(** An attachment classified as unsupported: its type is none of image,
    supported video, or supported audio, and it has no description. *)
Definition unsupported (cfg : Config) (att : Mastodon.Attachment) : bool :=
  let ty := Mastodon.att_Type att in
  String.eqb (Mastodon.att_Description att) ""
  && negb (String.eqb ty "image")
  && negb ((String.eqb ty "video" || String.eqb ty "gifv")
           && videoProcessingCapability cfg)
  && negb (String.eqb ty "audio" && audioProcessingCapability cfg).

(** The worker of an attachment records exactly one element, the localized
    "unsupported" one. *)
Definition records_unsupported (cfg : Config) (e : Env)
    (replyPost : Mastodon.Status) (s : Job.State) (att : Mastodon.Attachment)
  : Prop :=
  Job.responses (Job.worker cfg e replyPost s att)
  = (Job.responses s
     ++ [getLocalizedString e (Mastodon.st_Language replyPost)
           "unsupportedFile" "response"])%list.

End Spec.

(* ===================================================================== *)
(** * Concrete accounts, posts and environments *)
(* ===================================================================== *)

Module Examples.

Definition account (id acct : string) : Mastodon.Account :=
  {| Mastodon.acc_ID := id; Mastodon.acc_Acct := acct;
     Mastodon.acc_Bot := false; Mastodon.acc_Note := "";
     Mastodon.acc_CreatedAt := 0 |}.

Definition alice : Mastodon.Account := account "U" "alice@example.social".
Definition bob : Mastodon.Account := account "V" "bob@example.social".

Definition image_without_alt : Mastodon.Attachment :=
  {| Mastodon.att_Type := "image";
     Mastodon.att_URL := "https://example.social/media/1.png";
     Mastodon.att_Description := "" |}.

Definition audio_without_alt : Mastodon.Attachment :=
  {| Mastodon.att_Type := "audio";
     Mastodon.att_URL := "https://example.social/media/2.mp3";
     Mastodon.att_Description := "" |}.

Definition document_without_alt : Mastodon.Attachment :=
  {| Mastodon.att_Type := "unknown";
     Mastodon.att_URL := "https://example.social/media/3.pdf";
     Mastodon.att_Description := "" |}.

(** Alice's post "S" with one image without alt-text. *)
Definition source_S : Mastodon.Status :=
  {| Mastodon.st_ID := "S"; Mastodon.st_InReplyToID := Mastodon.RefNil;
     Mastodon.st_Account := alice; Mastodon.st_Content := "<p>my cat</p>";
     Mastodon.st_MediaAttachments := [image_without_alt];
     Mastodon.st_Visibility := "public"; Mastodon.st_Language := "en";
     Mastodon.st_SpoilerText := "" |}.

(** A mention "M" of the bot, in reply to "S", by the given sender. *)
Definition mention_M (sender : Mastodon.Account) : Mastodon.Status :=
  {| Mastodon.st_ID := "M"; Mastodon.st_InReplyToID := Mastodon.RefID "S";
     Mastodon.st_Account := sender; Mastodon.st_Content := "<p>@altbot</p>";
     Mastodon.st_MediaAttachments := [];
     Mastodon.st_Visibility := "public"; Mastodon.st_Language := "en";
     Mastodon.st_SpoilerText := "" |}.

Definition notification_from (sender : Mastodon.Account) : Mastodon.Notification :=
  {| Mastodon.ntf_Account := sender; Mastodon.ntf_Status := mention_M sender |}.

(** A platform that knows "S" and the mention "M", accepts every post
    (answering the id "R") and, as said, confirms deletions or not. *)
Definition platform (sender : Mastodon.Account) (deletes : bool) : Mastodon.Client :=
  {| Mastodon.GetStatus := fun id =>
       if String.eqb id "S" then Some source_S
       else if String.eqb id "M" then Some (mention_M sender)
       else None;
     Mastodon.GetAccount := fun id =>
       if String.eqb id "U" then Some alice
       else if String.eqb id "V" then Some bob
       else None;
     Mastodon.PostStatus := fun _ => Some "R";
     Mastodon.DeleteStatus := fun _ => deletes |}.

(** An environment over a platform: no account is new, every generator
    reaches the provider and gets a description, the localizer answers the
    key it is asked for.  The texts of the examples are ASCII, so the
    Unicode path of the lowercasing is not taken; it is the identity
    here. *)
Definition env (c : Mastodon.Client) : Env :=
  {| client := c;
     now := 1000;
     within_new_account_period := fun _ => false;
     unicode_ToLower := fun s => s;
     generate := fun _ _ _ => GenProvider (Some "A cat asleep on a sofa.");
     elapsed_ms := fun _ => 1200;
     getLocalizedString := fun _ key _ => key;
     sprintf1 := fun format arg => format +:+ arg;
     getProviderAttribution := fun _ => "Alt-text by a model";
     powerInfo := fun _ _ => "" |}.

(** A configuration with the given rate limits and capabilities; legacy
    consent is off. *)
Definition config (enabled : bool) (perMinute perHour threshold : Z)
    (video audio : bool) : Config :=
  {| Server_Username := "altbot";
     DNI_Tags := ["#nobot"];
     DNI_IgnoreBots := true;
     Behavior_ReplyVisibility := "unlisted";
     Behavior_AskForConsent := false;
     LLM_Provider := if audio then "gemini" else if video then "transformers" else "ollama";
     PowerMetrics_Enabled := false;
     AltTextReminders_Enabled := false;
     RateLimit_Enabled := enabled;
     RateLimit_MaxRequestsPerMinute := perMinute;
     RateLimit_MaxRequestsPerHour := perHour;
     RateLimit_NewAccountMaxRequestsPerMinute := 1;
     RateLimit_NewAccountMaxRequestsPerHour := 1;
     RateLimit_ShadowBanThreshold := threshold;
     RateLimit_AdminContactHandle := "@admin@example.social";
     videoProcessingCapability := video;
     audioProcessingCapability := audio;
     devMode := false |}.

(** The same with the legacy consent setting on. *)
Definition asking_config : Config :=
  {| Server_Username := "altbot";
     DNI_Tags := ["#nobot"];
     DNI_IgnoreBots := true;
     Behavior_ReplyVisibility := "unlisted";
     Behavior_AskForConsent := true;
     LLM_Provider := "gemini";
     PowerMetrics_Enabled := false;
     AltTextReminders_Enabled := false;
     RateLimit_Enabled := true;
     RateLimit_MaxRequestsPerMinute := 5;
     RateLimit_MaxRequestsPerHour := 50;
     RateLimit_NewAccountMaxRequestsPerMinute := 1;
     RateLimit_NewAccountMaxRequestsPerHour := 1;
     RateLimit_ShadowBanThreshold := 3;
     RateLimit_AdminContactHandle := "@admin@example.social";
     videoProcessingCapability := true;
     audioProcessingCapability := true;
     devMode := false |}.

(** The bot with empty tables. *)
Definition fresh_bot : Bot :=
  {| consentDB := ∅; pendingGDPRRequests := ∅; consentRequests := ∅;
     replyMap := ∅; rateLimiter := RateLimiter.NewRateLimiter; trace := [] |}.

(** The bot after it answered "S" with the reply "R". *)
Definition bot_replied : Bot :=
  set_replyMap fresh_bot {["S" := {| ri_ReplyID := "R"; ri_Timestamp := 900 |}]}.

(** The escalation scenario: at most 3 requests per hour, ban at the
    second breach. *)
Definition escalation_config : Config := config true 10 3 2 true true.

Definition escalation_env : Env := env (platform bob true).

(** Six requests of Alice, her unban by the admin, three more requests. *)
Definition escalation_ops : list RateLimiter.Op :=
  let ask := RateLimiter.OpIncrement escalation_env "U" in
  [ask; ask; ask; ask; ask; ask;
   RateLimiter.OpUnbanAndWhitelistUser "U"; ask; ask; ask].

(** An API key issued to Carol, used 4 times this month. *)
Definition carol_key : API.APIKey :=
  {| API.Key := "altbot_5f2c"; API.Email := "carol@example.org";
     API.CreatedAt := 100; API.ExpiresAt := 9000; API.UsageMonth := 4;
     API.LastReset := 100; API.Active := true; API.Note := "" |}.

Definition key_store : gmap string API.APIKey :=
  {["altbot_5f2c" := carol_key]}.

(** A clock in seconds with months of 30 days and years of 12 months;
    the key file cannot be read. *)
Definition clock : API.Clock :=
  {| API.now_validate := 500; API.now_usage := 501;
     API.Month := fun t => (t / 2592000) mod 12;
     API.Year := fun t => t / 31104000;
     API.key_file := None |}.

(** A POST with Carol's key and the given body and fate in the queue. *)
Definition request (body : API.Body) (processing : API.Processing) : API.Request :=
  {| API.req_Method := "POST";
     API.req_Authorization := "Bearer altbot_5f2c";
     API.req_Body := body;
     API.req_Processing := processing |}.

End Examples.

(* ===================================================================== *)
(** * Go time *)
(* ===================================================================== *)

Module GoTime.

(** A [time.Time] is the number of nanoseconds from a fixed instant; a
    [time.Duration] is an [int64] number of nanoseconds. *)
Definition Second : Z := 1000000000.
Definition Hour : Z := 3600 * Second.
Definition minDuration : Z := - 2 ^ 63.
Definition maxDuration : Z := 2 ^ 63 - 1.

(** [t.Sub(u)]: the difference, or the largest (smallest) duration when the
    difference does not fit. *)
Definition Sub (t u : Z) : Z := Z.max minDuration (Z.min maxDuration (t - u)).

End GoTime.

(* ===================================================================== *)
(** * GDPR consent: pending requests and the two response paths *)
(* ===================================================================== *)

Module ConsentFlow.
Import GoString.

(** What one call into the consent file takes from outside. *)
Record Oracle := {
  (** [stripHTMLTags]: the text nodes of the parsed HTML *)
  stripHTMLTags : string -> string;
  (** [time.Since(t).Hours() > float64(pendingGDPRExpirationDays*24)], the
      floating-point test of the 30 days, as the clock decides it for a
      timestamp *)
  expired : Z -> bool;
  (** whether [saveConsentDatabase] succeeds *)
  saved : bool
}.

(** The link that marks a bot post as a consent prompt. *)
Definition privacy_policy : string :=
  "https://github.com/micr0-dev/Altbot/blob/main/PRIVACY.md".

(** [containsWord] *)
Definition containsWord (text word : string) : bool := Contains text word.

(** [GetPendingGDPRRequest]: an expired request is deleted on the way. *)
Definition GetPendingGDPRRequest (o : Oracle) (b : Bot) (userID : string)
  : option PendingGDPRRequest * Bot :=
  match pendingGDPRRequests b !! userID with
  | None => (None, b)
  | Some req =>
      if expired o (pg_Timestamp req)
      then (None, set_pendingGDPRRequests b (delete userID (pendingGDPRRequests b)))
      else (Some req, b)
  end.

(** [RemovePendingGDPRRequest] *)
Definition RemovePendingGDPRRequest (b : Bot) (userID : string) : Bot :=
  set_pendingGDPRRequests b (delete userID (pendingGDPRRequests b)).

(** [CleanupExpiredGDPRRequests]: the loop deletes every expired entry
    and counts the deletions.  The function holds [pendingGDPRMutex] (its
    unlock is deferred) when it calls [savePendingGDPRRequests], which
    locks the same mutex: once an entry was removed the call never
    returns. *)
Definition CleanupExpiredGDPRRequests (o : Oracle) (b : Bot) : Outcome :=
  let '(removed, requests) :=
    map_fold
      (fun userID req '(removed, requests) =>
         if expired o (pg_Timestamp req)
         then (GoInt.int_incr removed, delete userID requests)
         else (removed, requests))
      (0, pendingGDPRRequests b) (pendingGDPRRequests b) in
  let b1 := set_pendingGDPRRequests b requests in
  if 0 <? removed then Deadlock b1 else Returns b1.

(** [handleReplyBasedConsent]: the message answers a post; that post must
    be a consent prompt of the bot. *)
Definition handleReplyBasedConsent (cfg : Config) (e : Env) (o : Oracle)
    (b : Bot) (status : Mastodon.Status) (userID : string) : bool * Bot :=
  match Mastodon.st_InReplyToID status with
  | Mastodon.RefID originalStatusID =>
      match Mastodon.GetStatus (client e) originalStatusID with
      | None => (false, b)
      | Some parentStatus =>
          if negb (containsWord (stripHTMLTags o (Mastodon.st_Content parentStatus))
                     privacy_policy)
          then (false, b)
          else
            let '(ok, b1) :=
              Consent.checkAndRecordConsent cfg e (saved o) b status
                (stripHTMLTags o (Mastodon.st_Content status)) userID in
            if ok then (true, RemovePendingGDPRRequest b1 userID)
            else (false, b1)
      end
  | _ => (false, b)
  end.

(** [handleNonReplyConsent]: the message answers nothing; the sender must
    have a pending request. *)
Definition handleNonReplyConsent (cfg : Config) (e : Env) (o : Oracle)
    (b : Bot) (status : Mastodon.Status) (userID : string) : bool * Bot :=
  let '(pendingRequest, b0) := GetPendingGDPRRequest o b userID in
  match pendingRequest with
  | None => (false, b0)
  | Some _ =>
      let '(ok, b1) :=
        Consent.checkAndRecordConsent cfg e (saved o) b0 status
          (stripHTMLTags o (Mastodon.st_Content status)) userID in
      if ok then (true, RemovePendingGDPRRequest b1 userID)
      else (false, b1)
  end.

(** [HandleGDPRConsentResponse] *)
Definition HandleGDPRConsentResponse (cfg : Config) (e : Env) (o : Oracle)
    (b : Bot) (status : Mastodon.Status) : bool * Bot :=
  let userID := Mastodon.acc_ID (Mastodon.st_Account status) in
  match Mastodon.st_InReplyToID status with
  | Mastodon.RefNil =>
      if String.eqb (Mastodon.st_Visibility status) "direct"
      then handleNonReplyConsent cfg e o b status userID
      else (false, b)
  | _ => handleReplyBasedConsent cfg e o b status userID
  end.

(** The events a handler added to the trace. *)
Definition new_events (before after : Bot) : list Event :=
  drop (List.length (trace before)) (trace after).

(** A direct message. *)
Definition is_direct_post (ev : Event) : Prop :=
  match ev with
  | EvPostStatus t => Mastodon.toot_Visibility t = "direct"
  | _ => False
  end.

End ConsentFlow.

(* ===================================================================== *)
(** * Administration of the API keys and the usage endpoint *)
(* ===================================================================== *)

Module KeyAdmin.
Import GoString GoInt API.

Definition with_active (k : APIKey) (active : bool) : APIKey :=
  {| Key := Key k; Email := Email k; CreatedAt := CreatedAt k;
     ExpiresAt := ExpiresAt k; UsageMonth := UsageMonth k;
     LastReset := LastReset k; Active := active; Note := Note k |}.

Definition with_expiry (k : APIKey) (expiresAt : Z) : APIKey :=
  {| Key := Key k; Email := Email k; CreatedAt := CreatedAt k;
     ExpiresAt := expiresAt; UsageMonth := UsageMonth k;
     LastReset := LastReset k; Active := Active k; Note := Note k |}.

(** What the administration commands and the usage endpoint read from
    outside. *)
Record Calendar := {
  (** [time.Now()] in the test [time.Now().After(apiKey.ExpiresAt)] *)
  now_test : Z;
  (** [time.Now()] as the base of the new expiry *)
  now_base : Z;
  (** [t.AddDate(0, 0, days)] *)
  AddDays : Z -> Z -> Z;
  (** [int(time.Until(t).Hours() / 24)] *)
  days_until : Z -> Z;
  (** [saveToFileUnlocked] succeeds *)
  saved : bool
}.

(** [RevokeAPIKey]: true when no error is returned.  The key is
    deactivated in memory before the file is written. *)
Definition RevokeAPIKey (cal : Calendar) (store : gmap string APIKey)
    (key : string) : bool * gmap string APIKey :=
  match store !! key with
  | None => (false, store)
  | Some k => (saved cal, <[key := with_active k false]> store)
  end.

(** [ExtendAPIKey] *)
Definition ExtendAPIKey (cal : Calendar) (store : gmap string APIKey)
    (key : string) (additionalDays : Z) : bool * gmap string APIKey :=
  match store !! key with
  | None => (false, store)
  | Some k =>
      let expiresAt :=
        if ExpiresAt k <? now_test cal
        then AddDays cal (now_base cal) additionalDays
        else AddDays cal (ExpiresAt k) additionalDays in
      (saved cal, <[key := with_active (with_expiry k expiresAt) true]> store)
  end.

(** [GetAPIKeyUsage]: the usage of the month, the days that remain and the
    expiry, or [None] for the error. *)
Definition GetAPIKeyUsage (cal : Calendar) (store : gmap string APIKey)
    (key : string) : option (Z * Z * Z) :=
  match store !! key with
  | None => None
  | Some k =>
      let daysRemaining := days_until cal (ExpiresAt k) in
      let daysRemaining := if daysRemaining <? 0 then 0 else daysRemaining in
      Some (UsageMonth k, daysRemaining, ExpiresAt k)
  end.

(** The JSON object of the usage endpoint. *)
Record UsageReport := {
  usage_this_month : Z;
  monthly_limit : Z;
  remaining : Z;
  days_remaining : Z;
  expires_at : Z
}.

(** [handleUsage]: the HTTP status and the report of the answer. *)
Definition handleUsage (cal : Calendar) (monthlyLimit : Z)
    (store : gmap string APIKey) (method authorization : string)
  : Z * option UsageReport :=
  if negb (String.eqb method "GET") then (405, None)
  else
    let apiKey := extractAPIKey authorization in
    if String.eqb apiKey "" then (401, None)
    else
      match GetAPIKeyUsage cal store apiKey with
      | None => (401, None)
      | Some (usageMonth, daysRemaining, expiresAt) =>
          (200, Some {| usage_this_month := usageMonth;
                        monthly_limit := monthlyLimit;
                        remaining := wrap (monthlyLimit - usageMonth);
                        days_remaining := daysRemaining;
                        expires_at := expiresAt |})
      end.

(** [CleanupExpiredKeys]: the number of keys removed and the store
    afterwards.  [cutoff] is [time.Now().AddDate(0, 0, -30)]; the loop
    ranges over the store and deletes from it as it goes. *)
Definition CleanupExpiredKeys (cutoff : Z) (store : gmap string APIKey)
  : Z * gmap string APIKey :=
  map_fold
    (fun key apiKey '(removed, keys) =>
       if ExpiresAt apiKey <? cutoff
       then (int_incr removed, delete key keys)
       else (removed, keys))
    (0, store) store.

End KeyAdmin.

(* ===================================================================== *)
(** * The periodic jobs: reply table cleanup and alt-text reminders *)
(* ===================================================================== *)

Module Housekeeping.
Import GoString GoInt.

(** One pass of [cleanupOldEntries].  [now_at id] is the reading of the
    clock when the entry of [id] is examined; the timestamps of the table
    and the readings are instants of the monotonic clock. *)
Definition cleanupOldEntries (now_at : string -> Z) (b : Bot) : Bot :=
  set_replyMap b
    (filter (fun entry =>
               GoTime.Sub (now_at (fst entry)) (ri_Timestamp (snd entry))
               <= GoTime.Hour)
       (replyMap b)).

Record AltTextCheck := {
  ck_PostID : string;
  ck_UserID : string;
  ck_Timestamp : Z
}.

(** [altTextChecks], [altTextReminderTracker.LastReminded] and the
    statuses posted so far. *)
Record Reminders := {
  altTextChecks : gmap string AltTextCheck;
  LastReminded : gmap string Z;
  posted : list Mastodon.Toot
}.

(** The readings of the clock in one pass of the periodic check: at the
    top of the pass, and in [shouldSendReminder] for the check of a post
    (the test, then the new entry). *)
Record PassClock := {
  pass_now : Z;
  test_now : string -> Z;
  store_now : string -> Z
}.

(** [shouldSendReminder] *)
Definition shouldSendReminder (now_test now_store : Z)
    (lastReminded : gmap string Z) (userID : string)
  : bool * gmap string Z :=
  let exists_ := bool_decide (is_Some (lastReminded !! userID)) in
  if negb exists_
     || (24 * GoTime.Hour
         <=? GoTime.Sub now_test (default 0 (lastReminded !! userID)))
  then (true, <[userID := now_store]> lastReminded)
  else (false, lastReminded).

(** [queuePostForAltTextCheck] *)
Definition queuePostForAltTextCheck (now : Z) (r : Reminders)
    (post : Mastodon.Status) (userID : string) : Reminders :=
  {| altTextChecks :=
       <[Mastodon.st_ID post :=
           {| ck_PostID := Mastodon.st_ID post; ck_UserID := userID;
              ck_Timestamp := now |}]> (altTextChecks r);
     LastReminded := LastReminded r;
     posted := posted r |}.

(** The test of the periodic check on the post it fetched. *)
Definition missingAltText (post : Mastodon.Status) : bool :=
  existsb (fun media => String.eqb (Mastodon.att_Description media) "")
    (Mastodon.st_MediaAttachments post).

(** The status of [notifyUserOfMissingAltText]; the other fields of the
    toot are left at their zero values. *)
Definition reminder (e : Env) (post : Mastodon.Status) (userID : string)
  : Mastodon.Toot :=
  {| Mastodon.toot_Status :=
       sprintf1 e
         (getLocalizedString e (Mastodon.st_Language post)
            "altTextReminder" "response") userID;
     Mastodon.toot_InReplyToID := Mastodon.st_ID post;
     Mastodon.toot_Visibility := "direct";
     Mastodon.toot_Language := "";
     Mastodon.toot_SpoilerText := "" |}.

(** A check is due: [now.Sub(check.Timestamp) >= checkTime]. *)
Definition due (clk : PassClock) (checkTime : Z) (check : AltTextCheck)
  : bool :=
  checkTime <=? GoTime.Sub (pass_now clk) (ck_Timestamp check).

(** The body of the loop of [checkAltTextPeriodically] for one entry of
    the queue. *)
Definition check_entry (e : Env) (clk : PassClock) (checkTime : Z)
    (postID : string) (check : AltTextCheck) (r : Reminders) : Reminders :=
  if due clk checkTime check then
    match Mastodon.GetStatus (client e) (ck_PostID check) with
    | None =>
        {| altTextChecks := delete postID (altTextChecks r);
           LastReminded := LastReminded r;
           posted := posted r |}
    | Some post =>
        let r1 :=
          if missingAltText post then
            let '(send, lastReminded) :=
              shouldSendReminder (test_now clk postID) (store_now clk postID)
                (LastReminded r) (ck_UserID check) in
            {| altTextChecks := altTextChecks r;
               LastReminded := lastReminded;
               posted :=
                 if send
                 then posted r
                      ++ [reminder e post
                            (Mastodon.acc_Acct (Mastodon.st_Account post))]
                 else posted r |}
          else r in
        {| altTextChecks := delete postID (altTextChecks r1);
           LastReminded := LastReminded r1;
           posted := posted r1 |}
    end
  else r.

(** One pass of [checkAltTextPeriodically] after its sleep.  The loop
    ranges over the queue in an order Go does not fix; here it is the
    order of [map_fold]. *)
Definition checkAltTextPeriodically (e : Env) (clk : PassClock)
    (checkTime : Z) (r : Reminders) : Reminders :=
  map_fold (check_entry e clk checkTime) r (altTextChecks r).

End Housekeeping.

Module MoreExamples.

(** An oracle for the consent file: the content is plain text already,
    requests older than the instant 500 have expired, snapshots succeed. *)
Definition consent_oracle : ConsentFlow.Oracle :=
  {| ConsentFlow.stripHTMLTags := fun s => s;
     ConsentFlow.expired := fun t => t <? 500;
     ConsentFlow.saved := true |}.

(** A direct message of Alice that replies to nothing. *)
Definition direct_message (content : string) : Mastodon.Status :=
  {| Mastodon.st_ID := "D"; Mastodon.st_InReplyToID := Mastodon.RefNil;
     Mastodon.st_Account := Examples.alice; Mastodon.st_Content := content;
     Mastodon.st_MediaAttachments := [];
     Mastodon.st_Visibility := "direct"; Mastodon.st_Language := "en";
     Mastodon.st_SpoilerText := "" |}.

(** An account that asks not to be interacted with, in its profile note. *)
Definition dave : Mastodon.Account :=
  {| Mastodon.acc_ID := "W"; Mastodon.acc_Acct := "dave@example.social";
     Mastodon.acc_Bot := false;
     Mastodon.acc_Note := "<p>cat pictures, #nobot please</p>";
     Mastodon.acc_CreatedAt := 0 |}.

(** Alice's post "S" after she described the image herself. *)
Definition described_S : Mastodon.Status :=
  {| Mastodon.st_ID := "S"; Mastodon.st_InReplyToID := Mastodon.RefNil;
     Mastodon.st_Account := Examples.alice;
     Mastodon.st_Content := "<p>my cat</p>";
     Mastodon.st_MediaAttachments :=
       [ {| Mastodon.att_Type := "image";
            Mastodon.att_URL := "https://example.social/media/1.png";
            Mastodon.att_Description := "A grey cat asleep on a red sofa." |} ];
     Mastodon.st_Visibility := "public"; Mastodon.st_Language := "en";
     Mastodon.st_SpoilerText := "" |}.

(** A platform that knows "S" and refuses every post. *)
Definition refusing_platform : Mastodon.Client :=
  {| Mastodon.GetStatus := fun id =>
       if String.eqb id "S" then Some Examples.source_S else None;
     Mastodon.GetAccount := fun _ => None;
     Mastodon.PostStatus := fun _ => None;
     Mastodon.DeleteStatus := fun _ => false |}.

(** A calendar in seconds with days of 86400 seconds; saving succeeds. *)
Definition calendar : KeyAdmin.Calendar :=
  {| KeyAdmin.now_test := 500; KeyAdmin.now_base := 500;
     KeyAdmin.AddDays := fun t days => t + 86400 * days;
     KeyAdmin.days_until := fun t => (t - 500) / 86400;
     KeyAdmin.saved := true |}.

(** A second key, of Erin, that expired long ago. *)
Definition erin_key : API.APIKey :=
  {| API.Key := "altbot_77aa"; API.Email := "erin@example.org";
     API.CreatedAt := 10; API.ExpiresAt := 50; API.UsageMonth := 7;
     API.LastReset := 10; API.Active := true; API.Note := "" |}.

Definition two_keys : gmap string API.APIKey :=
  <["altbot_77aa" := erin_key]> Examples.key_store.

(** A clock whose key file holds Carol's key as it was saved, with no
    usage yet. *)
Definition clock_with_file : API.Clock :=
  {| API.now_validate := 500; API.now_usage := 501;
     API.Month := fun t => (t / 2592000) mod 12;
     API.Year := fun t => t / 31104000;
     API.key_file :=
       Some {["altbot_5f2c" := API.with_usage Examples.carol_key 0 100]} |}.

End MoreExamples.

Module MoreSpec.

(** [sub] occurs somewhere in [s]. *)
Definition occurs_in (sub s : string) : Prop :=
  exists pre post, s = pre +:+ sub +:+ post.

(** An attachment that [handleUpdate] would act on: eligible type, no
    description. *)
Definition needs_alt_text (cfg : Config) (att : Mastodon.Attachment) : bool :=
  Handlers.eligible_type cfg att
  && String.eqb (Mastodon.att_Description att) "".

(** The call to the provider that the worker of an attachment can make:
    none for an attachment with a description or of a type the provider
    cannot take. *)
Definition expected_call (cfg : Config) (att : Mastodon.Attachment)
  : option (MediaKind * string) :=
  let ty := Mastodon.att_Type att in
  let url := Mastodon.att_URL att in
  if negb (String.eqb (Mastodon.att_Description att) "") then None
  else if String.eqb ty "image" then Some (Image, url)
  else if (String.eqb ty "video" || String.eqb ty "gifv")
          && videoProcessingCapability cfg then Some (Video, url)
  else if String.eqb ty "audio" && audioProcessingCapability cfg
  then Some (Audio, url)
  else None.

(** How wide the audience of a visibility is. *)
Definition audience (v : string) : Z :=
  if String.eqb v "public" then 3
  else if String.eqb v "unlisted" then 2
  else if String.eqb v "private" then 1
  else 0.

(** The statuses posted among a list of events. *)
Definition post_calls (evs : list Event) : list Mastodon.Toot :=
  omap (fun ev => match ev with EvPostStatus t => Some t | _ => None end) evs.

(** The attachments without a description. *)
Definition undescribed (atts : list Mastodon.Attachment)
  : list Mastodon.Attachment :=
  List.filter (fun att => String.eqb (Mastodon.att_Description att) "") atts.

(** Some attachment has a description. *)
Definition some_described (atts : list Mastodon.Attachment) : bool :=
  existsb (fun att => negb (String.eqb (Mastodon.att_Description att) "")) atts.

(** Successive calls of [CheckAndIncrementUsage] for one key, one for each
    clock reading: how many were granted, and the store afterwards. *)
Fixpoint charge (clocks : list API.Clock) (store : gmap string API.APIKey)
    (key : string) (monthlyLimit : Z) : nat * gmap string API.APIKey :=
  match clocks with
  | [] => (0%nat, store)
  | c :: rest =>
      let '(ok, store1) := API.CheckAndIncrementUsage c store key monthlyLimit in
      let '(granted, store2) := charge rest store1 key monthlyLimit in
      (if ok then S granted else granted, store2)
  end.

(** The clock reads an instant in the month of the key's last reset. *)
Definition same_month (k : API.APIKey) (c : API.Clock) : Prop :=
  API.Month c (API.now_usage c) = API.Month c (API.LastReset k)
  /\ API.Year c (API.now_usage c) = API.Year c (API.LastReset k).

(** What a reminder posted in a pass over the checks [m] is: a direct
    message in reply to a post of a due check that the platform still
    shows with an attachment without description. *)
Definition reminder_of (e : Env) (clk : Housekeeping.PassClock) (checkTime : Z)
    (m : gmap string Housekeeping.AltTextCheck) (toot : Mastodon.Toot) : Prop :=
  Mastodon.toot_Visibility toot = "direct"
  /\ exists postID check post,
      m !! postID = Some check
      /\ Housekeeping.due clk checkTime check = true
      /\ Mastodon.GetStatus (client e) (Housekeeping.ck_PostID check) = Some post
      /\ Housekeeping.missingAltText post = true
      /\ Mastodon.toot_InReplyToID toot = Mastodon.st_ID post.


End MoreSpec.

(* ===================================================================== *)
(** * Facts about Go strings *)
(* ===================================================================== *)

Module GoStringFacts.
Import GoString.

Lemma append_cons (c : ascii) (s t : string) :
  String c s +:+ t = String c (s +:+ t).
Proof. reflexivity. Qed.

Lemma append_nil (t : string) : "" +:+ t = t.
Proof. reflexivity. Qed.

Lemma length_append (s t : string) :
  String.length (s +:+ t) = (String.length s + String.length t)%nat.
Proof.
  induction s as [|c s IH]; [reflexivity|].
  rewrite append_cons. simpl. now rewrite IH.
Qed.

Lemma append_assoc (s t u : string) : (s +:+ t) +:+ u = s +:+ (t +:+ u).
Proof.
  induction s as [|c s IH]; [reflexivity|].
  rewrite !append_cons. now rewrite IH.
Qed.

Lemma append_empty_r (s : string) : s +:+ "" = s.
Proof.
  induction s as [|c s IH]; [reflexivity|].
  rewrite append_cons. now rewrite IH.
Qed.

Lemma substring_whole (w post : string) :
  String.substring 0 (String.length w) (w +:+ post) = w.
Proof.
  induction w as [|c w IH].
  - rewrite append_nil. destruct post; reflexivity.
  - rewrite append_cons. simpl. now rewrite IH.
Qed.

(** The occurrence that a decomposition names is found by [slice]. *)
Lemma substring_middle (pre w post : string) :
  String.substring (String.length pre) (String.length w) (pre +:+ w +:+ post) = w.
Proof.
  induction pre as [|c pre IH].
  - rewrite append_nil. apply substring_whole.
  - rewrite append_cons. simpl. exact IH.
Qed.

Lemma get_after (pre s : string) :
  String.get (String.length pre) (pre +:+ s) = String.get 0 s.
Proof.
  induction pre as [|c pre IH]; [reflexivity|].
  rewrite append_cons. simpl. exact IH.
Qed.

Lemma get_last (pre s : string) :
  pre <> "" ->
  String.get (String.length pre - 1) (pre +:+ s) = Spec.last_byte pre.
Proof.
  unfold Spec.last_byte.
  induction pre as [|c pre IH]; intros Hne; [congruence|].
  rewrite append_cons. simpl String.length. rewrite Nat.sub_succ, Nat.sub_0_r.
  destruct pre as [|d pre]; [reflexivity|].
  simpl String.length in *. rewrite Nat.sub_succ, Nat.sub_0_r in IH.
  change (String.get (S (String.length pre)) (String c (String d pre +:+ s)))
    with (String.get (String.length pre) (String d pre +:+ s)).
  change (String.get (S (String.length pre)) (String c (String d pre)))
    with (String.get (String.length pre) (String d pre)).
  apply IH. congruence.
Qed.

Lemma substring_0_cons (c : ascii) (text : string) (i : nat) :
  String.substring 0 (S i) (String c text) = String c (String.substring 0 i text).
Proof. reflexivity. Qed.

Lemma substring_0_0 (text : string) : String.substring 0 0 text = "".
Proof. destruct text; reflexivity. Qed.

Lemma substring_all (text : string) :
  String.substring 0 (String.length text) text = text.
Proof.
  induction text as [|c text IH]; [reflexivity|].
  simpl. now rewrite IH.
Qed.

(** Cutting a string at an occurrence. *)
Lemma substring_split (text : string) (i n : nat) :
  (i + n <= String.length text)%nat ->
  text = String.substring 0 i text +:+ String.substring i n text +:+
         String.substring (i + n) (String.length text - (i + n)) text.
Proof.
  revert i n. induction text as [|c text IH]; intros i n Hle.
  - simpl in Hle. assert (i = 0%nat) by lia. assert (n = 0%nat) by lia.
    subst. reflexivity.
  - simpl in Hle. destruct i as [|i].
    + destruct n as [|n].
      * rewrite substring_0_0, !append_nil. simpl.
        now rewrite substring_all.
      * rewrite substring_0_0, append_nil, substring_0_cons, append_cons.
        f_equal. specialize (IH 0%nat n).
        rewrite substring_0_0, append_nil in IH. simpl in *.
        apply IH. lia.
    + rewrite substring_0_cons, append_cons. f_equal.
      change (String.substring (S i) n (String c text))
        with (String.substring i n text).
      change (String.substring (S i + n) (String.length (String c text) - (S i + n))
                (String c text))
        with (String.substring (i + n) (String.length text - (i + n)) text).
      apply IH. lia.
Qed.

Lemma length_substring_0 (text : string) (i : nat) :
  (i <= String.length text)%nat ->
  String.length (String.substring 0 i text) = i.
Proof.
  revert i. induction text as [|c text IH]; intros i Hle; simpl in Hle.
  - assert (i = 0%nat) by lia. subst. reflexivity.
  - destruct i as [|i]; [reflexivity|].
    rewrite substring_0_cons. simpl. rewrite IH; lia.
Qed.

Lemma isLetter_spec (b : ascii) : isLetter b = true <-> Spec.ascii_letter b.
Proof.
  unfold isLetter, Spec.ascii_letter.
  rewrite orb_true_iff, !andb_true_iff, !Z.leb_le. lia.
Qed.

End GoStringFacts.

(* ===================================================================== *)
(** * The whole-word test of the consent detector *)
(* ===================================================================== *)

Module ConsentFacts.
Import GoString GoStringFacts Consent.

Lemma substring_len_0 (text : string) (n : nat) : String.substring n 0 text = "".
Proof.
  revert n. induction text as [|c text IH]; intros [|n]; try reflexivity.
  simpl. apply IH.
Qed.

Lemma boundary_free_spec (ob : option ascii) :
  boundary_free ob = true <-> Spec.not_a_letter ob.
Proof.
  destruct ob as [b|]; simpl; [|tauto].
  rewrite negb_true_iff, <- isLetter_spec.
  destruct (isLetter b); split; congruence.
Qed.

Lemma last_byte_empty_iff (s : string) : s = "" \/ s <> "".
Proof. destruct s; [left; reflexivity | right; congruence]. Qed.

(** An occurrence found by the loop is a whole-word occurrence. *)
Lemma match_at_sound (text word : string) (i : nat) :
  (i + String.length word <= String.length text)%nat ->
  match_at text word i = true ->
  Spec.whole_word_in word text.
Proof.
  intros Hle Hm. unfold match_at, slice, byte_at, len in Hm.
  apply andb_true_iff in Hm as [Hm Hright].
  apply andb_true_iff in Hm as [Hsub Hleft].
  apply String.eqb_eq in Hsub.
  pose proof (substring_split text i (String.length word) Hle) as Hsplit.
  rewrite Hsub in Hsplit.
  set (pre := String.substring 0 i text) in *.
  set (post := String.substring (i + String.length word)
                 (String.length text - (i + String.length word)) text) in *.
  assert (Hpre : String.length pre = i)
    by (apply length_substring_0; lia).
  exists pre, post. split; [exact Hsplit|]. split.
  - apply orb_true_iff in Hleft as [Hz | Hb].
    + apply Nat.eqb_eq in Hz. subst i.
      destruct pre; [exact I | discriminate].
    + destruct (last_byte_empty_iff pre) as [-> | Hne]; [exact I|].
      apply boundary_free_spec.
      rewrite <- (get_last pre (word +:+ post) Hne), <- Hsplit, Hpre.
      exact Hb.
  - apply orb_true_iff in Hright as [Hz | Hb].
    + apply Nat.eqb_eq in Hz.
      assert (Hp : post = "").
      { unfold post. rewrite Hz, Nat.sub_diag. apply substring_len_0. }
      rewrite Hp. exact I.
    + apply boundary_free_spec. unfold Spec.first_byte.
      rewrite <- (get_after (pre +:+ word) post), append_assoc, <- Hsplit.
      rewrite length_append, Hpre. exact Hb.
Qed.

(** A whole-word occurrence is found by the loop at its position. *)
Lemma match_at_complete (pre word post : string) :
  Spec.not_a_letter (Spec.last_byte pre) ->
  Spec.not_a_letter (Spec.first_byte post) ->
  match_at (pre +:+ word +:+ post) word (String.length pre) = true.
Proof.
  intros Hl Hr. unfold match_at, slice, byte_at, len.
  rewrite substring_middle, String.eqb_refl. simpl andb.
  apply andb_true_iff. split.
  - destruct (last_byte_empty_iff pre) as [-> | Hne]; [reflexivity|].
    apply orb_true_iff. right.
    rewrite (get_last pre (word +:+ post) Hne).
    now apply boundary_free_spec.
  - apply orb_true_iff.
    destruct (last_byte_empty_iff post) as [-> | Hne].
    + left. apply Nat.eqb_eq.
      rewrite !length_append. simpl. lia.
    + right. rewrite <- length_append, <- append_assoc, get_after.
      now apply boundary_free_spec.
Qed.

(** [containsWholeWord] decides whole-word occurrence. *)
Lemma containsWholeWord_iff (text word : string) :
  containsWholeWord text word = true <-> Spec.whole_word_in word text.
Proof.
  unfold containsWholeWord, len. split.
  - destruct (String.eqb_spec text word) as [-> | Hne].
    + intros _. exists "", "". rewrite append_nil, append_empty_r.
      repeat split; exact I.
    + intros Hex. apply existsb_exists in Hex as (i & Hin & Hm).
      apply in_seq in Hin. apply (match_at_sound text word i); [lia | exact Hm].
  - intros (pre & post & -> & Hl & Hr).
    destruct (String.eqb_spec (pre +:+ word +:+ post) word) as [_ | _];
      [reflexivity|].
    apply existsb_exists. exists (String.length pre). split.
    + apply in_seq. rewrite !length_append. lia.
    + now apply match_at_complete.
Qed.

End ConsentFacts.

Module ConsentDetector.
Import GoString GoStringFacts Consent ConsentFacts.

Lemma affirmative_iff (responseText : string) :
  affirmative responseText = true <->
  exists token, In token Spec.affirmative_tokens
                /\ Spec.whole_word_in token responseText.
Proof.
  unfold affirmative. rewrite existsb_exists.
  split; intros (token & Hin & H); exists token; (split; [exact Hin|]);
    now apply containsWholeWord_iff.
Qed.

(** No token occurs in the empty text. *)
Lemma no_token_in_empty (token : string) :
  In token Spec.affirmative_tokens -> ~ Spec.whole_word_in token "".
Proof.
  intros Hin (pre & post & Heq & _).
  apply (f_equal String.length) in Heq.
  rewrite !length_append in Heq. simpl in Heq.
  assert (Hpos : (0 < String.length token)%nat).
  { simpl in Hin.
    repeat (destruct Hin as [<- | Hin]; [simpl; lia|]). destruct Hin. }
  lia.
Qed.

(** The lowercased empty text is empty. *)
Lemma strings_ToLower_empty (lower_runes : string -> string) :
  strings_ToLower lower_runes "" = "".
Proof. reflexivity. Qed.

(** On a text without a byte above 0x7f the lowering is the byte-wise one,
    whatever the Unicode mapping does. *)
Lemma strings_ToLower_ascii (lower_runes : string -> string) (s : string) :
  is_ascii s = true -> strings_ToLower lower_runes s = ToLower s.
Proof. intros H. unfold strings_ToLower. now rewrite H. Qed.

(** A text with a byte above 0x7f goes through the Unicode mapping: where
    Go lowers the Kelvin sign (U+212A, the bytes e2 84 aa) to "k", the body
    "O" followed by the Kelvin sign reads "ok" and is accepted. *)
Lemma kelvin_sign_is_lowered (cfg : Config) (e : Env) (b : Bot)
    (status : Mastodon.Status) (userID : string) :
  let body :=
    String "O" (String (ascii_of_nat 226) (String (ascii_of_nat 132)
      (String (ascii_of_nat 170) EmptyString))) in
  unicode_ToLower e body = "ok" ->
  fst (checkAndRecordConsent cfg e true b status body userID) = true.
Proof.
  intros body Hlow. unfold checkAndRecordConsent.
  change (String.eqb body "") with false. cbv iota.
  change (strings_ToLower (unicode_ToLower e) body) with (unicode_ToLower e body).
  rewrite Hlow. reflexivity.
Qed.

(** C5.  The affirmative detector of [checkAndRecordConsent] accepts a
    message exactly when the lowercased plain text of its body contains one
    of the tokens yes, agree, i agree, consent, i consent, ok, okay, ja,
    oui, si as a whole word, the characters next to the occurrence not
    being ASCII letters.  Accepting means granting: the sender has a
    consent record afterwards exactly when they had one before or the
    message is accepted, and the call answers true exactly when the
    message is accepted and the snapshot of the ledger succeeds.  Bodies
    that contain only "yesterday" or "eyes" grant nothing; "Yes!", "yes."
    and "I agree." grant consent. *)
Theorem affirmative_consent_is_whole_word_match :
  (forall cfg e saved b status plainTextContent userID,
      let r := checkAndRecordConsent cfg e saved b status plainTextContent
                 userID in
      let accepted :=
        exists token,
          In token Spec.affirmative_tokens
          /\ Spec.whole_word_in token
               (strings_ToLower (unicode_ToLower e) plainTextContent) in
      (HasUserConsent (snd r) userID = true
       <-> HasUserConsent b userID = true \/ accepted)
      /\ (fst r = true <-> accepted /\ saved = true)
      /\ (~ accepted -> r = (false, b)))
  /\ (forall cfg e saved b status userID,
         checkAndRecordConsent cfg e saved b status "yesterday" userID
         = (false, b)
         /\ checkAndRecordConsent cfg e saved b status "eyes" userID
            = (false, b)
         /\ HasUserConsent
              (snd (checkAndRecordConsent cfg e saved b status "Yes!" userID))
              userID = true
         /\ HasUserConsent
              (snd (checkAndRecordConsent cfg e saved b status "yes." userID))
              userID = true
         /\ HasUserConsent
              (snd (checkAndRecordConsent cfg e saved b status "I agree." userID))
              userID = true
         /\ fst (checkAndRecordConsent cfg e saved b status "Yes!" userID)
            = saved
         /\ fst (checkAndRecordConsent cfg e saved b status "yes." userID)
            = saved
         /\ fst (checkAndRecordConsent cfg e saved b status "I agree." userID)
            = saved).
Proof.
  assert (Hrecorded : forall (e : Env) (b : Bot) (userID method : string)
                             (saved : bool),
    HasUserConsent (snd (RecordUserConsent e saved b userID method)) userID
    = true).
  { intros e b userID method saved. unfold HasUserConsent, RecordUserConsent.
    simpl. rewrite lookup_insert_eq. apply bool_decide_eq_true.
    eexists. reflexivity. }
  split.
  - intros cfg e saved b status plain userID r accepted.
    assert (Hacc : affirmative (strings_ToLower (unicode_ToLower e) plain)
                   = true <-> accepted) by apply affirmative_iff.
    unfold r, checkAndRecordConsent.
    destruct (String.eqb_spec plain "") as [-> | Hne].
    + assert (Hno : ~ accepted).
      { intros (token & Hin & Hw). rewrite strings_ToLower_empty in Hw.
        exact (no_token_in_empty token Hin Hw). }
      simpl. split; [tauto|]. split; [|reflexivity].
      split; [discriminate | tauto].
    + destruct (affirmative (strings_ToLower (unicode_ToLower e) plain))
        eqn:Ea; simpl.
      * assert (Hyes : accepted) by (apply Hacc; reflexivity).
        pose proof (Hrecorded e b userID "explicit" saved) as Hrec.
        destruct saved; simpl.
        -- split; [|split; [tauto | tauto]].
           unfold sendConsentConfirmation.
           destruct (devMode cfg); simpl; tauto.
        -- split; [tauto|]. split; [|tauto].
           split; [discriminate | intros [_ H]; discriminate H].
      * assert (Hno : ~ accepted)
          by (intros H; apply Hacc in H; discriminate).
        split; [tauto|]. split; [|reflexivity].
        split; [discriminate | tauto].
  - intros cfg e saved b status userID.
    split; [reflexivity|]. split; [reflexivity|].
    assert (Hgrant : forall plain,
      plain <> "" ->
      affirmative (strings_ToLower (unicode_ToLower e) plain) = true ->
      HasUserConsent
        (snd (checkAndRecordConsent cfg e saved b status plain userID)) userID
      = true
      /\ fst (checkAndRecordConsent cfg e saved b status plain userID) = saved).
    { intros plain Hne Ha. unfold checkAndRecordConsent.
      apply String.eqb_neq in Hne. rewrite Hne, Ha. simpl.
      pose proof (Hrecorded e b userID "explicit" saved) as Hrec.
      destruct saved; simpl; [|tauto].
      unfold sendConsentConfirmation. destruct (devMode cfg); simpl; tauto. }
    destruct (Hgrant "Yes!") as [G1 A1]; [discriminate | reflexivity|].
    destruct (Hgrant "yes.") as [G2 A2]; [discriminate | reflexivity|].
    destruct (Hgrant "I agree.") as [G3 A3]; [discriminate | reflexivity|].
    tauto.
Qed.

End ConsentDetector.

(* ===================================================================== *)
(** * The content warning of the reply *)
(* ===================================================================== *)

Module ContentWarning.
Import GoString GoStringFacts Job.

Lemma prefix_append (p q s : string) :
  String.prefix (p +:+ q) s = true -> String.prefix p s = true.
Proof.
  revert s. induction p as [|c p IH]; intros s H.
  - destruct s; reflexivity.
  - rewrite append_cons in H. destruct s as [|d s]; [discriminate|].
    simpl in *. destruct (ascii_dec c d); [now apply IH | discriminate].
Qed.

Lemma contentWarning_unfold (s : string) :
  contentWarning s =
  if String.eqb s "" || String.prefix "re:" s then s else "re: " +:+ s.
Proof.
  unfold contentWarning, HasPrefix.
  destruct (String.eqb s ""), (String.prefix "re:" s); reflexivity.
Qed.

(** C7, the claim as stated fails: a content warning that begins with "re:"
    but not with "re: " is carried through unchanged, where the
    specification's wording prepends the prefix. *)
Lemma content_warning_re_colon_counterexample :
  contentWarning "re:food" = "re:food"
  /\ Spec.contentWarning_spec "re:food" = "re: re:food"
  /\ contentWarning "re:food" <> Spec.contentWarning_spec "re:food".
Proof. repeat split; try reflexivity. discriminate. Qed.

(** C7, amended.  The reply's content warning equals the source's spoiler
    text, except that the prefix "re: " is prepended when the spoiler text
    is non-empty and does not already begin with "re:" (with or without a
    following space); a spoiler text that begins with "re: " is carried
    through unchanged, and prefixing is idempotent. *)
Theorem content_warning_prefix (spoilerText : string) :
  contentWarning spoilerText =
    (if String.eqb spoilerText "" || String.prefix "re:" spoilerText
     then spoilerText else "re: " +:+ spoilerText)
  /\ (String.prefix "re: " spoilerText = true ->
      contentWarning spoilerText = spoilerText)
  /\ contentWarning (contentWarning spoilerText) = contentWarning spoilerText.
Proof.
  split; [apply contentWarning_unfold|]. split.
  - intros H. rewrite contentWarning_unfold.
    change "re: " with ("re:" +:+ " ") in H.
    rewrite (prefix_append _ _ _ H), orb_true_r. reflexivity.
  - rewrite (contentWarning_unfold spoilerText).
    destruct (String.eqb spoilerText "" || String.prefix "re:" spoilerText) eqn:E.
    + rewrite contentWarning_unfold, E. reflexivity.
    + rewrite contentWarning_unfold.
      change ("re: " +:+ spoilerText)
        with (String "r" (String "e" (String ":" (String " " spoilerText)))).
      reflexivity.
Qed.

(** The amended statement at the warnings "food", "re: food" and "". *)
Lemma content_warning_prefix_witness :
  contentWarning "food" = "re: food"
  /\ contentWarning "re: food" = "re: food"
  /\ contentWarning (contentWarning "food") = contentWarning "food".
Proof.
  destruct (content_warning_prefix "food") as (H1 & _ & H3).
  destruct (content_warning_prefix "re: food") as (_ & H2 & _).
  split; [exact H1|]. split; [apply H2; reflexivity | exact H3].
Defined.

End ContentWarning.

(* ===================================================================== *)
(** * The visibility of the reply *)
(* ===================================================================== *)

Module Visibility.
Import GoString GoStringFacts Job.

Lemma ToLower_append (s t : string) :
  ToLower (s +:+ t) = ToLower s +:+ ToLower t.
Proof.
  induction s as [|c s IH]; [reflexivity|].
  rewrite append_cons. simpl. now rewrite IH, append_cons.
Qed.

Lemma comma_free_no_comma (x y : string) :
  Spec.comma_free (x +:+ String "," y) = false.
Proof.
  induction x as [|c x IH]; [reflexivity|].
  rewrite append_cons. simpl. rewrite IH. apply andb_false_r.
Qed.

(** A key "a,p" with a comma-free second part splits in one way only. *)
Lemma key_split (a b p q : string) :
  Spec.comma_free p = true -> Spec.comma_free q = true ->
  a +:+ String "," p = b +:+ String "," q -> a = b /\ p = q.
Proof.
  intros Hp Hq. revert b. induction a as [|c a IH]; intros [|d b] Heq.
  - rewrite (append_nil (String "," p)), (append_nil (String "," q)) in Heq.
    injection Heq as ->. tauto.
  - rewrite (append_nil (String "," p)), (append_cons d b) in Heq.
    injection Heq as <- ->. rewrite comma_free_no_comma in Hp. discriminate.
  - rewrite (append_nil (String "," q)), (append_cons c a) in Heq.
    injection Heq as -> <-. rewrite comma_free_no_comma in Hq. discriminate.
  - rewrite (append_cons c a), (append_cons d b) in Heq.
    injection Heq as -> Heq.
    destruct (IH b Heq) as [-> ->]. tauto.
Qed.

Lemma key_eqb (a b p q : string) :
  Spec.comma_free p = true -> Spec.comma_free q = true ->
  String.eqb (a +:+ "," +:+ p) (b +:+ "," +:+ q)
  = String.eqb a b && String.eqb p q.
Proof.
  intros Hp Hq.
  change ("," +:+ p) with (String "," p). change ("," +:+ q) with (String "," q).
  destruct (String.eqb_spec (a +:+ String "," p) (b +:+ String "," q)) as [Heq | Hne].
  - destruct (key_split a b p q Hp Hq Heq) as [-> ->].
    now rewrite !String.eqb_refl.
  - symmetry. apply andb_false_iff.
    destruct (String.eqb_spec a b) as [-> |]; [|now left].
    destruct (String.eqb_spec p q) as [-> |]; [|now right].
    congruence.
Qed.

(** The switch on the concatenated key is the lookup in the table. *)
Lemma switch_is_table (a p default : string)
    (rows : list (string * string * string)) :
  Spec.comma_free p = true ->
  Forall (fun row => Spec.comma_free (snd (fst row)) = true) rows ->
  switch_string (a +:+ "," +:+ p)
    (map (fun row => (fst (fst row) +:+ "," +:+ snd (fst row), snd row)) rows)
    default
  = Spec.table_lookup a p rows default.
Proof.
  intros Hp Hrows. induction Hrows as [|[[c q] v] rows Hq _ IH]; [reflexivity|].
  simpl in *. rewrite (key_eqb a c p q Hp Hq), IH. reflexivity.
Qed.

Lemma post_visibility_lower (v : string) :
  Spec.post_visibility v -> ToLower v = v /\ Spec.comma_free v = true.
Proof. intros [-> | [-> | [-> | ->]]]; split; reflexivity. Qed.

(** On the four visibilities of a post, the code computes the mapping of
    the specification on the lowercased setting. *)
Lemma replyVisibility_is_mapping (configured post : string) :
  Spec.post_visibility post ->
  replyVisibility configured post
  = Spec.visibility_mapping (ToLower configured) post.
Proof.
  intros Hv. destruct (post_visibility_lower post Hv) as [Hlow Hcf].
  unfold replyVisibility, Spec.visibility_mapping.
  rewrite !ToLower_append, Hlow.
  change (ToLower ",") with ",".
  change visibility_cases
    with (map (fun row : string * string * string =>
                 (fst (fst row) +:+ "," +:+ snd (fst row), snd row))
              Spec.visibility_table).
  rewrite switch_is_table; [reflexivity | exact Hcf |].
  repeat constructor.
Qed.

Lemma mapping_is_post_visibility (lc post : string) :
  Spec.post_visibility post ->
  Spec.post_visibility (Spec.visibility_mapping lc post).
Proof.
  unfold Spec.visibility_mapping, Spec.post_visibility.
  intros [-> | [-> | [-> | ->]]]; simpl;
    repeat match goal with
           | |- context [String.eqb lc ?x] => destruct (String.eqb lc x)
           end; simpl; tauto.
Qed.

(** C6, the claim as stated fails: with the reply visibility configured as
    private, a public post is mapped to private, and private is mapped to
    direct. *)
Lemma visibility_private_counterexample :
  replyVisibility "private" "public" = "private"
  /\ replyVisibility "private" (replyVisibility "private" "public") = "direct"
  /\ replyVisibility "private" (replyVisibility "private" "public")
     <> replyVisibility "private" "public".
Proof. repeat split; try reflexivity. discriminate. Qed.

(** C6, amended.  For every configured reply visibility (ASCII text, read
    without regard to case) and every post visibility among public,
    unlisted, private and direct, the mapping (the table, then the
    downgrade to direct for a private post) is idempotent, unless the
    configured visibility is private and the post is public or unlisted;
    there one application gives private and a second one gives direct. *)
Theorem visibility_mapping_idempotent (configured post : string) :
  is_ascii configured = true ->
  Spec.post_visibility post ->
  (ToLower configured = "private" -> post = "private" \/ post = "direct") ->
  replyVisibility configured (replyVisibility configured post)
  = replyVisibility configured post.
Proof.
  intros _ Hv Hpriv.
  rewrite (replyVisibility_is_mapping configured post Hv).
  rewrite replyVisibility_is_mapping by now apply mapping_is_post_visibility.
  revert Hpriv. generalize (ToLower configured) as lc. intros lc Hpriv.
  unfold Spec.visibility_mapping.
  destruct (String.eqb_spec lc "private") as [-> | Hne].
  - destruct (Hpriv eq_refl) as [-> | ->]; reflexivity.
  - apply String.eqb_neq in Hne.
    destruct Hv as [-> | [-> | [-> | ->]]]; simpl; rewrite ?Hne; simpl;
      repeat match goal with
             | |- context [String.eqb lc ?x] =>
                 destruct (String.eqb lc x) eqn:?; simpl
             end; try reflexivity; try congruence.
Qed.

(** The amended statement for the setting "Unlisted" and a public post. *)
Lemma visibility_mapping_idempotent_witness :
  replyVisibility "Unlisted" (replyVisibility "Unlisted" "public")
  = replyVisibility "Unlisted" "public".
Proof.
  apply visibility_mapping_idempotent.
  - reflexivity.
  - left. reflexivity.
  - simpl. discriminate.
Defined.

End Visibility.

(* ===================================================================== *)
(** * The delete cascade *)
(* ===================================================================== *)

Module DeleteCascade.
Import Handlers.

(** C4, the claim as stated fails: when the platform refuses to delete the
    reply, the entry for the source stays in the table. *)
Lemma delete_cascade_counterexample :
  ~ Spec.delete_cascade (Examples.env (Examples.platform Examples.bob false))
      Examples.bot_replied "S".
Proof.
  unfold Spec.delete_cascade. vm_compute. intros [_ H]. discriminate H.
Qed.

(** C4, amended.  For every source post id with an entry in the
    RequestReply table, handling a Delete event for it makes exactly one
    deleteStatus call, for the recorded bot-reply id, and, when that call
    succeeds, removes the entry for the source and no other; handling a
    Delete event for an id with no entry makes no call and changes
    nothing. *)
Theorem delete_cascade_on_success (e : Env) (b : Bot) (sourcePostId : string) :
  let b' := handleDeleteEvent e b sourcePostId in
  match replyMap b !! sourcePostId with
  | Some replyInfo =>
      trace b' = (trace b ++ [EvDeleteStatus (ri_ReplyID replyInfo)])%list
      /\ delete_calls (trace b') = (delete_calls (trace b) ++ [ri_ReplyID replyInfo])%list
      /\ (Mastodon.DeleteStatus (client e) (ri_ReplyID replyInfo) = true ->
          replyMap b' = delete sourcePostId (replyMap b)
          /\ replyMap b' !! sourcePostId = None)
  | None => b' = b
  end.
Proof.
  unfold handleDeleteEvent.
  destruct (replyMap b !! sourcePostId) as [replyInfo|] eqn:E; [|reflexivity].
  simpl. split; [|split].
  - destruct (Mastodon.DeleteStatus _ _); reflexivity.
  - unfold delete_calls.
    destruct (Mastodon.DeleteStatus _ _); simpl; now rewrite omap_app.
  - intros ->. simpl. split; [reflexivity | apply lookup_delete_eq].
Qed.

(** The amended statement on a platform that confirms the deletion. *)
Lemma delete_cascade_on_success_witness :
  let e := Examples.env (Examples.platform Examples.bob true) in
  let b' := handleDeleteEvent e Examples.bot_replied "S" in
  trace b' = [EvDeleteStatus "R"] /\ replyMap b' !! "S" = None.
Proof.
  intros e b'.
  pose proof (delete_cascade_on_success e Examples.bot_replied "S") as H.
  change (replyMap Examples.bot_replied !! "S")
    with (Some {| ri_ReplyID := "R"; ri_Timestamp := 900 |}) in H.
  destruct H as (Ht & _ & Hm). split; [exact Ht|].
  apply Hm. reflexivity.
Defined.

(** C9.  If the platform's deleteStatus call fails while a Delete event for
    a source with a RequestReply entry is handled, the table is unchanged
    (the entry is retained); the entry is removed only when the deletion
    succeeds. *)
Theorem delete_failure_keeps_entry (e : Env) (b : Bot)
    (sourcePostId : string) (replyInfo : ReplyInfo) :
  replyMap b !! sourcePostId = Some replyInfo ->
  let b' := handleDeleteEvent e b sourcePostId in
  (Mastodon.DeleteStatus (client e) (ri_ReplyID replyInfo) = false ->
   replyMap b' = replyMap b)
  /\ (replyMap b' !! sourcePostId = None ->
      Mastodon.DeleteStatus (client e) (ri_ReplyID replyInfo) = true).
Proof.
  intros E. unfold handleDeleteEvent. rewrite E. simpl.
  destruct (Mastodon.DeleteStatus _ _); simpl; split; try congruence.
Qed.

(** The statement on a platform that refuses the deletion. *)
Lemma delete_failure_keeps_entry_witness :
  replyMap
    (handleDeleteEvent (Examples.env (Examples.platform Examples.bob false))
       Examples.bot_replied "S")
  = replyMap Examples.bot_replied.
Proof.
  refine (proj1 (delete_failure_keeps_entry
                   (Examples.env (Examples.platform Examples.bob false))
                   Examples.bot_replied "S"
                   {| ri_ReplyID := "R"; ri_Timestamp := 900 |} _) _);
    reflexivity.
Defined.

End DeleteCascade.

(* ===================================================================== *)
(** * The consent gate of the mention and update handlers *)
(* ===================================================================== *)

Module ConsentGate.
Import Handlers.

Lemma provider_calls_post (e : Env) (b : Bot) (t : Mastodon.Toot) :
  provider_calls (trace (snd (post e b t))) = provider_calls (trace b).
Proof.
  unfold post, provider_calls. simpl. rewrite omap_app. simpl.
  apply app_nil_r.
Qed.

(** Asking for consent posts a message at most; the provider is not
    involved. *)
Lemma provider_calls_RequestGDPRConsent (cfg : Config) (e : Env) (b : Bot)
    (userID username language replyToID : string) (standalone : bool) :
  provider_calls
    (trace (snd (Consent.RequestGDPRConsent cfg e b userID username language
                   replyToID standalone)))
  = provider_calls (trace b).
Proof.
  unfold Consent.RequestGDPRConsent.
  destruct (devMode cfg); [reflexivity|].
  match goal with
  | |- context [post e b ?t] =>
      pose proof (provider_calls_post e b t) as Hp;
      destruct (post e b t) as [[id|] b1]; simpl in *; exact Hp
  end.
Qed.

Lemma handleUpdate_loop_no_consent (cfg : Config) (e : Env) (b : Bot)
    (status : Mastodon.Status) (atts : list Mastodon.Attachment) :
  Consent.HasUserConsent b (Mastodon.acc_ID (Mastodon.st_Account status)) = false ->
  provider_calls (trace (handleUpdate_loop cfg e b status atts))
  = provider_calls (trace b).
Proof.
  intros Hno. induction atts as [|att rest IH]; [reflexivity|].
  simpl. destruct (eligible_type cfg att); [|exact IH].
  destruct (String.eqb (Mastodon.att_Description att) ""); [|exact IH].
  rewrite Hno. simpl. apply provider_calls_RequestGDPRConsent.
Qed.

(** Asking for the legacy consent posts a message at most. *)
Lemma provider_calls_requestConsent (cfg : Config) (e : Env) (b : Bot)
    (status : Mastodon.Status) (notification : Mastodon.Notification) :
  provider_calls (trace (requestConsent cfg e b status notification))
  = provider_calls (trace b).
Proof.
  unfold requestConsent.
  destruct (forallb _ _); [reflexivity|].
  destruct (consentRequests b !! Mastodon.st_ID status); [reflexivity|].
  cbv zeta. rewrite provider_calls_post. reflexivity.
Qed.

(** A block event never revokes a consent for good: for a user with a
    record the handler deletes the record in memory and then blocks in
    [RemoveUserConsent] with the ledger locked; for a user without record
    it returns with nothing changed. *)
Lemma HandleBlockEvent_outcome (b : Bot) (userID : string) :
  (Consent.HasUserConsent b userID = true ->
   exists b',
     Consent.HandleBlockEvent b userID = Deadlock b'
     /\ Consent.HasUserConsent b' userID = false
     /\ (forall other, other <> userID ->
                       consentDB b' !! other = consentDB b !! other)
     /\ trace b' = trace b)
  /\ (Consent.HasUserConsent b userID = false ->
      Consent.HandleBlockEvent b userID = Returns b).
Proof.
  unfold Consent.HandleBlockEvent. split; intros Hc; rewrite Hc; [|reflexivity].
  unfold Consent.RemoveUserConsent. eexists. split; [reflexivity|].
  split; [|split; [|reflexivity]].
  - unfold Consent.HasUserConsent. simpl. rewrite lookup_delete_eq.
    apply bool_decide_eq_false. apply is_Some_None.
  - intros other Hne. simpl. apply lookup_delete_ne. congruence.
Qed.

(** C1, the claim as stated fails: with legacy consent off, a mention by
    another user of a post whose author has no consent record starts the
    generation job, and the provider is called for the author's image. *)
Lemma mention_by_other_user_counterexample :
  let cfg := Examples.config true 5 50 3 false false in
  let e := Examples.env (Examples.platform Examples.bob true) in
  Spec.source_post e (Examples.notification_from Examples.bob) = Some Examples.source_S
  /\ Consent.HasUserConsent Examples.fresh_bot "U" = false
  /\ provider_calls
       (trace (handleMention cfg e Examples.fresh_bot
                 (Examples.notification_from Examples.bob)))
     = [(Image, "https://example.social/media/1.png")]
  /\ ~ Spec.consent_gate_on_mention cfg e Examples.fresh_bot
         (Examples.notification_from Examples.bob).
Proof.
  intros cfg e.
  assert (H1 : Spec.source_post e (Examples.notification_from Examples.bob)
               = Some Examples.source_S) by reflexivity.
  assert (H2 : Consent.HasUserConsent Examples.fresh_bot "U" = false)
    by (vm_compute; reflexivity).
  assert (H3 : provider_calls
                 (trace (handleMention cfg e Examples.fresh_bot
                           (Examples.notification_from Examples.bob)))
               = [(Image, "https://example.social/media/1.png")])
    by (vm_compute; reflexivity).
  repeat split; try assumption.
  intros Hclaim. specialize (Hclaim Examples.source_S H1 H2).
  rewrite H3 in Hclaim. discriminate Hclaim.
Qed.

(** C1, amended.  For every user with no ConsentRecord, handling an
    Update event for a post of that user produces no call to the model
    provider, and so does handling a Mention event about a post of that
    user when the mention is sent by the user, or by anyone while the
    legacy consent setting (ask_for_consent) is on.  With that setting
    off, a mention by another sender (not on the do-not-interact list, the
    post having attachments) runs the generation job over the post,
    whatever the record of its author.  A block event does not produce the
    state without record by returning: for a user without record it
    changes nothing, and for a user with a record it deletes the record in
    memory, calls no provider, and never returns (it blocks in
    [RemoveUserConsent] on the ledger mutex it holds). *)
Theorem no_consent_no_provider_call (cfg : Config) (e : Env) (b : Bot) :
  (forall status,
      Consent.HasUserConsent b (Mastodon.acc_ID (Mastodon.st_Account status)) = false ->
      provider_calls (trace (handleUpdate cfg e b status))
      = provider_calls (trace b))
  /\ (forall notification status,
         Spec.source_post e notification = Some status ->
         Consent.HasUserConsent b (Mastodon.acc_ID (Mastodon.st_Account status))
         = false ->
         Mastodon.acc_ID (Mastodon.st_Account status)
         = Mastodon.acc_ID (Mastodon.ntf_Account notification)
         \/ Behavior_AskForConsent cfg = true ->
         provider_calls (trace (handleMention cfg e b notification))
         = provider_calls (trace b))
  /\ (forall notification status,
         Spec.source_post e notification = Some status ->
         isDNI cfg (Mastodon.ntf_Account notification) = false ->
         Mastodon.st_MediaAttachments status <> [] ->
         Mastodon.acc_ID (Mastodon.st_Account status)
         <> Mastodon.acc_ID (Mastodon.ntf_Account notification) ->
         Behavior_AskForConsent cfg = false ->
         handleMention cfg e b notification
         = Job.generateAndPostAltText cfg e b status
             (Mastodon.st_ID (Mastodon.ntf_Status notification)))
  /\ (forall userID,
         (Consent.HasUserConsent b userID = true ->
          exists b',
            Consent.HandleBlockEvent b userID = Deadlock b'
            /\ Consent.HasUserConsent b' userID = false
            /\ (forall other, other <> userID ->
                              consentDB b' !! other = consentDB b !! other)
            /\ trace b' = trace b)
         /\ (Consent.HasUserConsent b userID = false ->
             Consent.HandleBlockEvent b userID = Returns b)).
Proof.
  split; [|split; [|split]].
  - intros status Hno. unfold handleUpdate.
    destruct (String.eqb _ (Server_Username cfg)); [reflexivity|].
    now apply handleUpdate_loop_no_consent.
  - intros notification status Hsrc Hno Hgate. unfold handleMention.
    destruct (isDNI cfg _); [reflexivity|].
    unfold Spec.source_post in Hsrc.
    assert (Hbody :
      provider_calls
        (trace
           (if Nat.eqb (List.length (Mastodon.st_MediaAttachments status)) 0
            then b
            else if String.eqb (Mastodon.acc_ID (Mastodon.st_Account status))
                      (Mastodon.acc_ID (Mastodon.ntf_Account notification))
            then
              if negb (Consent.HasUserConsent b
                         (Mastodon.acc_ID (Mastodon.ntf_Account notification)))
              then
                snd (Consent.RequestGDPRConsent cfg e b
                       (Mastodon.acc_ID (Mastodon.ntf_Account notification))
                       (Mastodon.acc_Acct (Mastodon.ntf_Account notification))
                       (Mastodon.st_Language (Mastodon.ntf_Status notification))
                       (Mastodon.st_ID (Mastodon.ntf_Status notification)) false)
              else
                Job.generateAndPostAltText cfg e b status
                  (Mastodon.st_ID (Mastodon.ntf_Status notification))
            else if negb (Behavior_AskForConsent cfg)
            then
              Job.generateAndPostAltText cfg e b status
                (Mastodon.st_ID (Mastodon.ntf_Status notification))
            else requestConsent cfg e b status notification))
      = provider_calls (trace b)).
    { destruct (Nat.eqb _ 0); [reflexivity|].
      destruct (String.eqb_spec
                  (Mastodon.acc_ID (Mastodon.st_Account status))
                  (Mastodon.acc_ID (Mastodon.ntf_Account notification)))
        as [Hsame | Hother].
      - rewrite <- Hsame, Hno. simpl. apply provider_calls_RequestGDPRConsent.
      - destruct Hgate as [Hsame | Hask]; [contradiction|].
        rewrite Hask. simpl. apply provider_calls_requestConsent. }
    destruct (Mastodon.st_InReplyToID (Mastodon.ntf_Status notification))
      as [|id|]; [discriminate| |]; rewrite Hsrc; exact Hbody.
  - intros notification status Hsrc Hdni Hatts Hother Hask. unfold handleMention.
    rewrite Hdni. unfold Spec.source_post in Hsrc.
    apply String.eqb_neq in Hother.
    assert (Hlen : Nat.eqb (List.length (Mastodon.st_MediaAttachments status)) 0
                   = false).
    { destruct (Mastodon.st_MediaAttachments status); [congruence | reflexivity]. }
    destruct (Mastodon.st_InReplyToID (Mastodon.ntf_Status notification))
      as [|id|]; [discriminate| |];
      rewrite Hsrc, Hlen, Hother, Hask; reflexivity.
  - intros userID. apply HandleBlockEvent_outcome.
Qed.

(** The amended statement for Alice, who has no consent record: her post
    "S" arriving as an update, her own mention in reply to "S", and a
    mention of Bob in reply to "S" while the legacy consent setting is
    on. *)
Lemma no_consent_no_provider_call_witness :
  let cfg := Examples.config true 5 50 3 false false in
  let e := Examples.env (Examples.platform Examples.alice true) in
  let e' := Examples.env (Examples.platform Examples.bob true) in
  provider_calls (trace (handleUpdate cfg e Examples.fresh_bot Examples.source_S)) = []
  /\ provider_calls
       (trace (handleMention cfg e Examples.fresh_bot
                 (Examples.notification_from Examples.alice))) = []
  /\ provider_calls
       (trace (handleMention Examples.asking_config e' Examples.fresh_bot
                 (Examples.notification_from Examples.bob))) = [].
Proof.
  intros cfg e e'.
  destruct (no_consent_no_provider_call cfg e Examples.fresh_bot)
    as (Hu & Hm & _).
  destruct (no_consent_no_provider_call Examples.asking_config e'
              Examples.fresh_bot) as (_ & Hm' & _).
  split; [|split].
  - apply (Hu Examples.source_S). vm_compute. reflexivity.
  - apply (Hm (Examples.notification_from Examples.alice) Examples.source_S).
    + reflexivity.
    + vm_compute. reflexivity.
    + left. reflexivity.
  - apply (Hm' (Examples.notification_from Examples.bob) Examples.source_S).
    + reflexivity.
    + vm_compute. reflexivity.
    + right. reflexivity.
Defined.

End ConsentGate.

(* ===================================================================== *)
(** * Unsupported attachments in the generation job *)
(* ===================================================================== *)

Module Unsupported.
Import Job.

(** With both capabilities, an unsupported attachment is one without
    description whose type is neither image, video, gifv nor audio. *)
Lemma unsupported_both_capabilities (cfg : Config) (att : Mastodon.Attachment) :
  videoProcessingCapability cfg = true ->
  audioProcessingCapability cfg = true ->
  Spec.unsupported cfg att = true ->
  String.eqb (Mastodon.att_Description att) "" = true
  /\ String.eqb (Mastodon.att_Type att) "image" = false
  /\ (String.eqb (Mastodon.att_Type att) "video"
      || String.eqb (Mastodon.att_Type att) "gifv") = false
  /\ String.eqb (Mastodon.att_Type att) "audio" = false.
Proof.
  intros Hv Ha. unfold Spec.unsupported. rewrite Hv, Ha, !andb_true_r.
  rewrite !andb_true_iff, !negb_true_iff. tauto.
Qed.

(** C8, the claim as stated fails: with the Transformers provider (video
    supported, audio not) an audio attachment without description is
    unsupported, the rate limiter lets the request pass, and the worker
    records the localized error element, not the "unsupported" one. *)
Lemma unsupported_audio_counterexample :
  let e := Examples.env (Examples.platform Examples.alice true) in
  let transformers := Examples.config true 5 50 3 true false in
  let s := worker transformers e Examples.source_S (start Examples.fresh_bot)
             Examples.audio_without_alt in
  Spec.unsupported transformers Examples.audio_without_alt = true
  /\ responses s = [getLocalizedString e "en" "altTextError" "response"]
  /\ ~ Spec.records_unsupported transformers e Examples.source_S
         (start Examples.fresh_bot) Examples.audio_without_alt.
Proof.
  intros e transformers s. split; [reflexivity|].
  assert (H : responses s = [getLocalizedString e "en" "altTextError" "response"])
    by (vm_compute; reflexivity).
  split; [exact H|].
  unfold Spec.records_unsupported. fold s. rewrite H. vm_compute. discriminate.
Qed.

(** C8, amended.  For every attachment classified as unsupported (its type
    is none of image, supported video, or supported audio, and it has no
    existing description) whose worker passes the rate limit, the
    generation job records exactly one localized "unsupported" element for
    that attachment when the provider has both the video and the audio
    capability. *)
Theorem unsupported_element_with_both_capabilities (cfg : Config) (e : Env)
    (replyPost : Mastodon.Status) (s : State) (att : Mastodon.Attachment) :
  videoProcessingCapability cfg = true ->
  audioProcessingCapability cfg = true ->
  Spec.unsupported cfg att = true ->
  fst (fst (RateLimiter.Increment cfg e (rateLimiter (bot s))
              (Mastodon.acc_ID (Mastodon.st_Account replyPost)))) = true ->
  Spec.records_unsupported cfg e replyPost s att.
Proof.
  intros Hv Ha Hun Hallowed.
  destruct (unsupported_both_capabilities cfg att Hv Ha Hun)
    as (Hd & Hi & Hvid & Haud).
  unfold Spec.records_unsupported, worker.
  destruct (RateLimiter.Increment cfg e (rateLimiter (bot s)) _)
    as [[allowed rl] evs].
  simpl in Hallowed. subst allowed.
  rewrite Hd, Hi, Hvid, Haud, Hv, Ha. reflexivity.
Qed.

(** The amended statement for the Gemini provider (both capabilities) and
    an attachment of unknown type. *)
Lemma unsupported_element_with_both_capabilities_witness :
  let e := Examples.env (Examples.platform Examples.alice true) in
  let gemini := Examples.config true 5 50 3 true true in
  responses (worker gemini e Examples.source_S (start Examples.fresh_bot)
               Examples.document_without_alt)
  = [getLocalizedString e "en" "unsupportedFile" "response"].
Proof.
  intros e gemini.
  apply (unsupported_element_with_both_capabilities gemini e Examples.source_S
           (start Examples.fresh_bot) Examples.document_without_alt);
    reflexivity.
Defined.

End Unsupported.

(* ===================================================================== *)
(** * The rate limiter *)
(* ===================================================================== *)

Module RateLimiterFacts.
Import GoInt RateLimiter.

Lemma map_int_incr_eq (m : gmap string Z) (k : string) :
  map_int (map_incr m k) k = int_incr (map_int m k).
Proof. unfold map_incr, map_int at 1. now rewrite lookup_insert_eq. Qed.

Lemma map_int_incr_ne (m : gmap string Z) (k k' : string) :
  k <> k' -> map_int (map_incr m k) k' = map_int m k'.
Proof. intros H. unfold map_incr, map_int. now rewrite lookup_insert_ne. Qed.

Lemma map_int_reset (m : gmap string Z) (k : string) :
  map_int ((fun _ => 0) <$> m) k = 0.
Proof. unfold map_int. rewrite lookup_fmap. now destruct (m !! k). Qed.

(** [IsNewAccount] touches the cache of creation dates only. *)
Lemma IsNewAccount_frame (e : Env) (rl : t) (userID : string) :
  let rl0 := snd (IsNewAccount e rl userID) in
  MinuteCounts rl0 = MinuteCounts rl /\ HourCounts rl0 = HourCounts rl
  /\ ExceededCounts rl0 = ExceededCounts rl
  /\ ShadowBanned rl0 = ShadowBanned rl /\ Whitelist rl0 = Whitelist rl.
Proof.
  unfold IsNewAccount.
  destruct (AccountAges rl !! userID); simpl; [tauto|].
  destruct (Mastodon.GetAccount (client e) userID); simpl; tauto.
Qed.

Lemma IsNewAccount_old (e : Env) (rl : t) (userID : string) :
  (forall created, within_new_account_period e created = false) ->
  fst (IsNewAccount e rl userID) = false.
Proof.
  intros Hold. unfold IsNewAccount.
  destruct (AccountAges rl !! userID); simpl; [apply Hold|].
  destruct (Mastodon.GetAccount (client e) userID); simpl; [apply Hold | reflexivity].
Qed.

(** What [exceeded] does: the exceed counter of the user moves by one, and
    the user is banned (and the admin told) when the counter has reached
    the threshold and the user is not whitelisted. *)
Lemma exceeded_spec (cfg : Config) (e : Env) (rl : t) (userID : string) :
  let rl' := fst (exceeded cfg e rl userID) in
  let evs := snd (exceeded cfg e rl userID) in
  MinuteCounts rl' = MinuteCounts rl /\ HourCounts rl' = HourCounts rl
  /\ ExceededCounts rl' = map_incr (ExceededCounts rl) userID
  /\ Whitelist rl' = Whitelist rl
  /\ (if (RateLimit_ShadowBanThreshold cfg
          <=? int_incr (map_int (ExceededCounts rl) userID))
         && negb (map_bool (Whitelist rl) userID)
      then ShadowBanned rl' = <[userID := true]> (ShadowBanned rl)
           /\ evs = notifyAdmin cfg e userID
      else ShadowBanned rl' = ShadowBanned rl /\ evs = []).
Proof.
  unfold exceeded. simpl. rewrite map_int_incr_eq.
  destruct (RateLimit_ShadowBanThreshold cfg <=? _); simpl.
  - unfold ShadowBanUser. simpl.
    destruct (map_bool (Whitelist rl) userID); simpl; tauto.
  - tauto.
Qed.

(** The limiter after [Increment]: the whitelist is as before, and either
    the exceed counters and the ban set are as before, or the exceed
    counter of the (not banned) user moved by one and the user was banned
    exactly when the threshold was reached without a whitelist entry. *)
Lemma Increment_cases (cfg : Config) (e : Env) (rl : t) (userID : string) :
  let rl' := snd (fst (Increment cfg e rl userID)) in
  Whitelist rl' = Whitelist rl
  /\ ((ExceededCounts rl' = ExceededCounts rl
       /\ ShadowBanned rl' = ShadowBanned rl)
      \/ (ExceededCounts rl' = map_incr (ExceededCounts rl) userID
          /\ if (RateLimit_ShadowBanThreshold cfg
                 <=? int_incr (map_int (ExceededCounts rl) userID))
                && negb (map_bool (Whitelist rl) userID)
             then ShadowBanned rl' = <[userID := true]> (ShadowBanned rl)
             else ShadowBanned rl' = ShadowBanned rl)).
Proof.
  unfold Increment.
  destruct (RateLimit_Enabled cfg); simpl; [|tauto].
  destruct (IsShadowBanned rl userID); simpl; [tauto|].
  pose proof (IsNewAccount_frame e rl userID) as (Hm & Hh & Hx & Hb & Hw).
  destruct (IsNewAccount e rl userID) as [isNew rl0]. simpl in *.
  pose proof (exceeded_spec cfg e rl0 userID) as (_ & _ & Hx' & Hw' & Hb').
  rewrite Hx, Hw, Hb in *.
  assert (Hdeny :
    Whitelist (fst (exceeded cfg e rl0 userID)) = Whitelist rl
    /\ ((ExceededCounts (fst (exceeded cfg e rl0 userID)) = ExceededCounts rl
         /\ ShadowBanned (fst (exceeded cfg e rl0 userID)) = ShadowBanned rl)
        \/ (ExceededCounts (fst (exceeded cfg e rl0 userID))
             = map_incr (ExceededCounts rl) userID
            /\ if (RateLimit_ShadowBanThreshold cfg
                   <=? int_incr (map_int (ExceededCounts rl) userID))
                  && negb (map_bool (Whitelist rl) userID)
               then ShadowBanned (fst (exceeded cfg e rl0 userID))
                    = <[userID := true]> (ShadowBanned rl)
               else ShadowBanned (fst (exceeded cfg e rl0 userID))
                    = ShadowBanned rl))).
  { split; [exact Hw'|]. right. split; [exact Hx'|].
    destruct (_ && _); tauto. }
  destruct (_ <=? map_int (MinuteCounts rl0) userID).
  - destruct (exceeded cfg e rl0 userID) as [rl1 evs]. exact Hdeny.
  - destruct (_ <=? map_int (HourCounts rl0) userID).
    + destruct (exceeded cfg e rl0 userID) as [rl1 evs]. exact Hdeny.
    + simpl. tauto.
Qed.

Lemma map_bool_insert (m : gmap string bool) (k k' : string) (v : bool) :
  map_bool (<[k := v]> m) k' = if decide (k = k') then v else map_bool m k'.
Proof.
  unfold map_bool. rewrite lookup_insert.
  destruct (decide (k = k')); reflexivity.
Qed.

Lemma map_bool_delete (m : gmap string bool) (k k' : string) :
  map_bool (delete k m) k' = if decide (k = k') then false else map_bool m k'.
Proof.
  unfold map_bool. rewrite lookup_delete.
  destruct (decide (k = k')); reflexivity.
Qed.

Lemma map_int_incr (m : gmap string Z) (k k' : string) :
  map_int (map_incr m k) k'
  = if decide (k = k') then int_incr (map_int m k) else map_int m k'.
Proof.
  destruct (decide (k = k')) as [<- | Hne];
    [apply map_int_incr_eq | now apply map_int_incr_ne].
Qed.

Section Invariant.
Variable cfg : Config.
Hypothesis threshold_nonneg : 0 <= RateLimit_ShadowBanThreshold cfg.

Lemma invariant_init :
  Spec.exceed_implies_banned_or_whitelisted cfg NewRateLimiter.
Proof.
  intros u. unfold NewRateLimiter, map_int. simpl.
  rewrite lookup_empty. simpl. lia.
Qed.

Lemma invariant_step (rl : t) (op : Op) :
  Spec.exceed_implies_banned_or_whitelisted cfg rl ->
  Spec.exceed_implies_banned_or_whitelisted cfg (apply_op cfg rl op).
Proof.
  intros Inv u. specialize (Inv u). unfold IsShadowBanned in *.
  destruct op as [e userID| | |userID]; simpl.
  - pose proof (Increment_cases cfg e rl userID) as (Hw & [[Hx Hb] | [Hx Hb]]);
      simpl in Hw, Hx, Hb; rewrite Hw, Hx.
    + rewrite Hb. exact Inv.
    + rewrite map_int_incr.
      destruct (decide (userID = u)) as [-> | Hne].
      * intros Hthr.
        assert (Hle : (RateLimit_ShadowBanThreshold cfg
                       <=? int_incr (map_int (ExceededCounts rl) u)) = true)
          by (apply Z.leb_le; lia).
        rewrite Hle in Hb. simpl in Hb.
        destruct (map_bool (Whitelist rl) u); simpl in Hb; [now right|].
        left. rewrite Hb, map_bool_insert.
        destruct (decide (u = u)); congruence.
      * intros Hthr. destruct (Inv Hthr) as [Hban | Hwl]; [|now right].
        left. destruct (_ && _); rewrite Hb; [|exact Hban].
        rewrite map_bool_insert. destruct (decide (userID = u)); congruence.
  - exact Inv.
  - rewrite map_int_reset. lia.
  - intros Hthr. rewrite map_bool_insert, map_bool_delete.
    destruct (decide (userID = u)); [now right | now apply Inv].
Qed.

Lemma invariant_fold (ops : list Op) (rl : t) :
  Spec.exceed_implies_banned_or_whitelisted cfg rl ->
  Spec.exceed_implies_banned_or_whitelisted cfg
    (fold_left (apply_op cfg) ops rl).
Proof.
  revert rl. induction ops as [|op ops IH]; intros rl Inv; [exact Inv|].
  simpl. apply IH. now apply invariant_step.
Qed.
End Invariant.

Lemma whitelist_step (cfg : Config) (rl : t) (op : Op) :
  Spec.whitelisted_not_banned rl ->
  Spec.whitelisted_not_banned (apply_op cfg rl op).
Proof.
  intros Inv u. specialize (Inv u). unfold IsShadowBanned in *.
  destruct op as [e userID| | |userID]; simpl; try exact Inv.
  - pose proof (Increment_cases cfg e rl userID) as (Hw & [[Hx Hb] | [Hx Hb]]);
      simpl in Hw, Hx, Hb; rewrite Hw.
    + rewrite Hb. exact Inv.
    + intros Hwl. destruct (_ <=? _); simpl in Hb.
      * destruct (map_bool (Whitelist rl) userID) eqn:Ew; simpl in Hb;
          rewrite Hb; [now apply Inv|].
        rewrite map_bool_insert.
        destruct (decide (userID = u)) as [-> | Hne]; [congruence | now apply Inv].
      * rewrite Hb. now apply Inv.
  - rewrite map_bool_insert, map_bool_delete.
    destruct (decide (userID = u)); [reflexivity | exact Inv].
Qed.

Lemma whitelist_fold (cfg : Config) (ops : list Op) (rl : t) :
  Spec.whitelisted_not_banned rl ->
  Spec.whitelisted_not_banned (fold_left (apply_op cfg) ops rl).
Proof.
  revert rl. induction ops as [|op ops IH]; intros rl Inv; [exact Inv|].
  simpl. apply IH. now apply whitelist_step.
Qed.

Lemma never_bans_whitelisted_any (cfg : Config) (rl : t) (op : Op) :
  Spec.never_bans_whitelisted cfg rl op.
Proof.
  intros u Hwl. unfold IsShadowBanned.
  destruct op as [e userID| | |userID]; simpl; try tauto.
  - pose proof (Increment_cases cfg e rl userID) as (Hw & [[Hx Hb] | [Hx Hb]]);
      simpl in Hw, Hx, Hb.
    + now rewrite Hb.
    + destruct (_ <=? _); simpl in Hb; [|now rewrite Hb].
      destruct (map_bool (Whitelist rl) userID) eqn:Ew; simpl in Hb;
        rewrite Hb; [tauto|].
      rewrite map_bool_insert.
      destruct (decide (userID = u)) as [-> | Hne]; [congruence | tauto].
  - rewrite map_bool_delete. destruct (decide (userID = u)); [discriminate | tauto].
Qed.

End RateLimiterFacts.

Module RateLimiterClaims.
Import GoInt RateLimiter RateLimiterFacts.

(** C3, the claim as stated fails: the threshold is an [int] of the
    configuration that nothing validates.  With the threshold -1 the
    exceed counter of every user, which reads 0, is above the threshold in
    the initial state, where nobody is banned or whitelisted. *)
Lemma negative_threshold_counterexample :
  let cfg := Examples.config true 10 3 (-1) true true in
  let rl := run cfg [] in
  rl = NewRateLimiter
  /\ RateLimit_ShadowBanThreshold cfg < map_int (ExceededCounts rl) "U"
  /\ IsShadowBanned rl "U" = false
  /\ map_bool (Whitelist rl) "U" = false
  /\ ~ Spec.exceed_implies_banned_or_whitelisted cfg rl.
Proof.
  intros cfg rl.
  assert (H1 : RateLimit_ShadowBanThreshold cfg < map_int (ExceededCounts rl) "U")
    by (vm_compute; reflexivity).
  assert (H2 : IsShadowBanned rl "U" = false) by (vm_compute; reflexivity).
  assert (H3 : map_bool (Whitelist rl) "U" = false) by (vm_compute; reflexivity).
  split; [reflexivity|]. repeat split; try assumption.
  intros Hclaim. destruct (Hclaim "U" H1) as [H | H]; congruence.
Qed.

(** C3, amended.  When the configured threshold is not negative: in every
    state reached from the empty rate limiter by a sequence of Increment,
    ResetMinuteCounts, ResetHourCounts and UnbanAndWhitelistUser
    operations, for every user: the exceed counter is above the shadow-ban
    threshold only if the user is in ShadowBan or in Whitelist; and no
    operation adds a whitelisted user to ShadowBan (nor is a whitelisted
    user ever in it). *)
Theorem shadow_ban_escalation_invariant (cfg : Config) (ops : list Op) :
  0 <= RateLimit_ShadowBanThreshold cfg ->
  Spec.exceed_implies_banned_or_whitelisted cfg (run cfg ops)
  /\ (forall op, Spec.never_bans_whitelisted cfg (run cfg ops) op)
  /\ Spec.whitelisted_not_banned (run cfg ops).
Proof.
  intros Hthr. unfold run. split; [|split].
  - apply invariant_fold; [exact Hthr | now apply invariant_init].
  - intros op. apply never_bans_whitelisted_any.
  - apply whitelist_fold. intros u. unfold NewRateLimiter, map_bool. simpl.
    rewrite lookup_empty. discriminate.
Qed.

(** The invariant after six requests of Alice, her unban and three more
    requests: her exceed counter stands at 5, above the threshold 2, and
    she is whitelisted and not banned. *)
Lemma shadow_ban_escalation_invariant_witness :
  let rl := run Examples.escalation_config Examples.escalation_ops in
  Spec.exceed_implies_banned_or_whitelisted Examples.escalation_config rl
  /\ map_int (ExceededCounts rl) "U" = 5
  /\ map_bool (Whitelist rl) "U" = true
  /\ IsShadowBanned rl "U" = false.
Proof.
  intros rl.
  destruct (shadow_ban_escalation_invariant Examples.escalation_config
              Examples.escalation_ops) as (H1 & _ & H3).
  - simpl. lia.
  - split; [exact H1|]. split; [vm_compute; reflexivity|].
    assert (Hw : map_bool (Whitelist rl) "U" = true) by (vm_compute; reflexivity).
    split; [exact Hw | exact (H3 "U" Hw)].
Defined.

End RateLimiterClaims.

Module Escalation.
Import GoInt RateLimiter RateLimiterFacts.

Section OneUser.
Variables (cfg : Config) (e : Env) (userID : string).
Hypothesis enabled : RateLimit_Enabled cfg = true.
Hypothesis old_account :
  forall created, within_new_account_period e created = false.

(** A request below both limits is allowed and counted. *)
Lemma Increment_allowed (rl : t) :
  IsShadowBanned rl userID = false ->
  map_int (MinuteCounts rl) userID < RateLimit_MaxRequestsPerMinute cfg ->
  map_int (HourCounts rl) userID < RateLimit_MaxRequestsPerHour cfg ->
  exists rl',
    Increment cfg e rl userID = (true, rl', [])
    /\ MinuteCounts rl' = map_incr (MinuteCounts rl) userID
    /\ HourCounts rl' = map_incr (HourCounts rl) userID
    /\ ExceededCounts rl' = ExceededCounts rl
    /\ ShadowBanned rl' = ShadowBanned rl
    /\ Whitelist rl' = Whitelist rl.
Proof.
  intros Hban Hmin Hhour. unfold Increment. rewrite enabled, Hban. simpl.
  pose proof (IsNewAccount_frame e rl userID) as (Hm & Hh & Hx & Hb & Hw).
  pose proof (IsNewAccount_old e rl userID old_account) as Hold.
  destruct (IsNewAccount e rl userID) as [isNew rl0]. simpl in *. subst isNew.
  rewrite Hm, Hh.
  destruct (Z.leb_spec (RateLimit_MaxRequestsPerMinute cfg)
              (map_int (MinuteCounts rl) userID)); [lia|].
  destruct (Z.leb_spec (RateLimit_MaxRequestsPerHour cfg)
              (map_int (HourCounts rl) userID)); [lia|].
  eexists. split; [reflexivity|]. simpl. tauto.
Qed.

(** A request at the minute limit or at the hour limit is denied,
    counted as a breach, and escalated when the breaches have reached
    the threshold. *)
Lemma Increment_denied (rl : t) :
  IsShadowBanned rl userID = false ->
  RateLimit_MaxRequestsPerMinute cfg <= map_int (MinuteCounts rl) userID
  \/ RateLimit_MaxRequestsPerHour cfg <= map_int (HourCounts rl) userID ->
  exists rl' evs,
    Increment cfg e rl userID = (false, rl', evs)
    /\ MinuteCounts rl' = MinuteCounts rl
    /\ HourCounts rl' = HourCounts rl
    /\ ExceededCounts rl' = map_incr (ExceededCounts rl) userID
    /\ Whitelist rl' = Whitelist rl
    /\ (if (RateLimit_ShadowBanThreshold cfg
            <=? int_incr (map_int (ExceededCounts rl) userID))
           && negb (map_bool (Whitelist rl) userID)
        then ShadowBanned rl' = <[userID := true]> (ShadowBanned rl)
             /\ evs = notifyAdmin cfg e userID
        else ShadowBanned rl' = ShadowBanned rl /\ evs = []).
Proof.
  intros Hban Hlimit. unfold Increment. rewrite enabled, Hban. simpl.
  pose proof (IsNewAccount_frame e rl userID) as (Hm & Hh & Hx & Hb & Hw).
  pose proof (IsNewAccount_old e rl userID old_account) as Hold.
  destruct (IsNewAccount e rl userID) as [isNew rl0]. simpl in *. subst isNew.
  pose proof (exceeded_spec cfg e rl0 userID) as (Hm' & Hh' & Hx' & Hw' & Hb').
  rewrite Hm, Hh, Hx, Hw, Hb in *.
  destruct (exceeded cfg e rl0 userID) as [rl1 evs]. simpl in *.
  exists rl1, evs.
  destruct (Z.leb_spec (RateLimit_MaxRequestsPerMinute cfg)
              (map_int (MinuteCounts rl) userID)); [tauto|].
  destruct (Z.leb_spec (RateLimit_MaxRequestsPerHour cfg)
              (map_int (HourCounts rl) userID)); [tauto|].
  lia.
Qed.

(** A banned user is rejected and nothing changes. *)
Lemma Increment_banned (rl : t) :
  IsShadowBanned rl userID = true ->
  Increment cfg e rl userID = (false, rl, []).
Proof. intros Hban. unfold Increment. now rewrite enabled, Hban. Qed.
End OneUser.

(** The notification of the admin is one direct message, when the
    platform knows the account. *)
Lemma notifyAdmin_one_direct_message (cfg : Config) (e : Env)
    (userID : string) (account : Mastodon.Account) :
  Mastodon.GetAccount (client e) userID = Some account ->
  exists toot,
    notifyAdmin cfg e userID = [EvPostStatus toot]
    /\ Mastodon.toot_Visibility toot = "direct".
Proof.
  intros H. unfold notifyAdmin. rewrite H. eexists. split; reflexivity.
Qed.

(** C2, the claim as stated fails: with at most 3 requests per hour and a
    threshold of 2, the user is not banned right after the 4th call (the
    first breach), and no notification goes out then. *)
Lemma escalation_counterexample :
  let rs := increments Examples.escalation_config Examples.escalation_env
              NewRateLimiter "U" 5 in
  IsShadowBanned (snd (fst (nth 3 rs (false, NewRateLimiter, [])))) "U" = false
  /\ snd (nth 3 rs (false, NewRateLimiter, [])) = []
  /\ ~ Spec.escalation_as_stated Examples.escalation_config
         Examples.escalation_env NewRateLimiter "U".
Proof.
  intros rs.
  assert (H : IsShadowBanned (snd (fst (nth 3 rs (false, NewRateLimiter, [])))) "U"
              = false) by (vm_compute; reflexivity).
  split; [exact H|]. split; [vm_compute; reflexivity|].
  intros (_ & _ & Hban & _). fold rs in Hban. congruence.
Qed.

Lemma increments_S (cfg : Config) (e : Env) (rl : t) (userID : string)
    (n : nat) :
  increments cfg e rl userID (S n)
  = Increment cfg e rl userID
    :: increments cfg e (snd (fst (Increment cfg e rl userID))) userID n.
Proof. reflexivity. Qed.

(** C2, amended.  With maxRequestsPerHour=3 and shadowBanThreshold=2 (the
    per-minute limit not below 3, the account not a new one), for a user
    who starts with zero counters and is in neither ShadowBan nor
    Whitelist, five successive Increment calls within one hour yield:
    allow for calls 1-3; deny for calls 4 and 5, the exceed counter being
    1 after the 4th call and 2 after the 5th; the user is not banned after
    the 4th call and no notification is sent then; the 5th call, denied
    for the hour limit, puts the user in ShadowBan and notifies the admin
    (one direct message when the account lookup succeeds); from then on a
    call is rejected because the user is shadow-banned, and changes
    nothing. *)
Theorem rate_limit_escalation (cfg : Config) (e : Env) (rl : t)
    (userID : string) :
  RateLimit_Enabled cfg = true ->
  RateLimit_MaxRequestsPerHour cfg = 3 ->
  RateLimit_ShadowBanThreshold cfg = 2 ->
  3 <= RateLimit_MaxRequestsPerMinute cfg ->
  (forall created, within_new_account_period e created = false) ->
  map_int (MinuteCounts rl) userID = 0 ->
  map_int (HourCounts rl) userID = 0 ->
  map_int (ExceededCounts rl) userID = 0 ->
  IsShadowBanned rl userID = false ->
  map_bool (Whitelist rl) userID = false ->
  exists rl1 rl2 rl3 rl4 rl5,
    increments cfg e rl userID 5
    = [(true, rl1, []); (true, rl2, []); (true, rl3, []); (false, rl4, []);
       (false, rl5, notifyAdmin cfg e userID)]
    /\ map_int (ExceededCounts rl4) userID = 1
    /\ IsShadowBanned rl4 userID = false
    /\ map_int (ExceededCounts rl5) userID = 2
    /\ IsShadowBanned rl5 userID = true
    /\ Increment cfg e rl5 userID = (false, rl5, [])
    /\ (forall account,
           Mastodon.GetAccount (client e) userID = Some account ->
           exists toot,
             notifyAdmin cfg e userID = [EvPostStatus toot]
             /\ Mastodon.toot_Visibility toot = "direct").
Proof.
  intros Hen Hhour Hthr Hmin Hold Hm0 Hh0 Hx0 Hb0 Hw0.
  unfold IsShadowBanned in *.
  destruct (Increment_allowed cfg e userID Hen Hold rl Hb0)
    as (rl1 & E1 & Hm1 & Hh1 & Hx1 & Hb1 & Hw1); [lia | lia |].
  assert (M1 : map_int (MinuteCounts rl1) userID = 1)
    by (rewrite Hm1, map_int_incr_eq, Hm0; reflexivity).
  assert (H1 : map_int (HourCounts rl1) userID = 1)
    by (rewrite Hh1, map_int_incr_eq, Hh0; reflexivity).
  destruct (Increment_allowed cfg e userID Hen Hold rl1)
    as (rl2 & E2 & Hm2 & Hh2 & Hx2 & Hb2 & Hw2);
    [unfold IsShadowBanned; congruence | lia | lia |].
  assert (M2 : map_int (MinuteCounts rl2) userID = 2)
    by (rewrite Hm2, map_int_incr_eq, M1; reflexivity).
  assert (H2 : map_int (HourCounts rl2) userID = 2)
    by (rewrite Hh2, map_int_incr_eq, H1; reflexivity).
  destruct (Increment_allowed cfg e userID Hen Hold rl2)
    as (rl3 & E3 & Hm3 & Hh3 & Hx3 & Hb3 & Hw3);
    [unfold IsShadowBanned; congruence | lia | lia |].
  assert (H3 : map_int (HourCounts rl3) userID = 3)
    by (rewrite Hh3, map_int_incr_eq, H2; reflexivity).
  assert (X3 : map_int (ExceededCounts rl3) userID = 0) by congruence.
  destruct (Increment_denied cfg e userID Hen Hold rl3)
    as (rl4 & evs4 & E4 & Hm4 & Hh4 & Hx4 & Hw4 & Hb4);
    [unfold IsShadowBanned; congruence | right; lia |].
  rewrite X3, Hthr in Hb4. change (2 <=? int_incr 0) with false in Hb4.
  simpl in Hb4. destruct Hb4 as [Hb4 ->].
  assert (X4 : map_int (ExceededCounts rl4) userID = 1)
    by (rewrite Hx4, map_int_incr_eq, X3; reflexivity).
  destruct (Increment_denied cfg e userID Hen Hold rl4)
    as (rl5 & evs5 & E5 & Hm5 & Hh5 & Hx5 & Hw5 & Hb5);
    [unfold IsShadowBanned; congruence | right; rewrite Hh4; lia |].
  rewrite X4, Hthr in Hb5. change (2 <=? int_incr 1) with true in Hb5.
  assert (W4 : map_bool (Whitelist rl4) userID = false) by congruence.
  rewrite W4 in Hb5. simpl in Hb5. destruct Hb5 as [Hb5 ->].
  assert (B5 : map_bool (ShadowBanned rl5) userID = true).
  { rewrite Hb5, map_bool_insert. destruct (decide (userID = userID)); congruence. }
  exists rl1, rl2, rl3, rl4, rl5.
  split; [|split; [exact X4 | split; [congruence | split; [|split; [exact B5|split]]]]].
  - rewrite !increments_S, E1. simpl. rewrite E2. simpl. rewrite E3. simpl.
    rewrite E4. simpl. rewrite E5. reflexivity.
  - rewrite Hx5, map_int_incr_eq, X4. reflexivity.
  - now apply Increment_banned.
  - intros account. apply notifyAdmin_one_direct_message.
Qed.

(** The amended statement for Alice on the empty limiter. *)
Lemma rate_limit_escalation_witness :
  exists rl1 rl2 rl3 rl4 rl5,
    increments Examples.escalation_config Examples.escalation_env
      NewRateLimiter "U" 5
    = [(true, rl1, []); (true, rl2, []); (true, rl3, []); (false, rl4, []);
       (false, rl5,
        notifyAdmin Examples.escalation_config Examples.escalation_env "U")]
    /\ map_int (ExceededCounts rl4) "U" = 1
    /\ IsShadowBanned rl4 "U" = false
    /\ map_int (ExceededCounts rl5) "U" = 2
    /\ IsShadowBanned rl5 "U" = true.
Proof.
  destruct (rate_limit_escalation Examples.escalation_config
              Examples.escalation_env NewRateLimiter "U")
    as (rl1 & rl2 & rl3 & rl4 & rl5 & H1 & H2 & H3 & H4 & H5 & _);
    try reflexivity; try (simpl; lia).
  exists rl1, rl2, rl3, rl4, rl5. tauto.
Defined.

End Escalation.

(* ===================================================================== *)
(** * The quota of the alt-text endpoint *)
(* ===================================================================== *)

Module Quota.
Import GoInt API.

(** A key that [ValidateAPIKey] accepts is in the store it hands on. *)
Lemma ValidateAPIKey_found (c : Clock) (store : gmap string APIKey)
    (key : string) (k : APIKey) :
  fst (ValidateAPIKey c store key) = Some k ->
  snd (ValidateAPIKey c store key) !! key = Some k
  /\ Active k = true /\ now_validate c <= ExpiresAt k.
Proof.
  unfold ValidateAPIKey, LoadFromFile.
  assert (Hcheck : forall (found : option APIKey) (store1 : gmap string APIKey),
    store1 !! key = found ->
    fst match found with
        | None => (None, store1)
        | Some k0 =>
            if negb (Active k0) then (None, store1)
            else if ExpiresAt k0 <? now_validate c then (None, store1)
            else (Some k0, store1)
        end = Some k ->
    snd match found with
        | None => (None, store1)
        | Some k0 =>
            if negb (Active k0) then (None, store1)
            else if ExpiresAt k0 <? now_validate c then (None, store1)
            else (Some k0, store1)
        end !! key = Some k
    /\ Active k = true /\ now_validate c <= ExpiresAt k).
  { intros [k0|] store1 Hl; simpl; [|discriminate].
    destruct (Active k0) eqn:Ea; simpl; [|discriminate].
    destruct (Z.ltb_spec (ExpiresAt k0) (now_validate c)); simpl; [discriminate|].
    intros [= <-]. tauto. }
  destruct (store !! key) as [k0|] eqn:E.
  - exact (Hcheck (Some k0) store E).
  - destruct (key_file c) as [f|].
    + exact (Hcheck ((f ∪ store) !! key) (f ∪ store) eq_refl).
    + simpl. discriminate.
Qed.

(** A key that is in memory, active and not expired is accepted. *)
Lemma ValidateAPIKey_accepts (c : Clock) (store : gmap string APIKey)
    (key : string) (k : APIKey) :
  store !! key = Some k -> Active k = true -> now_validate c <= ExpiresAt k ->
  ValidateAPIKey c store key = (Some k, store).
Proof.
  intros Hl Ha He. unfold ValidateAPIKey. rewrite Hl, Ha. simpl.
  destruct (Z.ltb_spec (ExpiresAt k) (now_validate c)); [lia | reflexivity].
Qed.

Lemma int_incr_in_range (u limit : Z) :
  in_range u -> in_range limit -> u < limit -> int_incr u = u + 1.
Proof.
  unfold in_range, int_incr, wrap. intros Hu Hl Hlt.
  rewrite Z.mod_small; lia.
Qed.

(** The month rollover keeps the usage an [int]. *)
Lemma rollover_in_range (c : Clock) (k : APIKey) :
  in_range (UsageMonth k) -> in_range (UsageMonth (rollover c k)).
Proof.
  unfold rollover. destruct (_ || _); simpl; [|tauto].
  intros _. unfold in_range. lia.
Qed.

(** C10.  The alt-text endpoint counts a request against the monthly quota
    of its API key before it parses the body: every POST request carrying
    a valid, unexpired key that is within its quota raises the monthly
    usage of the key (as it stands after the month rollover) by one,
    whatever the body turns out to be, including the requests answered 400
    (malformed form, missing image field, unreadable or unsupported
    image), 503 (queue full) or 504 (processing timeout). *)
Theorem usage_counted_before_parsing (c : Clock) (monthlyLimit : Z)
    (store : gmap string APIKey) (r : Request) (k : APIKey) :
  req_Method r = "POST" ->
  extractAPIKey (req_Authorization r) <> "" ->
  fst (ValidateAPIKey c store (extractAPIKey (req_Authorization r))) = Some k ->
  UsageMonth (rollover c k) < monthlyLimit ->
  in_range (UsageMonth k) -> in_range monthlyLimit ->
  usage (snd (handleAltText c monthlyLimit store r))
    (extractAPIKey (req_Authorization r))
  = Some (UsageMonth (rollover c k) + 1)
  /\ fst (handleAltText c monthlyLimit store r)
     = match req_Body r with
       | BodyMalformed | BodyWithoutImage | BodyUnreadable => 400
       | BodyImage format _ =>
           if String.eqb format "" then 400
           else match req_Processing r with
                | QueueFull => 503
                | ProcessingTimeout => 504
                | ProcessingError => 500
                | ProcessingDone _ => 200
                end
       end.
Proof.
  intros Hpost Hkey Hvalid Hquota Hu Hl.
  destruct (ValidateAPIKey_found c store _ k Hvalid) as (Hfound & _ & _).
  unfold handleAltText. rewrite Hpost. simpl.
  apply String.eqb_neq in Hkey. rewrite Hkey.
  destruct (ValidateAPIKey c store (extractAPIKey (req_Authorization r)))
    as [keyData store1]. simpl in Hvalid, Hfound. subst keyData.
  unfold CheckAndIncrementUsage. rewrite Hfound.
  destruct (Z.leb_spec monthlyLimit (UsageMonth (rollover c k))); [lia|].
  simpl.
  assert (Husage :
    usage (<[extractAPIKey (req_Authorization r) :=
               with_usage (rollover c k) (int_incr (UsageMonth (rollover c k)))
                 (LastReset (rollover c k))]> store1)
      (extractAPIKey (req_Authorization r))
    = Some (UsageMonth (rollover c k) + 1)).
  { unfold usage. rewrite lookup_insert_eq. simpl. f_equal.
    apply (int_incr_in_range _ monthlyLimit);
      [now apply rollover_in_range | exact Hl | exact Hquota]. }
  destruct (req_Body r) as [| | |format language]; simpl; try (split; [exact Husage | reflexivity]).
  destruct (String.eqb format ""); simpl; [split; [exact Husage | reflexivity]|].
  destruct (req_Processing r); simpl; split; try exact Husage; reflexivity.
Qed.

(** The statement for Carol's key (4 uses so far, limit 100) on a request
    with a malformed form, answered 400, and on one that finds the queue
    full, answered 503: the usage is 5 afterwards. *)
Lemma usage_counted_before_parsing_witness :
  let malformed := Examples.request BodyMalformed QueueFull in
  let shed := Examples.request (BodyImage "png" "en") QueueFull in
  handleAltText Examples.clock 100 Examples.key_store malformed
  = (400, snd (handleAltText Examples.clock 100 Examples.key_store malformed))
  /\ usage (snd (handleAltText Examples.clock 100 Examples.key_store malformed))
       "altbot_5f2c" = Some 5
  /\ fst (handleAltText Examples.clock 100 Examples.key_store shed) = 503
  /\ usage (snd (handleAltText Examples.clock 100 Examples.key_store shed))
       "altbot_5f2c" = Some 5.
Proof.
  intros malformed shed.
  assert (Hkey : extractAPIKey "Bearer altbot_5f2c" <> "")
    by (vm_compute; discriminate).
  assert (Hquota : UsageMonth (rollover Examples.clock Examples.carol_key) < 100)
    by (vm_compute; reflexivity).
  assert (Hu : in_range (UsageMonth Examples.carol_key))
    by (unfold in_range; simpl; lia).
  assert (Hl : in_range 100) by (unfold in_range; lia).
  destruct (usage_counted_before_parsing Examples.clock 100 Examples.key_store
              malformed Examples.carol_key eq_refl Hkey eq_refl Hquota Hu Hl)
    as [U1 C1].
  destruct (usage_counted_before_parsing Examples.clock 100 Examples.key_store
              shed Examples.carol_key eq_refl Hkey eq_refl Hquota Hu Hl)
    as [U2 C2].
  split; [|split; [exact U1 | split; [exact C2 | exact U2]]].
  rewrite (surjective_pairing (handleAltText _ _ _ malformed)) at 1.
  now rewrite C1.
Defined.

End Quota.

(* ===================================================================== *)
(** * More on the rate limiter *)
(* ===================================================================== *)

Module RateLimiterMore.
Import GoInt RateLimiter RateLimiterFacts.

Lemma exceeded_ages (cfg : Config) (e : Env) (rl : t) (userID : string) :
  AccountAges (fst (exceeded cfg e rl userID)) = AccountAges rl.
Proof.
  unfold exceeded, ShadowBanUser. simpl.
  destruct (_ <=? _); [|reflexivity].
  destruct (map_bool _ _); reflexivity.
Qed.

(** The limits [Increment] applies to a user: those of the tier that
    [IsNewAccount] selects. *)
Lemma Increment_allowed_iff (cfg : Config) (e : Env) (rl : t) (userID : string) :
  RateLimit_Enabled cfg = true ->
  let isNew := fst (IsNewAccount e rl userID) in
  let maxPerMinute :=
    if isNew then RateLimit_NewAccountMaxRequestsPerMinute cfg
    else RateLimit_MaxRequestsPerMinute cfg in
  let maxPerHour :=
    if isNew then RateLimit_NewAccountMaxRequestsPerHour cfg
    else RateLimit_MaxRequestsPerHour cfg in
  fst (fst (Increment cfg e rl userID)) = true
  <-> IsShadowBanned rl userID = false
      /\ map_int (MinuteCounts rl) userID < maxPerMinute
      /\ map_int (HourCounts rl) userID < maxPerHour.
Proof.
  intros Hen. unfold Increment. rewrite Hen. simpl.
  destruct (IsShadowBanned rl userID); simpl; [intuition discriminate|].
  pose proof (IsNewAccount_frame e rl userID) as (Hm & Hh & _).
  destruct (IsNewAccount e rl userID) as [isNew rl0]. simpl in *.
  rewrite Hm, Hh.
  destruct (Z.leb_spec (if isNew then RateLimit_NewAccountMaxRequestsPerMinute cfg
                        else RateLimit_MaxRequestsPerMinute cfg)
              (map_int (MinuteCounts rl) userID)).
  - destruct (exceeded cfg e rl0 userID). simpl. split; [discriminate | lia].
  - destruct (Z.leb_spec (if isNew then RateLimit_NewAccountMaxRequestsPerHour cfg
                          else RateLimit_MaxRequestsPerHour cfg)
                (map_int (HourCounts rl) userID)).
    + destruct (exceeded cfg e rl0 userID). simpl. split; [discriminate | lia].
    + simpl. split; [intros _; repeat split; assumption | reflexivity].
Qed.

(** X1.  The reset ticks re-open the windows.  After a minute tick every
    minute counter reads zero; after an hour tick every hour counter and
    every exceed counter reads zero; the ban set is not touched by either.
    So after both ticks the next request of a user who is not banned is
    allowed, whenever the limits of both tiers are positive. *)
Theorem reset_ticks_reopen (cfg : Config) (e : Env) (rl : t) (userID : string) :
  RateLimit_Enabled cfg = true ->
  0 < RateLimit_MaxRequestsPerMinute cfg ->
  0 < RateLimit_MaxRequestsPerHour cfg ->
  0 < RateLimit_NewAccountMaxRequestsPerMinute cfg ->
  0 < RateLimit_NewAccountMaxRequestsPerHour cfg ->
  IsShadowBanned rl userID = false ->
  let rl' := ResetMinuteCounts (ResetHourCounts rl) in
  (forall u, map_int (MinuteCounts rl') u = 0
             /\ map_int (HourCounts rl') u = 0
             /\ map_int (ExceededCounts rl') u = 0
             /\ IsShadowBanned rl' u = IsShadowBanned rl u)
  /\ fst (fst (Increment cfg e rl' userID)) = true.
Proof.
  intros Hen H1 H2 H3 H4 Hban rl'. split.
  - intros u. unfold rl', ResetMinuteCounts, ResetHourCounts, IsShadowBanned.
    simpl. rewrite !map_int_reset. auto.
  - apply Increment_allowed_iff; [exact Hen|].
    unfold rl', ResetMinuteCounts, ResetHourCounts, IsShadowBanned in *. simpl.
    rewrite !map_int_reset. split; [exact Hban|].
    destruct (fst (IsNewAccount e _ userID)); lia.
Qed.

(** The ticks after the escalation scenario, for Bob, who is not banned. *)
Lemma reset_ticks_reopen_witness :
  let rl := run Examples.escalation_config Examples.escalation_ops in
  fst (fst (Increment Examples.escalation_config Examples.escalation_env
              (ResetMinuteCounts (ResetHourCounts rl)) "V")) = true.
Proof.
  intros rl.
  apply (reset_ticks_reopen Examples.escalation_config Examples.escalation_env
           rl "V"); try reflexivity.
Defined.

(** Per-user effect of [Increment] on the two request counters: they are
    left alone, or both move by one from below the limit of some tier. *)
Lemma Increment_counters (cfg : Config) (e : Env) (rl : t) (userID : string) :
  let rl' := snd (fst (Increment cfg e rl userID)) in
  (MinuteCounts rl' = MinuteCounts rl /\ HourCounts rl' = HourCounts rl)
  \/ (MinuteCounts rl' = map_incr (MinuteCounts rl) userID
      /\ HourCounts rl' = map_incr (HourCounts rl) userID
      /\ (map_int (MinuteCounts rl) userID < RateLimit_MaxRequestsPerMinute cfg
          \/ map_int (MinuteCounts rl) userID
             < RateLimit_NewAccountMaxRequestsPerMinute cfg)
      /\ (map_int (HourCounts rl) userID < RateLimit_MaxRequestsPerHour cfg
          \/ map_int (HourCounts rl) userID
             < RateLimit_NewAccountMaxRequestsPerHour cfg)).
Proof.
  unfold Increment.
  destruct (RateLimit_Enabled cfg); simpl; [|tauto].
  destruct (IsShadowBanned rl userID); simpl; [tauto|].
  pose proof (IsNewAccount_frame e rl userID) as (Hm & Hh & _).
  destruct (IsNewAccount e rl userID) as [isNew rl0]. simpl in *.
  pose proof (exceeded_spec cfg e rl0 userID) as (Hm' & Hh' & _).
  rewrite Hm, Hh in *.
  destruct (Z.leb_spec (if isNew then RateLimit_NewAccountMaxRequestsPerMinute cfg
                        else RateLimit_MaxRequestsPerMinute cfg)
              (map_int (MinuteCounts rl) userID)).
  - destruct (exceeded cfg e rl0 userID). simpl in *. tauto.
  - destruct (Z.leb_spec (if isNew then RateLimit_NewAccountMaxRequestsPerHour cfg
                          else RateLimit_MaxRequestsPerHour cfg)
                (map_int (HourCounts rl) userID)).
    + destruct (exceeded cfg e rl0 userID). simpl in *. tauto.
    + simpl. right. destruct isNew; tauto.
Qed.

Lemma int_incr_below (x limit : Z) :
  0 <= x -> x < limit -> in_range limit -> int_incr x = x + 1.
Proof.
  unfold in_range, int_incr, wrap. intros H0 Hlt Hl.
  rewrite Z.mod_small; lia.
Qed.

(** X2.  The request counters never grow without bound: in every state
    reached from the empty limiter, each user's minute counter lies
    between 0 and the larger of the two per-minute limits, and the hour
    counter between 0 and the larger of the two per-hour limits (the limits
    being [int] values). *)
Theorem counters_bounded (cfg : Config) (ops : list Op) (u : string) :
  in_range (RateLimit_MaxRequestsPerMinute cfg) ->
  in_range (RateLimit_NewAccountMaxRequestsPerMinute cfg) ->
  in_range (RateLimit_MaxRequestsPerHour cfg) ->
  in_range (RateLimit_NewAccountMaxRequestsPerHour cfg) ->
  0 <= map_int (MinuteCounts (run cfg ops)) u
       <= Z.max 0 (Z.max (RateLimit_MaxRequestsPerMinute cfg)
                     (RateLimit_NewAccountMaxRequestsPerMinute cfg))
  /\ 0 <= map_int (HourCounts (run cfg ops)) u
          <= Z.max 0 (Z.max (RateLimit_MaxRequestsPerHour cfg)
                        (RateLimit_NewAccountMaxRequestsPerHour cfg)).
Proof.
  intros R1 R2 R3 R4. unfold run.
  set (Inv := fun rl : t =>
    forall v,
      0 <= map_int (MinuteCounts rl) v
           <= Z.max 0 (Z.max (RateLimit_MaxRequestsPerMinute cfg)
                         (RateLimit_NewAccountMaxRequestsPerMinute cfg))
      /\ 0 <= map_int (HourCounts rl) v
              <= Z.max 0 (Z.max (RateLimit_MaxRequestsPerHour cfg)
                            (RateLimit_NewAccountMaxRequestsPerHour cfg))).
  assert (Hstep : forall rl op, Inv rl -> Inv (apply_op cfg rl op)).
  { intros rl op HI v. specialize (HI v) as HIv.
    destruct op as [e userID| | |userID]; simpl.
    - destruct (Increment_counters cfg e rl userID)
        as [[Hm Hh] | (Hm & Hh & Lm & Lh)]; simpl in Hm, Hh; rewrite Hm, Hh;
        [exact HIv|].
      rewrite !map_int_incr.
      destruct (decide (userID = v)) as [<- | Hne]; [|exact HIv].
      destruct (HI userID) as [[Hm0 _] [Hh0 _]].
      split.
      + destruct Lm as [Lm | Lm];
          rewrite (int_incr_below _ _ Hm0 Lm) by assumption; lia.
      + destruct Lh as [Lh | Lh];
          rewrite (int_incr_below _ _ Hh0 Lh) by assumption; lia.
    - rewrite map_int_reset. split; [lia | tauto].
    - rewrite map_int_reset. split; [tauto | lia].
    - exact HIv. }
  assert (Hfold : forall ops rl, Inv rl -> Inv (fold_left (apply_op cfg) ops rl)).
  { intros ops0. induction ops0 as [|op ops0 IH]; intros rl HI; [exact HI|].
    simpl. apply IH, Hstep, HI. }
  apply (Hfold ops NewRateLimiter).
  intros v. unfold NewRateLimiter, map_int. simpl. rewrite lookup_empty. simpl. lia.
Qed.

(** The bounds for Alice after the escalation scenario (limits 10 per
    minute, 3 per hour; 1 and 1 for new accounts). *)
Lemma counters_bounded_witness :
  0 <= map_int (MinuteCounts (run Examples.escalation_config
                                Examples.escalation_ops)) "U" <= 10
  /\ 0 <= map_int (HourCounts (run Examples.escalation_config
                                 Examples.escalation_ops)) "U" <= 3.
Proof.
  apply (counters_bounded Examples.escalation_config Examples.escalation_ops "U");
    unfold in_range; simpl; lia.
Defined.

Lemma fold_left_invariant (cfg : Config) (P : t -> Prop) :
  (forall rl op, P rl -> P (apply_op cfg rl op)) ->
  forall ops rl, P rl -> P (fold_left (apply_op cfg) ops rl).
Proof.
  intros Hstep ops. induction ops as [|op ops IH]; intros rl HP; [exact HP|].
  simpl. apply IH, Hstep, HP.
Qed.

(** X3.  The whitelist is permanent: once [UnbanAndWhitelistUser] has run
    for a user, whatever operations follow (requests of anyone, ticks,
    other unbans), the user is on the whitelist and not in the ban set. *)
Theorem whitelist_is_permanent (cfg : Config) (rl : t) (userID : string)
    (ops : list Op) :
  let rl' := fold_left (apply_op cfg) ops (UnbanAndWhitelistUser rl userID) in
  map_bool (Whitelist rl') userID = true
  /\ IsShadowBanned rl' userID = false.
Proof.
  apply (fold_left_invariant cfg
           (fun r => map_bool (Whitelist r) userID = true
                     /\ IsShadowBanned r userID = false)).
  - intros r op [Hw Hb]. unfold IsShadowBanned in *.
    destruct op as [e u| | |u]; simpl; try tauto.
    + pose proof (Increment_cases cfg e r u) as (Hw' & [[_ Hb'] | [_ Hb']]);
        simpl in Hw', Hb'; rewrite Hw'; (split; [exact Hw|]).
      * now rewrite Hb'.
      * destruct (_ <=? _); simpl in Hb'; [|now rewrite Hb'].
        destruct (map_bool (Whitelist r) u) eqn:Ew; simpl in Hb';
          rewrite Hb'; [exact Hb|].
        rewrite map_bool_insert.
        destruct (decide (u = userID)) as [-> | _]; [congruence | exact Hb].
    + rewrite map_bool_insert, map_bool_delete.
      destruct (decide (u = userID)); tauto.
  - unfold UnbanAndWhitelistUser, IsShadowBanned. simpl.
    rewrite map_bool_insert, map_bool_delete.
    destruct (decide (userID = userID)); [tauto | congruence].
Qed.

(** X5.  A ban is lifted by the admin only: a banned user stays banned
    through every sequence of requests and ticks that contains no unban of
    that user (the hour tick clears the exceed counter, not the ban), and
    while rate limiting is on each request of the user is rejected with
    nothing changed and nobody notified. *)
Theorem ban_is_sticky (cfg : Config) (rl : t) (userID : string) (ops : list Op) :
  IsShadowBanned rl userID = true ->
  Forall (fun op => op <> OpUnbanAndWhitelistUser userID) ops ->
  let rl' := fold_left (apply_op cfg) ops rl in
  IsShadowBanned rl' userID = true
  /\ (RateLimit_Enabled cfg = true ->
      forall e, Increment cfg e rl' userID = (false, rl', [])).
Proof.
  intros Hban Hops.
  assert (H : IsShadowBanned (fold_left (apply_op cfg) ops rl) userID = true).
  { revert rl Hban. induction Hops as [|op ops Hop _ IH]; intros rl Hban;
      [exact Hban|].
    simpl. apply IH. unfold IsShadowBanned in *.
    destruct op as [e u| | |u]; simpl; try exact Hban.
    - pose proof (Increment_cases cfg e rl u) as (_ & [[_ Hb'] | [_ Hb']]);
        simpl in Hb'.
      + now rewrite Hb'.
      + destruct (_ && _); rewrite Hb'; [|exact Hban].
        rewrite map_bool_insert. destruct (decide (u = userID)); congruence.
    - rewrite map_bool_delete.
      destruct (decide (u = userID)) as [-> | _]; [congruence | exact Hban]. }
  split; [exact H|].
  intros Hen e. unfold Increment. now rewrite Hen, H.
Qed.

(** The ban of Alice after her five requests survives an hour tick, a
    minute tick and a request. *)
Lemma ban_is_sticky_witness :
  let ask := OpIncrement Examples.escalation_env "U" in
  let banned := run Examples.escalation_config [ask; ask; ask; ask; ask] in
  IsShadowBanned
    (fold_left (apply_op Examples.escalation_config)
       [OpResetHourCounts; OpResetMinuteCounts; ask] banned) "U" = true.
Proof.
  intros ask banned.
  apply (ban_is_sticky Examples.escalation_config banned "U"
           [OpResetHourCounts; OpResetMinuteCounts; ask]).
  - vm_compute. reflexivity.
  - repeat constructor; discriminate.
Defined.

Lemma IsNewAccount_ages (e : Env) (rl : t) (userID v : string) (d : Z) :
  AccountAges rl !! v = Some d ->
  AccountAges (snd (IsNewAccount e rl userID)) !! v = Some d.
Proof.
  intros Hv. unfold IsNewAccount.
  destruct (AccountAges rl !! userID) eqn:E; simpl; [exact Hv|].
  destruct (Mastodon.GetAccount (client e) userID); simpl; [|exact Hv].
  rewrite lookup_insert_ne; [exact Hv | congruence].
Qed.

Lemma Increment_ages (cfg : Config) (e : Env) (rl : t) (userID v : string) (d : Z) :
  AccountAges rl !! v = Some d ->
  AccountAges (snd (fst (Increment cfg e rl userID))) !! v = Some d.
Proof.
  intros Hv. unfold Increment.
  destruct (RateLimit_Enabled cfg); simpl; [|exact Hv].
  destruct (IsShadowBanned rl userID); simpl; [exact Hv|].
  pose proof (IsNewAccount_ages e rl userID v d Hv) as H0.
  destruct (IsNewAccount e rl userID) as [isNew rl0]. simpl in *.
  pose proof (exceeded_ages cfg e rl0 userID) as Hx.
  destruct (_ <=? map_int (MinuteCounts rl0) userID).
  - destruct (exceeded cfg e rl0 userID). simpl in *. now rewrite Hx.
  - destruct (_ <=? map_int (HourCounts rl0) userID).
    + destruct (exceeded cfg e rl0 userID). simpl in *. now rewrite Hx.
    + exact H0.
Qed.

(** X4.  The cache of account creation dates is write-once: a date, once
    cached for a user, is never replaced nor dropped by any sequence of
    operations, and from then on [IsNewAccount] decides the tier of the
    user from the cached date alone, without asking the platform and
    without changing the limiter. *)
Theorem account_age_cached_forever (cfg : Config) (rl : t) (userID : string)
    (created : Z) (ops : list Op) :
  AccountAges rl !! userID = Some created ->
  let rl' := fold_left (apply_op cfg) ops rl in
  AccountAges rl' !! userID = Some created
  /\ forall e,
       IsNewAccount e rl' userID = (within_new_account_period e created, rl').
Proof.
  intros Hc.
  assert (H : AccountAges (fold_left (apply_op cfg) ops rl) !! userID
              = Some created).
  { apply (fold_left_invariant cfg
             (fun r => AccountAges r !! userID = Some created)); [|exact Hc].
    intros r op Hr. destruct op as [e u| | |u]; simpl; try exact Hr.
    now apply Increment_ages. }
  split; [exact H|].
  intros e. unfold IsNewAccount. now rewrite H.
Qed.

(** Alice's creation date, cached by her first request, after the whole
    escalation scenario. *)
Lemma account_age_cached_forever_witness :
  let ask := OpIncrement Examples.escalation_env "U" in
  AccountAges
    (fold_left (apply_op Examples.escalation_config) Examples.escalation_ops
       (run Examples.escalation_config [ask])) !! "U" = Some 0.
Proof.
  intros ask.
  apply (account_age_cached_forever Examples.escalation_config
           (run Examples.escalation_config [ask]) "U" 0
           Examples.escalation_ops).
  vm_compute. reflexivity.
Defined.

(** X6.  Requests are accounted per user: an [Increment] for one user
    leaves the counters, the exceed counter, the ban, the whitelist entry
    and the cached creation date of every other user as they were. *)
Theorem Increment_other_users (cfg : Config) (e : Env) (rl : t)
    (userID other : string) :
  userID <> other ->
  let rl' := snd (fst (Increment cfg e rl userID)) in
  map_int (MinuteCounts rl') other = map_int (MinuteCounts rl) other
  /\ map_int (HourCounts rl') other = map_int (HourCounts rl) other
  /\ map_int (ExceededCounts rl') other = map_int (ExceededCounts rl) other
  /\ IsShadowBanned rl' other = IsShadowBanned rl other
  /\ map_bool (Whitelist rl') other = map_bool (Whitelist rl) other
  /\ AccountAges rl' !! other = AccountAges rl !! other.
Proof.
  intros Hne rl'. unfold IsShadowBanned.
  pose proof (Increment_counters cfg e rl userID) as Hc.
  pose proof (Increment_cases cfg e rl userID) as (Hw & Hx).
  fold rl' in Hc, Hw, Hx. rewrite Hw.
  assert (Hcount : map_int (MinuteCounts rl') other = map_int (MinuteCounts rl) other
                   /\ map_int (HourCounts rl') other = map_int (HourCounts rl) other).
  { destruct Hc as [[-> ->] | (-> & -> & _)]; [tauto|].
    now rewrite !map_int_incr_ne. }
  assert (Hexc : map_int (ExceededCounts rl') other = map_int (ExceededCounts rl) other
                 /\ map_bool (ShadowBanned rl') other = map_bool (ShadowBanned rl) other).
  { destruct Hx as [[-> ->] | [-> Hb]]; [tauto|].
    rewrite map_int_incr_ne by exact Hne. split; [reflexivity|].
    destruct (_ && _); rewrite Hb; [|reflexivity].
    rewrite map_bool_insert. destruct (decide (userID = other)); congruence. }
  assert (Hage : AccountAges rl' !! other = AccountAges rl !! other).
  { unfold rl', Increment.
    destruct (RateLimit_Enabled cfg); simpl; [|reflexivity].
    destruct (map_bool (ShadowBanned rl) userID) eqn:Eb;
      unfold IsShadowBanned; rewrite Eb; simpl; [reflexivity|].
    assert (H0 : AccountAges (snd (IsNewAccount e rl userID)) !! other
                 = AccountAges rl !! other).
    { unfold IsNewAccount.
      destruct (AccountAges rl !! userID); simpl; [reflexivity|].
      destruct (Mastodon.GetAccount (client e) userID); simpl; [|reflexivity].
      now rewrite lookup_insert_ne. }
    destruct (IsNewAccount e rl userID) as [isNew rl0]. simpl in *.
    pose proof (exceeded_ages cfg e rl0 userID) as Ha.
    destruct (_ <=? map_int (MinuteCounts rl0) userID).
    - destruct (exceeded cfg e rl0 userID). simpl in *. now rewrite Ha.
    - destruct (_ <=? map_int (HourCounts rl0) userID).
      + destruct (exceeded cfg e rl0 userID). simpl in *. now rewrite Ha.
      + exact H0. }
  tauto.
Qed.

(** Bob's accounts after a request of Alice on the empty limiter. *)
Lemma Increment_other_users_witness :
  map_int
    (HourCounts
       (snd (fst (Increment Examples.escalation_config Examples.escalation_env
                    NewRateLimiter "U")))) "V" = 0.
Proof.
  refine (proj1 (proj2 (Increment_other_users Examples.escalation_config
                          Examples.escalation_env NewRateLimiter "U" "V" _))).
  discriminate.
Defined.

End RateLimiterMore.

(* ===================================================================== *)
(** * The consent ledger and the pending requests *)
(* ===================================================================== *)

Module ConsentLedger.
Import GoString Consent ConsentFlow.

Lemma new_events_emit (b : Bot) (evs : list Event) :
  new_events b (emit b evs) = evs.
Proof. unfold new_events, emit. simpl. apply drop_app_length. Qed.

Lemma new_events_same (b b' : Bot) :
  trace b' = trace b -> new_events b b' = [].
Proof. intros H. unfold new_events. rewrite H. apply drop_all. Qed.

Lemma HasUserConsent_insert (b : Bot) (u v : string) (r : ConsentRecord) :
  HasUserConsent (set_consentDB b (<[u := r]> (consentDB b))) v
  = HasUserConsent b v || bool_decide (v = u).
Proof.
  unfold HasUserConsent. simpl.
  destruct (decide (v = u)) as [-> | Hne].
  - rewrite lookup_insert_eq, (bool_decide_eq_true_2 (u = u)) by reflexivity.
    rewrite orb_true_r. apply bool_decide_eq_true_2. eauto.
  - rewrite lookup_insert_ne by congruence.
    rewrite (bool_decide_eq_false_2 (v = u)) by exact Hne.
    now rewrite orb_false_r.
Qed.

(** What [checkAndRecordConsent] does to the ledger and what it sends. *)
Lemma checkAndRecordConsent_effect_core (cfg : Config) (e : Env) (saved : bool)
    (b : Bot) (status : Mastodon.Status) (plainTextContent userID : string) :
  let r := checkAndRecordConsent cfg e saved b status plainTextContent userID in
  let granted :=
    negb (String.eqb plainTextContent "")
    && affirmative (strings_ToLower (unicode_ToLower e) plainTextContent) in
  (forall v, HasUserConsent (snd r) v
             = HasUserConsent b v || (granted && bool_decide (v = userID)))
  /\ fst r = granted && saved
  /\ pendingGDPRRequests (snd r) = pendingGDPRRequests b
  /\ List.length (new_events b (snd r))
     = (if fst r && negb (devMode cfg) then 1 else 0)%nat
  /\ Forall is_direct_post (new_events b (snd r)).
Proof.
  unfold checkAndRecordConsent.
  destruct (String.eqb plainTextContent "") eqn:Ee; simpl.
  { split; [intros v; now rewrite orb_false_r|].
    rewrite new_events_same by reflexivity. repeat split; constructor. }
  destruct (affirmative (strings_ToLower (unicode_ToLower e) plainTextContent)) eqn:Ea; simpl.
  2:{ split; [intros v; now rewrite orb_false_r|].
      rewrite new_events_same by reflexivity. repeat split; constructor. }
  destruct saved; simpl.
  - unfold sendConsentConfirmation.
    destruct (devMode cfg); simpl.
    + split; [intros v; apply HasUserConsent_insert|].
      rewrite new_events_same by reflexivity. repeat split; constructor.
    + split; [intros v; apply (HasUserConsent_insert b userID v)|].
      unfold new_events. simpl. rewrite drop_app_length.
      repeat split. repeat constructor.
  - split; [intros v; apply HasUserConsent_insert|].
    rewrite new_events_same by reflexivity. repeat split; constructor.
Qed.

(** X7.  [checkAndRecordConsent] records the sender and nobody else: after
    the call a user has consent exactly if they had it before or they are
    the sender and the plain text is affirmative (a token occurs as a whole
    word in the text as [strings.ToLower] lowers it).  The record is written
    even when the snapshot to disk fails; the call then answers false and
    sends no confirmation.  It answers true exactly for an affirmative text
    with a successful snapshot, and then sends one confirmation, a direct
    message (none in dev mode); otherwise it sends nothing. *)
Theorem checkAndRecordConsent_effect (cfg : Config) (e : Env) (saved : bool)
    (b : Bot) (status : Mastodon.Status) (plainTextContent userID : string) :
  let r := checkAndRecordConsent cfg e saved b status plainTextContent userID in
  let granted :=
    negb (String.eqb plainTextContent "")
    && affirmative (strings_ToLower (unicode_ToLower e) plainTextContent) in
  (forall v, HasUserConsent (snd r) v
             = HasUserConsent b v || (granted && bool_decide (v = userID)))
  /\ fst r = granted && saved
  /\ pendingGDPRRequests (snd r) = pendingGDPRRequests b
  /\ List.length (new_events b (snd r))
     = (if fst r && negb (devMode cfg) then 1 else 0)%nat
  /\ Forall is_direct_post (new_events b (snd r)).
Proof.
  intros.
  pose proof (checkAndRecordConsent_effect_core cfg e saved b status plainTextContent userID) as H.
  exact H.
Qed.

(** X8.  The life of a pending consent request.  A request added for a
    user is found again as long as the clock does not call it expired, and
    a second request for the same user replaces the first (at most one per
    user).  An expired request is not returned and is deleted by the
    lookup itself, so that no later lookup finds it, whatever the clock
    says then.  After [RemovePendingGDPRRequest] the lookup finds nothing. *)
Theorem pending_request_lifecycle (e : Env) (o : Oracle) (b : Bot)
    (userID first second : string) :
  let b1 := AddPendingGDPRRequest e (AddPendingGDPRRequest e b userID first)
              userID second in
  let req := {| pg_UserID := userID; pg_RequestStatusID := second;
                pg_Timestamp := now e |} in
  GetPendingGDPRRequest o b1 userID
  = (if expired o (now e) then None else Some req,
     if expired o (now e) then RemovePendingGDPRRequest b1 userID else b1)
  /\ (forall o', fst (GetPendingGDPRRequest o'
                        (RemovePendingGDPRRequest b1 userID) userID) = None)
  /\ (forall other,
         other <> userID ->
         pendingGDPRRequests b1 !! other = pendingGDPRRequests b !! other).
Proof.
  intros b1 req. split; [|split].
  - unfold GetPendingGDPRRequest, b1, AddPendingGDPRRequest. simpl.
    rewrite lookup_insert_eq. simpl.
    destruct (expired o (now e)); reflexivity.
  - intros o'. unfold GetPendingGDPRRequest, RemovePendingGDPRRequest. simpl.
    now rewrite lookup_delete_eq.
  - intros other Hne. unfold b1, AddPendingGDPRRequest. simpl.
    rewrite !lookup_insert_ne by congruence. reflexivity.
Qed.

(** The requests "R1" then "R2" sent to Alice; Bob's (absent) entry. *)
Lemma pending_request_lifecycle_witness :
  let e := Examples.env (Examples.platform Examples.alice true) in
  let b1 := AddPendingGDPRRequest e
              (AddPendingGDPRRequest e Examples.fresh_bot "U" "R1") "U" "R2" in
  pendingGDPRRequests b1 !! "V" = None.
Proof.
  intros e b1.
  refine (proj2 (proj2 (pending_request_lifecycle e
            {| stripHTMLTags := fun s => s; expired := fun _ => false;
               saved := true |} Examples.fresh_bot "U" "R1" "R2")) "V" _).
  discriminate.
Defined.

(** The loop of [CleanupExpiredGDPRRequests] over a part of the table. *)
Lemma CleanupExpiredGDPRRequests_loop (o : Oracle)
    (requests0 m : gmap string PendingGDPRRequest) :
  let result :=
    map_fold
      (fun userID req '(removed, requests) =>
         if expired o (pg_Timestamp req)
         then (GoInt.int_incr removed, delete userID requests)
         else (removed, requests))
      (0, requests0) m in
  (Z.of_nat (size m) < 2 ^ 63 ->
   0 <= fst result <= Z.of_nat (size m)
   /\ fst result
      = Z.of_nat
          (size (filter (fun kv => expired o (pg_Timestamp (snd kv)) = true) m)))
  /\ forall u,
      snd result !! u
      = match m !! u with
        | Some req =>
            if expired o (pg_Timestamp req) then None else requests0 !! u
        | None => requests0 !! u
        end.
Proof.
  cbv zeta.
  apply (map_fold_weak_ind
           (fun (result : Z * gmap string PendingGDPRRequest)
                (m : gmap string PendingGDPRRequest) =>
              (Z.of_nat (size m) < 2 ^ 63 ->
               0 <= fst result <= Z.of_nat (size m)
               /\ fst result
                  = Z.of_nat
                      (size (filter
                               (fun kv => expired o (pg_Timestamp (snd kv)) = true)
                               m)))
              /\ forall u,
                  snd result !! u
                  = match m !! u with
                    | Some req =>
                        if expired o (pg_Timestamp req) then None
                        else requests0 !! u
                    | None => requests0 !! u
                    end)).
  - split.
    + intros _. rewrite map_filter_empty, map_size_empty. simpl. lia.
    + intros u. rewrite lookup_empty. reflexivity.
  - intros i x m' [removed requests] Hi [IHn IHk]. simpl in IHn, IHk.
    rewrite (map_size_insert_None i x m' Hi).
    destruct (expired o (pg_Timestamp x)) eqn:Hexp; simpl; split.
    + intros Hsize. destruct IHn as [Hb ->]; [lia|].
      rewrite (map_filter_insert_True _ m' i x) by exact Hexp.
      rewrite map_size_insert_None
        by (apply map_lookup_filter_None; left; exact Hi).
      assert (Hincr : forall n : Z, 0 <= n -> n + 1 < 2 ^ 63 ->
                                    GoInt.int_incr n = n + 1).
      { intros n H0 H1. unfold GoInt.int_incr, GoInt.wrap.
        rewrite Z.mod_small; lia. }
      rewrite Hincr by lia. lia.
    + intros u. destruct (decide (u = i)) as [-> | Hne].
      * rewrite lookup_delete_eq, lookup_insert_eq, Hexp. reflexivity.
      * rewrite lookup_delete_ne, lookup_insert_ne by congruence. apply IHk.
    + intros Hsize. destruct IHn as [Hb ->]; [lia|].
      rewrite (map_filter_insert_False _ m' i x) by (simpl; congruence).
      rewrite (delete_id m' i Hi). lia.
    + intros u. destruct (decide (u = i)) as [-> | Hne].
      * rewrite lookup_insert_eq, Hexp, IHk, Hi. reflexivity.
      * rewrite lookup_insert_ne by congruence. apply IHk.
Qed.

(** X9.  [CleanupExpiredGDPRRequests] returns only when no pending request
    is expired, and then it has changed nothing.  When a request is
    expired, the call deletes the expired requests in memory, keeps the
    others as they were, touches no other table, posts nothing, and never
    returns: it blocks on the mutex of the pending requests, which it
    holds itself. *)
Theorem cleanup_expired_requests (o : Oracle) (b : Bot) :
  Z.of_nat (size (pendingGDPRRequests b)) < 2 ^ 63 ->
  let outcome := CleanupExpiredGDPRRequests o b in
  let b' := memory outcome in
  (outcome = Returns b
   <-> forall u req, pendingGDPRRequests b !! u = Some req ->
                     expired o (pg_Timestamp req) = false)
  /\ (outcome = Deadlock b'
      <-> exists u req, pendingGDPRRequests b !! u = Some req
                        /\ expired o (pg_Timestamp req) = true)
  /\ (forall u,
         pendingGDPRRequests b' !! u
         = match pendingGDPRRequests b !! u with
           | Some req => if expired o (pg_Timestamp req) then None else Some req
           | None => None
           end)
  /\ consentDB b' = consentDB b /\ replyMap b' = replyMap b
  /\ consentRequests b' = consentRequests b
  /\ rateLimiter b' = rateLimiter b /\ trace b' = trace b.
Proof.
  intros Hsize outcome b'.
  destruct (CleanupExpiredGDPRRequests_loop o (pendingGDPRRequests b)
              (pendingGDPRRequests b)) as [Hn Hk].
  destruct (Hn Hsize) as [_ Hcount]. clear Hn. cbv zeta in Hcount, Hk.
  unfold b', outcome, CleanupExpiredGDPRRequests.
  destruct (map_fold _ (0, pendingGDPRRequests b) (pendingGDPRRequests b))
    as [removed requests]. simpl in Hcount, Hk.
  assert (Hlook : forall u,
      requests !! u
      = match pendingGDPRRequests b !! u with
        | Some req => if expired o (pg_Timestamp req) then None else Some req
        | None => None
        end).
  { intros u. rewrite Hk.
    destruct (pendingGDPRRequests b !! u) as [req|] eqn:E; [|reflexivity].
    destruct (expired o (pg_Timestamp req)); reflexivity. }
  assert (Hsome : 0 < removed
                  <-> exists u req, pendingGDPRRequests b !! u = Some req
                                    /\ expired o (pg_Timestamp req) = true).
  { rewrite Hcount. split.
    - intros Hpos.
      assert (Hne : size (filter
                            (fun kv => expired o (pg_Timestamp (snd kv)) = true)
                            (pendingGDPRRequests b)) <> 0%nat) by lia.
      apply map_size_ne_0_lookup in Hne as (u & req & Hreq).
      apply map_lookup_filter_Some in Hreq as [Hreq Hexp].
      exists u, req. split; assumption.
    - intros (u & req & Hreq & Hexp).
      assert (Hne : size (filter
                            (fun kv => expired o (pg_Timestamp (snd kv)) = true)
                            (pendingGDPRRequests b)) <> 0%nat).
      { apply map_size_ne_0_lookup. exists u, req.
        apply map_lookup_filter_Some. split; assumption. }
      lia. }
  assert (Hsame : (forall u req, pendingGDPRRequests b !! u = Some req ->
                                 expired o (pg_Timestamp req) = false) ->
                  set_pendingGDPRRequests b requests = b).
  { intros Hnone.
    assert (Heq : requests = pendingGDPRRequests b).
    { apply map_eq. intros u. rewrite Hlook.
      destruct (pendingGDPRRequests b !! u) as [req|] eqn:E; [|reflexivity].
      now rewrite (Hnone u req E). }
    rewrite Heq. destruct b. reflexivity. }
  destruct (Z.ltb_spec 0 removed) as [Hpos | Hzero]; simpl.
  - split; [|split; [|split; [exact Hlook | repeat split]]].
    + split; [discriminate|]. intros Hnone.
      apply Hsome in Hpos as (u & req & Hreq & Hexp).
      rewrite (Hnone u req Hreq) in Hexp. discriminate.
    + split; [intros _; now apply Hsome | reflexivity].
  - assert (Hnone : forall u req, pendingGDPRRequests b !! u = Some req ->
                                  expired o (pg_Timestamp req) = false).
    { intros u req Hreq.
      destruct (expired o (pg_Timestamp req)) eqn:Hexp; [|reflexivity].
      assert (0 < removed) by (apply Hsome; exists u, req; tauto). lia. }
    split; [|split; [|split; [exact Hlook | repeat split]]].
    + split; [intros _; exact Hnone|]. intros _. f_equal. now apply Hsame.
    + split; [discriminate|]. intros (u & req & Hreq & Hexp).
      rewrite (Hnone u req Hreq) in Hexp. discriminate.
Qed.

(** A fresh request survives the cleanup, which returns; a request the
    clock calls expired is deleted, and the cleanup is stuck. *)
Lemma cleanup_expired_requests_witness :
  let e := Examples.env (Examples.platform Examples.alice true) in
  let fresh := {| stripHTMLTags := fun s => s; expired := fun t => t <? 500;
                  saved := true |} in
  let late := {| stripHTMLTags := fun s => s; expired := fun t => t <? 5000;
                 saved := true |} in
  let b := AddPendingGDPRRequest e Examples.fresh_bot "U" "R1" in
  CleanupExpiredGDPRRequests fresh b = Returns b
  /\ CleanupExpiredGDPRRequests late b
     = Deadlock (memory (CleanupExpiredGDPRRequests late b))
  /\ pendingGDPRRequests (memory (CleanupExpiredGDPRRequests late b)) !! "U"
     = None.
Proof.
  intros e fresh late b.
  assert (Hsize : Z.of_nat (size (pendingGDPRRequests b)) < 2 ^ 63)
    by (vm_compute; reflexivity).
  destruct (cleanup_expired_requests fresh b Hsize) as (Hret & _).
  destruct (cleanup_expired_requests late b Hsize) as (_ & Hdead & Hlook & _).
  split; [|split].
  - apply Hret. intros u req H. unfold b, AddPendingGDPRRequest in H.
    simpl in H. destruct (decide (u = "U")) as [-> | Hne].
    + rewrite lookup_insert_eq in H. injection H as <-. reflexivity.
    + rewrite lookup_insert_ne, lookup_empty in H by congruence. discriminate.
  - apply Hdead. exists "U". eexists. split; [apply lookup_insert_eq|].
    reflexivity.
  - rewrite (Hlook "U"). reflexivity.
Defined.

End ConsentLedger.

(* ===================================================================== *)
(** * The two response paths of GDPR consent *)
(* ===================================================================== *)

Module ConsentResponse.
Import GoString Consent ConsentFlow ConsentLedger.

Lemma checkAndRecordConsent_answer (cfg : Config) (e : Env) (saved : bool)
    (b : Bot) (status : Mastodon.Status) (plain userID : string) :
  fst (checkAndRecordConsent cfg e saved b status plain userID)
  = negb (String.eqb plain "") && affirmative (strings_ToLower (unicode_ToLower e) plain) && saved.
Proof. apply (checkAndRecordConsent_effect_core cfg e saved b status plain userID). Qed.

(** What [checkAndRecordConsent] leaves alone. *)
Lemma checkAndRecordConsent_frame (cfg : Config) (e : Env) (saved : bool)
    (b : Bot) (status : Mastodon.Status) (plain userID : string) :
  let b' := snd (checkAndRecordConsent cfg e saved b status plain userID) in
  (forall v, v <> userID -> consentDB b' !! v = consentDB b !! v)
  /\ pendingGDPRRequests b' = pendingGDPRRequests b
  /\ replyMap b' = replyMap b /\ consentRequests b' = consentRequests b
  /\ rateLimiter b' = rateLimiter b
  /\ (fst (checkAndRecordConsent cfg e saved b status plain userID) = true ->
      is_Some (consentDB b' !! userID)).
Proof.
  unfold checkAndRecordConsent.
  destruct (String.eqb plain ""); simpl; [intuition discriminate|].
  destruct (affirmative (strings_ToLower (unicode_ToLower e) plain)); simpl; [|intuition discriminate].
  destruct saved; simpl.
  - unfold sendConsentConfirmation. destruct (devMode cfg); simpl;
      (split; [intros v Hv; now rewrite lookup_insert_ne by congruence|]);
      repeat (split; [reflexivity|]); intros _; rewrite lookup_insert_eq; eauto.
  - split; [intros v Hv; now rewrite lookup_insert_ne by congruence|].
    repeat (split; [reflexivity|]). discriminate.
Qed.

Lemma new_events_trace (b0 b0' b1 b1' : Bot) :
  trace b0 = trace b0' -> trace b1 = trace b1' ->
  new_events b0 b1 = new_events b0' b1'.
Proof. unfold new_events. now intros -> ->. Qed.

(** The messages [HandleGDPRConsentResponse] accepts. *)
Lemma consent_response_accepted_iff_core (cfg : Config) (e : Env) (o : Oracle)
    (b : Bot) (status : Mastodon.Status) :
  let userID := Mastodon.acc_ID (Mastodon.st_Account status) in
  let plain := stripHTMLTags o (Mastodon.st_Content status) in
  fst (HandleGDPRConsentResponse cfg e o b status) = true
  <-> negb (String.eqb plain "") && affirmative (strings_ToLower (unicode_ToLower e) plain) && saved o = true
      /\ match Mastodon.st_InReplyToID status with
         | Mastodon.RefID id =>
             exists parent,
               Mastodon.GetStatus (client e) id = Some parent
               /\ containsWord (stripHTMLTags o (Mastodon.st_Content parent))
                    privacy_policy = true
         | Mastodon.RefNil =>
             Mastodon.st_Visibility status = "direct"
             /\ exists req,
                  pendingGDPRRequests b !! userID = Some req
                  /\ expired o (pg_Timestamp req) = false
         | Mastodon.RefOther => False
         end.
Proof.
  intros userID plain. unfold HandleGDPRConsentResponse. fold userID.
  destruct (Mastodon.st_InReplyToID status) as [|id|] eqn:Eref.
  - destruct (String.eqb_spec (Mastodon.st_Visibility status) "direct") as [Hd | Hd].
    + unfold handleNonReplyConsent, GetPendingGDPRRequest.
      destruct (pendingGDPRRequests b !! userID) as [req|] eqn:Ep.
      * destruct (expired o (pg_Timestamp req)) eqn:Ex; simpl.
        { split; [discriminate|]. intros (_ & _ & req' & [= <-] & Hx). congruence. }
        pose proof (checkAndRecordConsent_answer cfg e (saved o) b status plain userID)
          as Hans. fold plain.
        destruct (checkAndRecordConsent cfg e (saved o) b status plain userID)
          as [ok b1]. simpl in Hans. subst ok.
        destruct (negb (String.eqb plain "") && affirmative (strings_ToLower (unicode_ToLower e) plain) && saved o);
          simpl; split; try discriminate; try tauto.
        intros _. split; [reflexivity|]. split; [exact Hd|]. eauto.
      * simpl. split; [discriminate|]. intros (_ & _ & req & Hreq & _). discriminate.
    + split; [discriminate|]. intros (_ & Hv & _). contradiction.
  - unfold handleReplyBasedConsent. rewrite Eref.
    destruct (Mastodon.GetStatus (client e) id) as [parent|] eqn:Eg.
    + destruct (containsWord (stripHTMLTags o (Mastodon.st_Content parent))
                  privacy_policy) eqn:Ec; simpl.
      * pose proof (checkAndRecordConsent_answer cfg e (saved o) b status plain userID)
          as Hans. fold plain.
        destruct (checkAndRecordConsent cfg e (saved o) b status plain userID)
          as [ok b1]. simpl in Hans. subst ok.
        destruct (negb (String.eqb plain "") && affirmative (strings_ToLower (unicode_ToLower e) plain) && saved o);
          simpl; split; try discriminate; try tauto.
        intros _. split; [reflexivity|]. eauto.
      * split; [discriminate|]. intros (_ & parent' & [= <-] & Hc). congruence.
    + split; [discriminate|]. intros (_ & parent & Hp & _). discriminate.
  - unfold handleReplyBasedConsent. rewrite Eref. simpl.
    split; [discriminate | tauto].
Qed.

(** X10.  When a consent response is accepted.  [HandleGDPRConsentResponse]
    answers true exactly when the plain text of the message is affirmative
    (a token occurs as a whole word in the text as [strings.ToLower] lowers
    it), the ledger snapshot succeeds, and either the message replies to a post
    that can be fetched and whose text contains the privacy-policy link
    (threaded path), or it replies to nothing, is a direct message, and
    its sender has a pending request that has not expired (non-threaded
    path).  A public message that replies to nothing is never accepted. *)
Theorem consent_response_accepted_iff (cfg : Config) (e : Env) (o : Oracle)
    (b : Bot) (status : Mastodon.Status) :
  let userID := Mastodon.acc_ID (Mastodon.st_Account status) in
  let plain := stripHTMLTags o (Mastodon.st_Content status) in
  fst (HandleGDPRConsentResponse cfg e o b status) = true
  <-> negb (String.eqb plain "") && affirmative (strings_ToLower (unicode_ToLower e) plain) && saved o = true
      /\ match Mastodon.st_InReplyToID status with
         | Mastodon.RefID id =>
             exists parent,
               Mastodon.GetStatus (client e) id = Some parent
               /\ containsWord (stripHTMLTags o (Mastodon.st_Content parent))
                    privacy_policy = true
         | Mastodon.RefNil =>
             Mastodon.st_Visibility status = "direct"
             /\ exists req,
                  pendingGDPRRequests b !! userID = Some req
                  /\ expired o (pg_Timestamp req) = false
         | Mastodon.RefOther => False
         end.
Proof.
  intros.
  pose proof (consent_response_accepted_iff_core cfg e o b status) as H.
  exact H.
Qed.

(** What the two response paths do to the bot, in terms of the call to
    [checkAndRecordConsent] they may make. *)
Lemma consent_response_shape (cfg : Config) (e : Env) (o : Oracle)
    (b : Bot) (status : Mastodon.Status) :
  let userID := Mastodon.acc_ID (Mastodon.st_Account status) in
  let plain := stripHTMLTags o (Mastodon.st_Content status) in
  let r := HandleGDPRConsentResponse cfg e o b status in
  (fst r = false /\ trace (snd r) = trace b /\ consentDB (snd r) = consentDB b
   /\ replyMap (snd r) = replyMap b /\ rateLimiter (snd r) = rateLimiter b
   /\ consentRequests (snd r) = consentRequests b
   /\ (pendingGDPRRequests (snd r) = pendingGDPRRequests b
       \/ pendingGDPRRequests (snd r) = delete userID (pendingGDPRRequests b)))
  \/ (exists b0,
        trace b0 = trace b /\ consentDB b0 = consentDB b
        /\ replyMap b0 = replyMap b /\ rateLimiter b0 = rateLimiter b
        /\ consentRequests b0 = consentRequests b
        /\ pendingGDPRRequests b0 = pendingGDPRRequests b
        /\ let c := checkAndRecordConsent cfg e (saved o) b0 status plain userID in
           fst r = fst c
           /\ trace (snd r) = trace (snd c)
           /\ consentDB (snd r) = consentDB (snd c)
           /\ replyMap (snd r) = replyMap (snd c)
           /\ rateLimiter (snd r) = rateLimiter (snd c)
           /\ consentRequests (snd r) = consentRequests (snd c)
           /\ pendingGDPRRequests (snd r)
              = if fst c then delete userID (pendingGDPRRequests (snd c))
                else pendingGDPRRequests (snd c)).
Proof.
  intros userID plain r. unfold r, HandleGDPRConsentResponse. fold userID.
  assert (Hcall : forall b0,
    trace b0 = trace b -> consentDB b0 = consentDB b ->
    replyMap b0 = replyMap b -> rateLimiter b0 = rateLimiter b ->
    consentRequests b0 = consentRequests b ->
    pendingGDPRRequests b0 = pendingGDPRRequests b ->
    let c := checkAndRecordConsent cfg e (saved o) b0 status plain userID in
    let r0 := (let '(ok, b1) := c in
               if ok then (true, RemovePendingGDPRRequest b1 userID)
               else (false, b1)) in
    exists b0',
      trace b0' = trace b /\ consentDB b0' = consentDB b
      /\ replyMap b0' = replyMap b /\ rateLimiter b0' = rateLimiter b
      /\ consentRequests b0' = consentRequests b
      /\ pendingGDPRRequests b0' = pendingGDPRRequests b
      /\ let c' := checkAndRecordConsent cfg e (saved o) b0' status plain userID in
         fst r0 = fst c'
         /\ trace (snd r0) = trace (snd c')
         /\ consentDB (snd r0) = consentDB (snd c')
         /\ replyMap (snd r0) = replyMap (snd c')
         /\ rateLimiter (snd r0) = rateLimiter (snd c')
         /\ consentRequests (snd r0) = consentRequests (snd c')
         /\ pendingGDPRRequests (snd r0)
            = if fst c' then delete userID (pendingGDPRRequests (snd c'))
              else pendingGDPRRequests (snd c')).
  { intros b0 H1 H2 H3 H4 H5 H6 c r0. exists b0.
    repeat (split; [assumption|]). unfold r0. fold c.
    destruct c as [[] b1]; simpl; repeat split. }
  destruct (Mastodon.st_InReplyToID status) as [|id|] eqn:Eref.
  - destruct (String.eqb (Mastodon.st_Visibility status) "direct");
      [|left; simpl; tauto].
    unfold handleNonReplyConsent, GetPendingGDPRRequest.
    destruct (pendingGDPRRequests b !! userID) as [req|];
      [|left; simpl; tauto].
    destruct (expired o (pg_Timestamp req)); [left; simpl; tauto|].
    right. apply (Hcall b); reflexivity.
  - unfold handleReplyBasedConsent. rewrite Eref.
    destruct (Mastodon.GetStatus (client e) id) as [parent|];
      [|left; simpl; tauto].
    destruct (containsWord _ privacy_policy); simpl; [|left; simpl; tauto].
    right. apply (Hcall b); reflexivity.
  - unfold handleReplyBasedConsent. rewrite Eref. left. simpl. tauto.
Qed.

(** What [HandleGDPRConsentResponse] touches and what it sends. *)
Lemma consent_response_effect_core (cfg : Config) (e : Env) (o : Oracle)
    (b : Bot) (status : Mastodon.Status) :
  let userID := Mastodon.acc_ID (Mastodon.st_Account status) in
  let r := HandleGDPRConsentResponse cfg e o b status in
  (forall v, v <> userID ->
             consentDB (snd r) !! v = consentDB b !! v
             /\ pendingGDPRRequests (snd r) !! v = pendingGDPRRequests b !! v)
  /\ replyMap (snd r) = replyMap b
  /\ consentRequests (snd r) = consentRequests b
  /\ rateLimiter (snd r) = rateLimiter b
  /\ Forall is_direct_post (new_events b (snd r))
  /\ (List.length (new_events b (snd r)) <= 1)%nat
  /\ (fst r = true ->
      HasUserConsent (snd r) userID = true
      /\ pendingGDPRRequests (snd r) !! userID = None).
Proof.
  cbv zeta.
  set (userID := Mastodon.acc_ID (Mastodon.st_Account status)).
  destruct (consent_response_shape cfg e o b status)
    as [(Hf & Ht & Hdb & Hrm & Hrl & Hcq & Hp)
       | (b0 & Ht0 & Hdb0 & Hrm0 & Hrl0 & Hcq0 & Hp0 & Hc)];
    fold userID in Hp || fold userID in Hc;
    set (r := HandleGDPRConsentResponse cfg e o b status) in *.
  - rewrite Hdb, Hrm, Hrl, Hcq, (new_events_same b (snd r) Ht).
    split.
    { intros v Hv. split; [reflexivity|].
      destruct Hp as [-> | ->]; [reflexivity|].
      now rewrite lookup_delete_ne by congruence. }
    split; [reflexivity|]. split; [reflexivity|]. split; [reflexivity|].
    split; [constructor|]. split; [simpl; lia|].
    rewrite Hf. discriminate.
  - simpl in Hc. destruct Hc as (Hans & Ht & Hdb & Hrm & Hrl & Hcq & Hp).
    pose proof (checkAndRecordConsent_effect_core cfg e (saved o) b0 status
                  (stripHTMLTags o (Mastodon.st_Content status)) userID)
      as (_ & _ & _ & Hlen & Hdir).
    pose proof (checkAndRecordConsent_frame cfg e (saved o) b0 status
                  (stripHTMLTags o (Mastodon.st_Content status)) userID)
      as (Fdb & Fp & Frm & Fcq & Frl & Fsome).
    simpl in Hlen, Hdir, Fdb, Fp, Frm, Fcq, Frl, Fsome.
    rewrite Hdb, Hrm, Hrl, Hcq, Hp, Frm, Fcq, Frl, Fp, Hrm0, Hcq0, Hrl0, Hp0.
    rewrite (new_events_trace b b0 (snd r) _ (eq_sym Ht0) Ht).
    split.
    { intros v Hv. rewrite (Fdb v Hv), Hdb0. split; [reflexivity|].
      destruct (fst (checkAndRecordConsent _ _ _ _ _ _ _)); [|reflexivity].
      now rewrite lookup_delete_ne by congruence. }
    split; [reflexivity|]. split; [reflexivity|]. split; [reflexivity|].
    split; [exact Hdir|]. split.
    { rewrite Hlen. destruct (_ && _); lia. }
    rewrite Hans. intros Htrue. rewrite Htrue. split.
    + unfold HasUserConsent. rewrite Hdb. apply bool_decide_eq_true_2.
      now apply Fsome.
    + apply lookup_delete_eq.
Qed.

(** X11.  A consent response concerns its sender only, and is answered in
    private.  Whatever the message, [HandleGDPRConsentResponse] changes
    the consent record and the pending request of no user other than the
    sender, leaves the reply table, the legacy requests and the rate
    limiter alone, and sends nothing but direct messages (at most one, the
    confirmation).  When it answers true, the sender has a consent record
    and no pending request any more. *)
Theorem consent_response_effect (cfg : Config) (e : Env) (o : Oracle)
    (b : Bot) (status : Mastodon.Status) :
  let userID := Mastodon.acc_ID (Mastodon.st_Account status) in
  let r := HandleGDPRConsentResponse cfg e o b status in
  (forall v, v <> userID ->
             consentDB (snd r) !! v = consentDB b !! v
             /\ pendingGDPRRequests (snd r) !! v = pendingGDPRRequests b !! v)
  /\ replyMap (snd r) = replyMap b
  /\ consentRequests (snd r) = consentRequests b
  /\ rateLimiter (snd r) = rateLimiter b
  /\ Forall is_direct_post (new_events b (snd r))
  /\ (List.length (new_events b (snd r)) <= 1)%nat
  /\ (fst r = true ->
      HasUserConsent (snd r) userID = true
      /\ pendingGDPRRequests (snd r) !! userID = None).
Proof.
  intros.
  pose proof (consent_response_effect_core cfg e o b status) as H.
  exact H.
Qed.

(** A consent request that was posted is recorded as pending. *)
Lemma RequestGDPRConsent_pending (cfg : Config) (e : Env) (b : Bot)
    (userID username language replyToID id : string) (standalone : bool) :
  devMode cfg = false ->
  fst (RequestGDPRConsent cfg e b userID username language replyToID standalone)
  = Some id ->
  pendingGDPRRequests
    (snd (RequestGDPRConsent cfg e b userID username language replyToID standalone))
  !! userID
  = Some {| pg_UserID := userID; pg_RequestStatusID := id;
            pg_Timestamp := now e |}.
Proof.
  intros Hdev. unfold RequestGDPRConsent, post. rewrite Hdev.
  destruct (Mastodon.PostStatus (client e) _) as [id'|]; simpl; [|discriminate].
  intros [= ->]. apply lookup_insert_eq.
Qed.

(** X12.  The consent round trip without thread (platforms whose direct
    messages carry no reply-to link).  Once a consent request has been
    posted to a user, a direct message of that user that replies to
    nothing and whose plain text, as [strings.ToLower] lowers it, is
    affirmative is accepted as long as the request has not expired (the ledger snapshot succeeding): the user then
    has a consent record and the pending request is gone. *)
Theorem consent_round_trip_without_thread (cfg : Config) (e e' : Env)
    (o : Oracle) (b : Bot) (userID username language replyToID id : string)
    (standalone : bool) (reply : Mastodon.Status) :
  devMode cfg = false ->
  fst (RequestGDPRConsent cfg e b userID username language replyToID standalone)
  = Some id ->
  Mastodon.st_InReplyToID reply = Mastodon.RefNil ->
  Mastodon.st_Visibility reply = "direct" ->
  Mastodon.acc_ID (Mastodon.st_Account reply) = userID ->
  expired o (now e) = false ->
  saved o = true ->
  affirmative
    (strings_ToLower (unicode_ToLower e')
       (stripHTMLTags o (Mastodon.st_Content reply))) = true ->
  let b1 := snd (RequestGDPRConsent cfg e b userID username language replyToID
                   standalone) in
  let r := HandleGDPRConsentResponse cfg e' o b1 reply in
  fst r = true
  /\ HasUserConsent (snd r) userID = true
  /\ pendingGDPRRequests (snd r) !! userID = None.
Proof.
  intros Hdev Hid Hnil Hdirect Hsender Hfresh Hsaved Haff b1 r.
  pose proof (RequestGDPRConsent_pending cfg e b userID username language
                replyToID id standalone Hdev Hid) as Hpend. fold b1 in Hpend.
  assert (Hr : fst r = true).
  { apply consent_response_accepted_iff_core. rewrite Hnil, Hsender. split.
    - rewrite Haff, Hsaved.
      destruct (String.eqb_spec (stripHTMLTags o (Mastodon.st_Content reply)) "")
        as [Hempty | _]; [|reflexivity].
      rewrite Hempty in Haff. discriminate Haff.
    - split; [exact Hdirect|]. eexists. split; [exact Hpend | exact Hfresh]. }
  split; [exact Hr|].
  pose proof (consent_response_effect_core cfg e' o b1 reply) as (_ & _ & _ & _ & _ & _ & H).
  rewrite Hsender in H. apply H. exact Hr.
Qed.

(** Alice is asked for consent under her mention "M" and answers "I agree"
    in a direct message without reply-to link. *)
Lemma consent_round_trip_without_thread_witness :
  let cfg := Examples.config true 5 50 3 false false in
  let e := Examples.env (Examples.platform Examples.alice true) in
  let b1 := snd (RequestGDPRConsent cfg e Examples.fresh_bot "U"
                   "alice@example.social" "en" "M" false) in
  let r := HandleGDPRConsentResponse cfg e MoreExamples.consent_oracle b1
             (MoreExamples.direct_message "I agree") in
  fst r = true /\ HasUserConsent (snd r) "U" = true.
Proof.
  intros cfg e b1 r.
  destruct (consent_round_trip_without_thread cfg e e MoreExamples.consent_oracle
              Examples.fresh_bot "U" "alice@example.social" "en" "M" "R" false
              (MoreExamples.direct_message "I agree"))
    as (H1 & H2 & _); try reflexivity.
  split; [exact H1 | exact H2].
Defined.

End ConsentResponse.

(* ===================================================================== *)
(** * More on the event handlers *)
(* ===================================================================== *)

Module HandlersMore.
Import GoString GoStringFacts Handlers.

Lemma prefix_iff (p s : string) :
  String.prefix p s = true <-> exists post, s = p +:+ post.
Proof.
  revert s. induction p as [|c p IH]; intros s.
  - split; [intros _; exists s; reflexivity|]. intros _. destruct s; reflexivity.
  - destruct s as [|d s]; simpl.
    + split; [discriminate|]. intros [post H]. rewrite append_cons in H.
      discriminate.
    + destruct (ascii_dec c d) as [<- | Hne].
      * rewrite IH. split; intros [post H]; exists post.
        -- rewrite append_cons. now f_equal.
        -- rewrite append_cons in H. now injection H.
      * split; [discriminate|]. intros [post H]. rewrite append_cons in H.
        injection H as H _. congruence.
Qed.

(** [Contains] decides occurrence as a substring. *)
Lemma Contains_iff (s sub : string) :
  Contains s sub = true <-> MoreSpec.occurs_in sub s.
Proof.
  unfold MoreSpec.occurs_in. induction s as [|c s IH].
  - change (Contains "" sub) with (String.prefix sub "" || false).
    rewrite orb_false_r, prefix_iff. split.
    + intros [post H]. exists "", post. exact H.
    + intros (pre & post & H). destruct pre as [|d pre].
      * exists post. exact H.
      * rewrite append_cons in H. discriminate.
  - change (Contains (String c s) sub)
      with (String.prefix sub (String c s) || Contains s sub).
    rewrite orb_true_iff, prefix_iff, IH. split.
    + intros [[post H] | (pre & post & H)].
      * exists "", post. exact H.
      * exists (String c pre), post. rewrite append_cons. now f_equal.
    + intros (pre & post & H). destruct pre as [|d pre].
      * left. exists post. exact H.
      * right. rewrite append_cons in H. injection H as _ H.
        exists pre, post. exact H.
Qed.

Lemma isDNI_iff (cfg : Config) (account : Mastodon.Account) :
  isDNI cfg account = true
  <-> Mastodon.acc_Acct account = Server_Username cfg
      \/ (Mastodon.acc_Bot account = true /\ DNI_IgnoreBots cfg = true)
      \/ exists tag, In tag (DNI_Tags cfg)
                     /\ MoreSpec.occurs_in tag (Mastodon.acc_Note account).
Proof.
  unfold isDNI.
  destruct (String.eqb_spec (Mastodon.acc_Acct account) (Server_Username cfg))
    as [Heq | Hne]; [tauto|].
  destruct (Mastodon.acc_Bot account && DNI_IgnoreBots cfg) eqn:Eb.
  - apply andb_true_iff in Eb. tauto.
  - rewrite existsb_exists. apply andb_false_iff in Eb. split.
    + intros (tag & Hin & Hc). right. right. exists tag.
      split; [exact Hin | now apply Contains_iff].
    + intros [H | [[H1 H2] | (tag & Hin & Hc)]].
      * contradiction.
      * destruct Eb; congruence.
      * exists tag. split; [exact Hin | now apply Contains_iff].
Qed.

(** X13.  Do not interact.  A mention is dropped without any effect (no
    post, no call to the provider, no table touched) when its sender is the
    bot itself, or a bot account while bots are ignored, or an account
    whose profile note contains one of the configured tags anywhere in its
    text. *)
Theorem dni_sender_is_ignored (cfg : Config) (e : Env) (b : Bot)
    (notification : Mastodon.Notification) :
  let sender := Mastodon.ntf_Account notification in
  Mastodon.acc_Acct sender = Server_Username cfg
  \/ (Mastodon.acc_Bot sender = true /\ DNI_IgnoreBots cfg = true)
  \/ (exists tag, In tag (DNI_Tags cfg)
                  /\ MoreSpec.occurs_in tag (Mastodon.acc_Note sender)) ->
  handleMention cfg e b notification = b.
Proof.
  intros sender H. apply isDNI_iff in H. unfold handleMention.
  fold sender. now rewrite H.
Qed.

(** Dave's note carries the tag "#nobot". *)
Lemma dni_sender_is_ignored_witness :
  handleMention (Examples.config true 5 50 3 false false)
    (Examples.env (Examples.platform MoreExamples.dave true))
    Examples.fresh_bot (Examples.notification_from MoreExamples.dave)
  = Examples.fresh_bot.
Proof.
  apply dni_sender_is_ignored. right. right. exists "#nobot". split.
  - left. reflexivity.
  - exists "<p>cat pictures, ", " please</p>". reflexivity.
Defined.

(** X14.  The author of a post is asked for (legacy) consent once.  After
    [requestConsent] has handled a post, handling the same post again, for
    whichever requester and at whatever time, changes nothing and posts
    nothing; one call posts at most one message.  The request counts as
    made as soon as it is recorded: the table entry is written before the
    message is posted and stays when the post fails. *)
Theorem requestConsent_once (cfg : Config) (e e' : Env) (b : Bot)
    (status : Mastodon.Status) (notification notification' : Mastodon.Notification) :
  let b1 := requestConsent cfg e b status notification in
  requestConsent cfg e' b1 status notification' = b1
  /\ (List.length (ConsentFlow.new_events b b1) <= 1)%nat
  /\ (b1 = b \/ consentRequests b1 !! Mastodon.st_ID status
                = Some {| cq_RequestID :=
                            Mastodon.st_ID (Mastodon.ntf_Status notification);
                          cq_Timestamp := now e |}).
Proof.
  unfold requestConsent.
  destruct (forallb _ (Mastodon.st_MediaAttachments status)) eqn:Ealt.
  - rewrite ?Ealt. rewrite ConsentLedger.new_events_same by reflexivity.
    simpl. split; [reflexivity|]. split; [lia | now left].
  - destruct (consentRequests b !! Mastodon.st_ID status) as [req|] eqn:Ereq.
    + rewrite ?Ealt, ?Ereq. rewrite ConsentLedger.new_events_same by reflexivity.
      simpl. split; [reflexivity|]. split; [lia | now left].
    + simpl. rewrite ?Ealt, lookup_insert_eq.
      split; [reflexivity|]. split; [|now right].
      unfold ConsentFlow.new_events. simpl. rewrite drop_app_length. simpl. lia.
Qed.

(** The loop of [handleUpdate] stops at the first attachment that needs
    alt-text; without such an attachment it does nothing. *)
Lemma handleUpdate_loop_closed (cfg : Config) (e : Env) (b : Bot)
    (status : Mastodon.Status) (atts : list Mastodon.Attachment) :
  handleUpdate_loop cfg e b status atts
  = if existsb (MoreSpec.needs_alt_text cfg) atts then
      if Consent.HasUserConsent b (Mastodon.acc_ID (Mastodon.st_Account status))
      then Job.generateAndPostAltText cfg e b status (Mastodon.st_ID status)
      else snd (Consent.RequestGDPRConsent cfg e b
                  (Mastodon.acc_ID (Mastodon.st_Account status))
                  (Mastodon.acc_Acct (Mastodon.st_Account status))
                  (Mastodon.st_Language status) (Mastodon.st_ID status) false)
    else b.
Proof.
  induction atts as [|att rest IH]; [reflexivity|].
  simpl. unfold MoreSpec.needs_alt_text at 1.
  destruct (eligible_type cfg att); simpl; [|exact IH].
  destruct (String.eqb (Mastodon.att_Description att) ""); simpl; [|exact IH].
  destruct (Consent.HasUserConsent b _); reflexivity.
Qed.

(** X15.  One update, one action.  For a post of a followed user the
    update handler does exactly one of three things, however many
    attachments the post has: nothing, when the post is the bot's own or
    no attachment of an eligible type lacks a description; one generation
    job for the whole post, replying to the post itself, when the author
    has consent; one consent request to the author otherwise. *)
Theorem handleUpdate_one_action (cfg : Config) (e : Env) (b : Bot)
    (status : Mastodon.Status) :
  let author := Mastodon.st_Account status in
  handleUpdate cfg e b status
  = if String.eqb (Mastodon.acc_Acct author) (Server_Username cfg)
       || negb (existsb (MoreSpec.needs_alt_text cfg)
                  (Mastodon.st_MediaAttachments status))
    then b
    else if Consent.HasUserConsent b (Mastodon.acc_ID author)
    then Job.generateAndPostAltText cfg e b status (Mastodon.st_ID status)
    else snd (Consent.RequestGDPRConsent cfg e b (Mastodon.acc_ID author)
                (Mastodon.acc_Acct author) (Mastodon.st_Language status)
                (Mastodon.st_ID status) false).
Proof.
  intros author. unfold handleUpdate. fold author.
  destruct (String.eqb (Mastodon.acc_Acct author) (Server_Username cfg));
    [reflexivity|].
  rewrite handleUpdate_loop_closed. fold author. simpl.
  destruct (existsb _ _); reflexivity.
Qed.

End HandlersMore.

(* ===================================================================== *)
(** * More on the generation job *)
(* ===================================================================== *)

Module JobMore.
Import GoString GoStringFacts Job.

Lemma provider_calls_app (l k : list Event) :
  provider_calls (l ++ k) = (provider_calls l ++ provider_calls k)%list.
Proof. unfold provider_calls. apply omap_app. Qed.

Lemma notifyAdmin_no_provider_call (cfg : Config) (e : Env) (u : string) :
  provider_calls (RateLimiter.notifyAdmin cfg e u) = [].
Proof.
  unfold RateLimiter.notifyAdmin.
  destruct (Mastodon.GetAccount (client e) u); reflexivity.
Qed.

(** The rate limiter talks to the platform only. *)
Lemma Increment_no_provider_call (cfg : Config) (e : Env)
    (rl : RateLimiter.t) (u : string) :
  provider_calls (snd (RateLimiter.Increment cfg e rl u)) = [].
Proof.
  unfold RateLimiter.Increment.
  destruct (RateLimit_Enabled cfg); simpl; [|reflexivity].
  destruct (RateLimiter.IsShadowBanned rl u); simpl; [reflexivity|].
  destruct (RateLimiter.IsNewAccount e rl u) as [isNew rl0].
  pose proof (RateLimiterFacts.exceeded_spec cfg e rl0 u) as (_ & _ & _ & _ & H).
  assert (Hev : provider_calls (snd (RateLimiter.exceeded cfg e rl0 u)) = []).
  { destruct (_ && _); destruct H as [_ ->];
      [apply notifyAdmin_no_provider_call | reflexivity]. }
  clear H.
  destruct (_ <=? GoInt.map_int (RateLimiter.MinuteCounts rl0) u).
  - destruct (RateLimiter.exceeded cfg e rl0 u). exact Hev.
  - destruct (_ <=? GoInt.map_int (RateLimiter.HourCounts rl0) u);
      [|reflexivity].
    destruct (RateLimiter.exceeded cfg e rl0 u). exact Hev.
Qed.

(** What the worker of one attachment does to the shared variables. *)
Lemma worker_summary (cfg : Config) (e : Env) (replyPost : Mastodon.Status)
    (s : State) (att : Mastodon.Attachment) :
  let s' := worker cfg e replyPost s att in
  (exists calls,
      provider_calls (trace (bot s'))
      = (provider_calls (trace (bot s)) ++ calls)%list
      /\ (calls = [] \/ exists c, MoreSpec.expected_call cfg att = Some c
                                  /\ calls = [c]))
  /\ consentDB (bot s') = consentDB (bot s)
  /\ pendingGDPRRequests (bot s') = pendingGDPRRequests (bot s)
  /\ consentRequests (bot s') = consentRequests (bot s)
  /\ replyMap (bot s') = replyMap (bot s)
  /\ (List.length (responses s') = S (List.length (responses s))
      \/ (String.eqb (Mastodon.att_Description att) "" = false
          /\ altTextAlreadyExists s = true
          /\ responses s' = responses s))
  /\ (altTextAlreadyExists s = true -> altTextAlreadyExists s' = true).
Proof.
  unfold worker.
  pose proof (Increment_no_provider_call cfg e (rateLimiter (bot s))
                (Mastodon.acc_ID (Mastodon.st_Account replyPost))) as Hinc.
  destruct (RateLimiter.Increment cfg e (rateLimiter (bot s)) _)
    as [[allowed rl] evs]. simpl in Hinc.
  assert (Hbase : provider_calls (trace (bot s) ++ evs)
                  = (provider_calls (trace (bot s)) ++ [])%list)
    by (now rewrite provider_calls_app, Hinc).
  assert (Hlen : forall (l : list string) x,
             List.length (l ++ [x]) = S (List.length l))
    by (intros l x; rewrite length_app; simpl; lia).
  unfold MoreSpec.expected_call.
  destruct allowed; simpl.
  2:{ split; [exists []; split; [exact Hbase | now left]|].
      rewrite Hlen. repeat split; tauto. }
  destruct (String.eqb (Mastodon.att_Description att) "") eqn:Ed; simpl.
  - assert (Hgen : forall kind c,
        c = (kind, Mastodon.att_URL att) ->
        let s0 := with_bot s (emit (set_rateLimiter (bot s) rl) evs) in
        let s' := call_generator e (Mastodon.st_Language replyPost) kind att s0 in
        (exists calls,
            provider_calls (trace (bot s'))
            = (provider_calls (trace (bot s)) ++ calls)%list
            /\ (calls = [] \/ calls = [c]))
        /\ consentDB (bot s') = consentDB (bot s)
        /\ pendingGDPRRequests (bot s') = pendingGDPRRequests (bot s)
        /\ consentRequests (bot s') = consentRequests (bot s)
        /\ replyMap (bot s') = replyMap (bot s)
        /\ List.length (responses s') = S (List.length (responses s))
        /\ altTextAlreadyExists s' = altTextAlreadyExists s).
    { intros kind c -> s0 s'. unfold s', call_generator, finish, s0.
      destruct (generate e kind _ _) as [|[text|]]; simpl;
        rewrite Hlen;
        (split; [|repeat split]).
      - exists []. split; [exact Hbase | now left].
      - exists [(kind, Mastodon.att_URL att)].
        rewrite !provider_calls_app, Hinc, app_nil_r. simpl.
        split; [reflexivity | now right].
      - exists [(kind, Mastodon.att_URL att)].
        rewrite !provider_calls_app, Hinc, app_nil_r. simpl.
        split; [reflexivity | now right]. }
    destruct (String.eqb (Mastodon.att_Type att) "image"); simpl.
    { destruct (Hgen Image _ eq_refl) as ((calls & Hc & Hcc) & H1 & H2 & H3 & H4 & H5 & H6).
      split; [exists calls; split; [exact Hc|]; destruct Hcc; eauto|].
      rewrite H6. tauto. }
    destruct ((String.eqb (Mastodon.att_Type att) "video"
               || String.eqb (Mastodon.att_Type att) "gifv")
              && videoProcessingCapability cfg); simpl.
    { destruct (Hgen Video _ eq_refl) as ((calls & Hc & Hcc) & H1 & H2 & H3 & H4 & H5 & H6).
      split; [exists calls; split; [exact Hc|]; destruct Hcc; eauto|].
      rewrite H6. tauto. }
    destruct (String.eqb (Mastodon.att_Type att) "audio"
              && audioProcessingCapability cfg); simpl.
    { destruct (Hgen Audio _ eq_refl) as ((calls & Hc & Hcc) & H1 & H2 & H3 & H4 & H5 & H6).
      split; [exists calls; split; [exact Hc|]; destruct Hcc; eauto|].
      rewrite H6. tauto. }
    destruct (videoProcessingCapability cfg && audioProcessingCapability cfg);
      simpl; unfold finish; simpl; rewrite Hlen;
      (split; [exists []; split; [exact Hbase | now left]|]); repeat split; tauto.
  - destruct (String.eqb (Mastodon.att_Type att) "image"); simpl;
      destruct ((String.eqb (Mastodon.att_Type att) "video"
                 || String.eqb (Mastodon.att_Type att) "gifv")
                && videoProcessingCapability cfg); simpl;
      destruct (String.eqb (Mastodon.att_Type att) "audio"
                && audioProcessingCapability cfg); simpl;
      destruct (altTextAlreadyExists s) eqn:Ef; simpl;
      rewrite ?Hlen;
      (split; [exists []; split; [exact Hbase | now left]|]);
      repeat split; tauto.
Qed.

(** The workers of a job, one after the other. *)
Lemma workers_summary (cfg : Config) (e : Env) (replyPost : Mastodon.Status)
    (atts : list Mastodon.Attachment) (s : State) :
  let s' := fold_left (worker cfg e replyPost) atts s in
  (exists calls,
      provider_calls (trace (bot s'))
      = (provider_calls (trace (bot s)) ++ calls)%list
      /\ sublist calls (omap (MoreSpec.expected_call cfg) atts))
  /\ consentDB (bot s') = consentDB (bot s)
  /\ pendingGDPRRequests (bot s') = pendingGDPRRequests (bot s)
  /\ consentRequests (bot s') = consentRequests (bot s)
  /\ replyMap (bot s') = replyMap (bot s).
Proof.
  revert s. induction atts as [|att atts IH]; intros s; simpl.
  - split; [|tauto]. exists []. rewrite app_nil_r. split; [reflexivity|].
    constructor.
  - destruct (worker_summary cfg e replyPost s att)
      as ((c1 & Hc1 & Hc1') & H1 & H2 & H3 & H4 & _).
    destruct (IH (worker cfg e replyPost s att))
      as ((c2 & Hc2 & Hc2') & G1 & G2 & G3 & G4).
    split; [|rewrite G1, G2, G3, G4; tauto].
    exists (c1 ++ c2)%list. split.
    + rewrite Hc2, Hc1, app_assoc. reflexivity.
    + destruct Hc1' as [->|(c & Hc & ->)]; simpl.
      * destruct (MoreSpec.expected_call cfg att);
          [apply sublist_cons|]; exact Hc2'.
      * rewrite Hc. simpl. apply sublist_skip. exact Hc2'.
Qed.

(** The text of the reply starts with the mention of the author, so the
    job always has a text to post. *)
Lemma append_not_empty (a y : string) :
  String.eqb a "" = false -> String.eqb (a +:+ y) "" = false.
Proof. destruct a; [discriminate|reflexivity]. Qed.

(** The job after its workers: one reply is posted, an error notice after it
    when the platform refuses the reply, the reminder queue may get the
    post, and the reply table gets an entry exactly when the reply was
    accepted. *)
Lemma job_outcome (cfg : Config) (e : Env) (b : Bot)
    (status : Mastodon.Status) (replyToID : string)
    (replyPost : Mastodon.Status) :
  Mastodon.GetStatus (client e) replyToID = Some replyPost ->
  exists toot evs,
    let s := fold_left (worker cfg e replyPost)
               (Mastodon.st_MediaAttachments status) (start b) in
    let b' := generateAndPostAltText cfg e b status replyToID in
    Mastodon.toot_InReplyToID toot = replyToID
    /\ Mastodon.toot_Visibility toot
       = replyVisibility (Behavior_ReplyVisibility cfg)
           (Mastodon.st_Visibility replyPost)
    /\ Mastodon.toot_SpoilerText toot
       = contentWarning (Mastodon.st_SpoilerText status)
    /\ Mastodon.toot_Language toot = Mastodon.st_Language replyPost
    /\ trace b' = (trace (bot s) ++ EvPostStatus toot :: evs)%list
    /\ provider_calls evs = []
    /\ delete_calls evs = []
    /\ consentDB b' = consentDB (bot s)
    /\ pendingGDPRRequests b' = pendingGDPRRequests (bot s)
    /\ consentRequests b' = consentRequests (bot s)
    /\ match Mastodon.PostStatus (client e) toot with
       | Some id =>
           replyMap b'
           = <[Mastodon.st_ID status :=
                 {| ri_ReplyID := id; ri_Timestamp := now e |}]>
               (replyMap (bot s))
           /\ Forall (fun ev => match ev with
                                | EvPostStatus _ => False
                                | _ => True
                                end) evs
       | None =>
           replyMap b' = replyMap (bot s)
           /\ exists errToot rest,
               evs = EvPostStatus errToot :: rest
               /\ Mastodon.toot_InReplyToID errToot = replyToID
               /\ Mastodon.toot_Visibility errToot
                  = Mastodon.toot_Visibility toot
               /\ Mastodon.toot_Status errToot
                  = getLocalizedString e (Mastodon.st_Language replyPost)
                      "replyError" "response"
               /\ Forall (fun ev => match ev with
                                    | EvPostStatus _ => False
                                    | _ => True
                                    end) rest
       end.
Proof.
  intros Hget. unfold generateAndPostAltText. rewrite Hget. cbv zeta.
  set (s := fold_left (worker cfg e replyPost)
              (Mastodon.st_MediaAttachments status) (start b)).
  match goal with
  | |- context [if String.eqb ?c "" then bot s else _] =>
      assert (Hne : String.eqb c "" = false)
  end.
  { destruct (PowerMetrics_Enabled cfg && _ && _);
      destruct (0 <? sucessCount s);
      repeat apply append_not_empty; reflexivity. }
  rewrite Hne. unfold post. cbv beta iota.
  match goal with
  | |- context [Mastodon.PostStatus (client e) ?t] => set (toot := t)
  end.
  exists toot.
  destruct (Mastodon.PostStatus (client e) toot) as [id|] eqn:Epost.
  - destruct (AltTextReminders_Enabled cfg && _ && _).
    + eexists. repeat (split; [reflexivity|]). simpl.
      rewrite <- app_assoc. simpl.
      repeat (split; [reflexivity|]). repeat constructor.
    + exists []. repeat (split; [reflexivity|]). constructor.
  - destruct (AltTextReminders_Enabled cfg && _ && _).
    + eexists. repeat (split; [reflexivity|]). simpl.
      rewrite <- !app_assoc. simpl.
      repeat (split; [reflexivity|]).
      eexists _, _. split; [reflexivity|].
      repeat (split; [reflexivity|]). repeat constructor.
    + eexists. repeat (split; [reflexivity|]). simpl.
      rewrite <- !app_assoc. simpl.
      repeat (split; [reflexivity|]).
      eexists _, _. split; [reflexivity|].
      repeat (split; [reflexivity|]). repeat constructor.
Qed.

(** X16.  The job calls the provider only for attachments of the post that
    have no description and a type the provider takes: the calls it adds
    are, in attachment order, a sub-list of the calls expected for such
    attachments (one at most for each). *)
Theorem job_calls_provider_for_undescribed_media_only
    (cfg : Config) (e : Env) (b : Bot) (status : Mastodon.Status)
    (replyToID : string) :
  exists calls,
    provider_calls (trace (generateAndPostAltText cfg e b status replyToID))
    = (provider_calls (trace b) ++ calls)%list
    /\ sublist calls
         (omap (MoreSpec.expected_call cfg)
               (Mastodon.st_MediaAttachments status)).
Proof.
  destruct (Mastodon.GetStatus (client e) replyToID) as [replyPost|] eqn:Hget.
  - destruct (job_outcome cfg e b status replyToID replyPost Hget)
      as (toot & evs & _ & _ & _ & _ & Htr & Hev & _).
    destruct (workers_summary cfg e replyPost
                (Mastodon.st_MediaAttachments status) (start b))
      as ((calls & Hc & Hsub) & _).
    exists calls. split; [|exact Hsub].
    rewrite Htr, provider_calls_app. simpl. rewrite Hev, app_nil_r. exact Hc.
  - unfold generateAndPostAltText. rewrite Hget. exists [].
    rewrite app_nil_r. split; [reflexivity|]. apply sublist_nil_l.
Qed.

(** X17.  A reply the platform accepts is recorded under the id of the
    post it answers with the id the platform gave it, so a later Delete
    event for that post deletes exactly this reply, and the entry is gone
    once the platform confirms. *)
Theorem accepted_reply_is_deleted_with_its_post
    (cfg : Config) (e e' : Env) (b : Bot) (status : Mastodon.Status)
    (replyToID : string) (replyPost : Mastodon.Status) (R : string) :
  Mastodon.GetStatus (client e) replyToID = Some replyPost ->
  (forall t, Mastodon.PostStatus (client e) t = Some R) ->
  let b1 := generateAndPostAltText cfg e b status replyToID in
  let b2 := Handlers.handleDeleteEvent e' b1 (Mastodon.st_ID status) in
  replyMap b1 !! Mastodon.st_ID status
  = Some {| ri_ReplyID := R; ri_Timestamp := now e |}
  /\ delete_calls (ConsentFlow.new_events b1 b2) = [R]
  /\ (Mastodon.DeleteStatus (client e') R = true ->
      replyMap b2 = delete (Mastodon.st_ID status) (replyMap b)).
Proof.
  intros Hget Hpost b1 b2.
  destruct (job_outcome cfg e b status replyToID replyPost Hget)
    as (toot & evs & _ & _ & _ & _ & _ & _ & _ & _ & _ & _ & Hmap).
  rewrite (Hpost toot) in Hmap. destruct Hmap as [Hmap _].
  destruct (workers_summary cfg e replyPost
              (Mastodon.st_MediaAttachments status) (start b))
    as (_ & _ & _ & _ & Hrm).
  simpl in Hrm. rewrite Hrm in Hmap. fold b1 in Hmap.
  assert (Hentry : replyMap b1 !! Mastodon.st_ID status
                   = Some {| ri_ReplyID := R; ri_Timestamp := now e |})
    by (rewrite Hmap; apply lookup_insert_eq).
  split; [exact Hentry|].
  unfold b2, Handlers.handleDeleteEvent. rewrite Hentry. simpl.
  split.
  - destruct (Mastodon.DeleteStatus (client e') R); simpl;
      unfold ConsentFlow.new_events; simpl;
      rewrite drop_app_length; reflexivity.
  - intros ->. simpl. rewrite Hmap. apply delete_insert_eq.
Qed.

(** X18.  When the platform refuses the reply, the job posts an error
    notice in reply to the same status with the same visibility, these two
    are its last posts, and the reply table stays as it was. *)
Theorem refused_reply_is_reported_and_not_recorded
    (cfg : Config) (e : Env) (b : Bot) (status : Mastodon.Status)
    (replyToID : string) (replyPost : Mastodon.Status) :
  Mastodon.GetStatus (client e) replyToID = Some replyPost ->
  (forall t, Mastodon.PostStatus (client e) t = None) ->
  let b1 := generateAndPostAltText cfg e b status replyToID in
  replyMap b1 = replyMap b
  /\ exists before toot errToot,
      MoreSpec.post_calls (trace b1) = (before ++ [toot; errToot])%list
      /\ Mastodon.toot_InReplyToID toot = replyToID
      /\ Mastodon.toot_InReplyToID errToot = replyToID
      /\ Mastodon.toot_Visibility errToot = Mastodon.toot_Visibility toot
      /\ Mastodon.toot_Status errToot
         = getLocalizedString e (Mastodon.st_Language replyPost)
             "replyError" "response".
Proof.
  intros Hget Hpost b1.
  destruct (job_outcome cfg e b status replyToID replyPost Hget)
    as (toot & evs & Hid & _ & _ & _ & Htr & _ & _ & _ & _ & _ & Hmap).
  rewrite (Hpost toot) in Hmap.
  destruct Hmap as (Hmap & errToot & rest & -> & Hid' & Hvis & Htxt & Hrest).
  destruct (workers_summary cfg e replyPost
              (Mastodon.st_MediaAttachments status) (start b))
    as (_ & _ & _ & _ & Hrm).
  simpl in Hrm. split; [unfold b1; now rewrite Hmap|].
  exists (MoreSpec.post_calls
            (trace (bot (fold_left (worker cfg e replyPost)
                           (Mastodon.st_MediaAttachments status) (start b))))),
    toot, errToot.
  split; [|tauto].
  unfold b1. rewrite Htr. unfold MoreSpec.post_calls.
  rewrite omap_app. simpl. do 3 f_equal.
  clear -Hrest. induction Hrest as [|ev rest Hev _ IH]; [reflexivity|].
  destruct ev; simpl in *; try contradiction; exact IH.
Qed.

Lemma accepted_reply_is_deleted_with_its_post_witness :
  let cfg := Examples.config false 10 10 2 true true in
  let e := Examples.env (Examples.platform Examples.bob true) in
  let b1 := generateAndPostAltText cfg e Examples.fresh_bot
              Examples.source_S "S" in
  let b2 := Handlers.handleDeleteEvent e b1 "S" in
  replyMap b1 !! "S" = Some {| ri_ReplyID := "R"; ri_Timestamp := 1000 |}
  /\ delete_calls (ConsentFlow.new_events b1 b2) = ["R"]
  /\ (true = true -> replyMap b2 = delete "S" ∅).
Proof.
  exact (accepted_reply_is_deleted_with_its_post
           (Examples.config false 10 10 2 true true)
           (Examples.env (Examples.platform Examples.bob true))
           (Examples.env (Examples.platform Examples.bob true))
           Examples.fresh_bot Examples.source_S "S" Examples.source_S "R"
           eq_refl (fun _ => eq_refl)).
Defined.

Lemma refused_reply_is_reported_and_not_recorded_witness :
  let cfg := Examples.config false 10 10 2 true true in
  let e := Examples.env MoreExamples.refusing_platform in
  let b1 := generateAndPostAltText cfg e Examples.fresh_bot
              Examples.source_S "S" in
  replyMap b1 = ∅
  /\ exists before toot errToot,
      MoreSpec.post_calls (trace b1) = (before ++ [toot; errToot])%list
      /\ Mastodon.toot_InReplyToID toot = "S"
      /\ Mastodon.toot_InReplyToID errToot = "S"
      /\ Mastodon.toot_Visibility errToot = Mastodon.toot_Visibility toot
      /\ Mastodon.toot_Status errToot = "replyError".
Proof.
  exact (refused_reply_is_reported_and_not_recorded
           (Examples.config false 10 10 2 true true)
           (Examples.env MoreExamples.refusing_platform)
           Examples.fresh_bot Examples.source_S "S" Examples.source_S
           eq_refl (fun _ => eq_refl)).
Defined.

(** With or without the rate limiter, a worker adds one element to the
    responses unless its attachment has a description and an earlier one
    was already reported. *)
Lemma workers_responses (cfg : Config) (e : Env) (replyPost : Mastodon.Status)
    (atts : list Mastodon.Attachment) (s : State) :
  let s' := fold_left (worker cfg e replyPost) atts s in
  (List.length (responses s) + List.length (MoreSpec.undescribed atts)
   <= List.length (responses s')
   <= List.length (responses s) + List.length atts)%nat.
Proof.
  revert s. induction atts as [|att atts IH]; intros s; simpl; [lia|].
  specialize (IH (worker cfg e replyPost s att)). simpl in IH.
  destruct (worker_summary cfg e replyPost s att)
    as (_ & _ & _ & _ & _ & Hlen & _).
  destruct (String.eqb (Mastodon.att_Description att) "") eqn:Ed; simpl.
  - destruct Hlen as [Hlen | (Hd & _)]; [lia | discriminate].
  - destruct Hlen as [Hlen | (_ & _ & Hlen)]; [lia|]. rewrite Hlen in IH. lia.
Qed.

(** The worker of one attachment when the rate limiter is switched off. *)
Lemma worker_unlimited (cfg : Config) (e : Env) (replyPost : Mastodon.Status)
    (s : State) (att : Mastodon.Attachment) :
  RateLimit_Enabled cfg = false ->
  let s' := worker cfg e replyPost s att in
  if String.eqb (Mastodon.att_Description att) ""
  then List.length (responses s') = S (List.length (responses s))
       /\ altTextAlreadyExists s' = altTextAlreadyExists s
  else altTextAlreadyExists s' = true
       /\ List.length (responses s')
          = if altTextAlreadyExists s then List.length (responses s)
            else S (List.length (responses s)).
Proof.
  intros Hoff. unfold worker, RateLimiter.Increment. rewrite Hoff. simpl.
  assert (Hlen : forall (l : list string) x,
             List.length (l ++ [x]) = S (List.length l))
    by (intros l x; rewrite length_app; simpl; lia).
  destruct (String.eqb (Mastodon.att_Description att) ""); simpl.
  - destruct (String.eqb (Mastodon.att_Type att) "image"); simpl;
      [|destruct ((String.eqb (Mastodon.att_Type att) "video"
                   || String.eqb (Mastodon.att_Type att) "gifv")
                  && videoProcessingCapability cfg); simpl;
        [|destruct (String.eqb (Mastodon.att_Type att) "audio"
                    && audioProcessingCapability cfg); simpl;
          [|destruct (videoProcessingCapability cfg
                      && audioProcessingCapability cfg); simpl]]];
      unfold call_generator, finish;
      try match goal with
          | |- context [generate e ?k ?u ?l] =>
              destruct (generate e k u l) as [|[text|]]
          end; simpl; rewrite Hlen; split; reflexivity.
  - rewrite !andb_false_r. simpl.
    destruct (altTextAlreadyExists s) eqn:Ef; simpl; rewrite ?Hlen; tauto.
Qed.

Lemma workers_unlimited (cfg : Config) (e : Env) (replyPost : Mastodon.Status)
    (atts : list Mastodon.Attachment) (s : State) :
  RateLimit_Enabled cfg = false ->
  let s' := fold_left (worker cfg e replyPost) atts s in
  altTextAlreadyExists s'
  = altTextAlreadyExists s || MoreSpec.some_described atts
  /\ List.length (responses s')
     = (List.length (responses s) + List.length (MoreSpec.undescribed atts)
        + if negb (altTextAlreadyExists s) && MoreSpec.some_described atts
          then 1 else 0)%nat.
Proof.
  intros Hoff. revert s. induction atts as [|att atts IH]; intros s; simpl.
  - rewrite orb_false_r, andb_false_r. split; [reflexivity | lia].
  - destruct (IH (worker cfg e replyPost s att)) as [IHf IHl].
    simpl in IHf, IHl. rewrite IHf, IHl.
    pose proof (worker_unlimited cfg e replyPost s att Hoff) as Hw.
    simpl in Hw.
    destruct (String.eqb (Mastodon.att_Description att) ""); simpl.
    + destruct Hw as [-> ->]. split; [reflexivity | lia].
    + destruct Hw as [-> ->].
      destruct (altTextAlreadyExists s); simpl; split; try reflexivity; lia.
Qed.

(** The counts of the attachments do not depend on their order. *)
Lemma undescribed_Permutation (atts order : list Mastodon.Attachment) :
  Permutation atts order ->
  List.length (MoreSpec.undescribed atts)
  = List.length (MoreSpec.undescribed order)
  /\ MoreSpec.some_described atts = MoreSpec.some_described order.
Proof.
  unfold MoreSpec.undescribed, MoreSpec.some_described.
  induction 1 as [|x l l' _ [IHl IHs]|x y l|l l' l'' _ [IH1 IH1'] _ [IH2 IH2']];
    simpl.
  - split; reflexivity.
  - rewrite IHs. split; [|reflexivity].
    destruct (String.eqb (Mastodon.att_Description x) ""); simpl; lia.
  - split.
    + destruct (String.eqb (Mastodon.att_Description x) "");
        destruct (String.eqb (Mastodon.att_Description y) ""); reflexivity.
    + destruct (String.eqb (Mastodon.att_Description x) "");
        destruct (String.eqb (Mastodon.att_Description y) ""); reflexivity.
  - split; congruence.
Qed.

(** X19.  When the workers of a job run one after the other, in whatever
    order: every attachment without a description gets an element of its
    own in the reply, and no attachment gets more than one; without the
    rate limiter the attachments that have a description then share one
    element, however many they are.  (Workers that overlap read the flag
    outside the mutex and can each add such an element; that schedule is
    not covered here.) *)
Theorem one_element_per_undescribed_attachment
    (cfg : Config) (e : Env) (replyPost : Mastodon.Status)
    (atts order : list Mastodon.Attachment) (b : Bot) :
  Permutation atts order ->
  let s := fold_left (worker cfg e replyPost) order (start b) in
  (List.length (MoreSpec.undescribed atts) <= List.length (responses s)
   <= List.length atts)%nat
  /\ (RateLimit_Enabled cfg = false ->
      List.length (responses s)
      = (List.length (MoreSpec.undescribed atts)
         + if MoreSpec.some_described atts then 1 else 0)%nat).
Proof.
  intros Hp.
  destruct (undescribed_Permutation atts order Hp) as [Hu Hs].
  rewrite Hu, Hs, (Permutation_length Hp).
  split.
  - pose proof (workers_responses cfg e replyPost order (start b)) as H.
    simpl in H. exact H.
  - intros Hoff.
    destruct (workers_unlimited cfg e replyPost order (start b) Hoff) as [_ H].
    simpl in H. exact H.
Qed.

(** Two images without description and the described image twice, the
    workers running from the last attachment to the first. *)
Lemma one_element_per_undescribed_attachment_witness :
  let described := Mastodon.st_MediaAttachments MoreExamples.described_S in
  let atts := ([Examples.image_without_alt;
                Examples.image_without_alt] ++ described ++ described)%list in
  let s := fold_left (worker (Examples.config false 10 10 2 true true)
                        (Examples.env (Examples.platform Examples.bob true))
                        Examples.source_S)
             (rev atts) (start Examples.fresh_bot) in
  (2 <= List.length (responses s) <= 4)%nat
  /\ (false = false -> List.length (responses s) = 3%nat).
Proof.
  exact (one_element_per_undescribed_attachment
           (Examples.config false 10 10 2 true true)
           (Examples.env (Examples.platform Examples.bob true))
           Examples.source_S
           ([Examples.image_without_alt; Examples.image_without_alt] ++
            Mastodon.st_MediaAttachments MoreExamples.described_S ++
            Mastodon.st_MediaAttachments MoreExamples.described_S)%list
           (rev
              ([Examples.image_without_alt; Examples.image_without_alt] ++
               Mastodon.st_MediaAttachments MoreExamples.described_S ++
               Mastodon.st_MediaAttachments MoreExamples.described_S)%list)
           Examples.fresh_bot
           (Permutation_rev _)).
Defined.

(** X20.  The reply is never visible to a wider audience than the post it
    answers, nor than the configured reply visibility when that is one of
    the four visibilities, in whatever case it is written. *)
Theorem reply_visibility_never_wider (configured postVisibility : string) :
  is_ascii configured = true ->
  Spec.post_visibility postVisibility ->
  MoreSpec.audience (replyVisibility configured postVisibility)
  <= MoreSpec.audience postVisibility
  /\ (Spec.post_visibility (ToLower configured) ->
      MoreSpec.audience (replyVisibility configured postVisibility)
      <= MoreSpec.audience (ToLower configured)).
Proof.
  intros _ Hv.
  rewrite (Visibility.replyVisibility_is_mapping configured postVisibility Hv).
  generalize (ToLower configured) as lc. intros lc.
  unfold Spec.visibility_mapping. split.
  - destruct Hv as [-> | [-> | [-> | ->]]]; simpl;
      repeat match goal with
             | |- context [String.eqb lc ?x] => destruct (String.eqb lc x)
             end; simpl; vm_compute; discriminate.
  - intros [-> | [-> | [-> | ->]]];
      destruct Hv as [-> | [-> | [-> | ->]]]; vm_compute; discriminate.
Qed.

Lemma reply_visibility_never_wider_witness :
  MoreSpec.audience (replyVisibility "Unlisted" "public")
  <= MoreSpec.audience "public"
  /\ (Spec.post_visibility "unlisted" ->
      MoreSpec.audience (replyVisibility "Unlisted" "public")
      <= MoreSpec.audience "unlisted").
Proof.
  exact (reply_visibility_never_wider "Unlisted" "public" eq_refl
           (or_introl eq_refl)).
Defined.

End JobMore.
(* ===================================================================== *)
(** * More on the API keys *)
(* ===================================================================== *)

Module KeyStore.
Import GoString GoStringFacts GoInt API KeyAdmin.

Lemma extractAPIKey_bearer (key : string) :
  extractAPIKey ("Bearer " +:+ key) = key.
Proof.
  assert (Hp : HasPrefix ("Bearer " +:+ key) "Bearer " = true)
    by (apply HandlersMore.prefix_iff; exists key; reflexivity).
  unfold extractAPIKey. rewrite Hp.
  change (String.eqb ("Bearer " +:+ key) "") with false. cbv iota.
  rewrite length_append.
  change (String.length "Bearer ") with 7%nat.
  replace (7 + String.length key - 7)%nat with (String.length key) by lia.
  pose proof (substring_middle "Bearer " key "") as H.
  rewrite append_empty_r in H. exact H.
Qed.

(** X21.  The key of a request is what follows "Bearer " in the
    Authorization header, or the whole header when it does not start so;
    no key is found exactly for an empty header and for the bare scheme
    "Bearer ". *)
Theorem extractAPIKey_round_trip (key authorization : string) :
  extractAPIKey ("Bearer " +:+ key) = key
  /\ (HasPrefix authorization "Bearer " = false ->
      extractAPIKey authorization = authorization)
  /\ (extractAPIKey authorization = ""
      <-> authorization = "" \/ authorization = "Bearer ").
Proof.
  split; [apply extractAPIKey_bearer|]. split.
  - intros Hp. unfold extractAPIKey. rewrite Hp.
    destruct (String.eqb_spec authorization ""); congruence.
  - split.
    + intros He.
      destruct (HasPrefix authorization "Bearer ") eqn:Hp.
      * right. apply HandlersMore.prefix_iff in Hp. destruct Hp as [rest ->].
        rewrite extractAPIKey_bearer in He. subst rest. reflexivity.
      * left. unfold extractAPIKey in He. rewrite Hp in He.
        destruct (String.eqb_spec authorization ""); congruence.
    + intros [-> | ->]; reflexivity.
Qed.

Lemma extractAPIKey_round_trip_witness :
  extractAPIKey ("Bearer " +:+ "altbot_5f2c") = "altbot_5f2c"
  /\ (HasPrefix "altbot_5f2c" "Bearer " = false ->
      extractAPIKey "altbot_5f2c" = "altbot_5f2c")
  /\ (extractAPIKey "altbot_5f2c" = ""
      <-> "altbot_5f2c" = "" \/ "altbot_5f2c" = "Bearer ").
Proof. exact (extractAPIKey_round_trip "altbot_5f2c" "altbot_5f2c"). Defined.

Lemma rollover_same_month (c : Clock) (k : APIKey) :
  MoreSpec.same_month k c -> rollover c k = k.
Proof.
  intros [Hm Hy]. unfold rollover. rewrite Hm, Hy, !Z.eqb_refl. reflexivity.
Qed.

(** X22.  The monthly quota is never overshot: of any number of calls of
    [CheckAndIncrementUsage] for a key within the month of its last reset,
    exactly as many are granted as the quota has room for, and the usage
    of the key grows by that number. *)
Theorem quota_is_never_overshot (clocks : list Clock)
    (store : gmap string APIKey) (key : string) (k : APIKey)
    (monthlyLimit : Z) :
  store !! key = Some k ->
  in_range monthlyLimit -> in_range (UsageMonth k) ->
  Forall (MoreSpec.same_month k) clocks ->
  let result := MoreSpec.charge clocks store key monthlyLimit in
  usage (snd result) key = Some (UsageMonth k + Z.of_nat (fst result))
  /\ Z.of_nat (fst result)
     = Z.max 0 (Z.min (Z.of_nat (List.length clocks))
                      (monthlyLimit - UsageMonth k)).
Proof.
  intros Hl Hlim Hu Hcs. revert store k Hl Hu Hcs.
  induction clocks as [|c clocks IH]; intros store k Hl Hu Hcs; simpl.
  - unfold usage. rewrite Hl. simpl. split; [f_equal; lia | lia].
  - apply Forall_cons in Hcs as [Hc Hcs].
    unfold CheckAndIncrementUsage. rewrite Hl, (rollover_same_month c k Hc).
    destruct (Z.leb_spec monthlyLimit (UsageMonth k)) as [Hfull | Hroom].
    + specialize (IH (<[key := k]> store) k (lookup_insert_eq _ _ _) Hu Hcs).
      simpl in IH.
      destruct (MoreSpec.charge clocks (<[key := k]> store) key monthlyLimit)
        as [granted store2]. simpl in *. split; [tauto|]. lia.
    + set (k1 := with_usage k (int_incr (UsageMonth k)) (LastReset k)).
      assert (Hincr : UsageMonth k1 = UsageMonth k + 1)
        by (apply (Quota.int_incr_in_range _ monthlyLimit); assumption).
      assert (Hu1 : in_range (UsageMonth k1))
        by (rewrite Hincr; unfold in_range in *; lia).
      specialize (IH (<[key := k1]> store) k1 (lookup_insert_eq _ _ _) Hu1 Hcs).
      simpl in IH.
      destruct (MoreSpec.charge clocks (<[key := k1]> store) key monthlyLimit)
        as [granted store2]. simpl in *.
      destruct IH as [IHu IHn]. rewrite IHu, Hincr. split; [f_equal; lia | lia].
Qed.

Lemma quota_is_never_overshot_witness :
  let c := Examples.clock in
  let result := MoreSpec.charge [c; c; c; c; c] Examples.key_store
                  "altbot_5f2c" 6 in
  usage (snd result) "altbot_5f2c" = Some (4 + Z.of_nat (fst result))
  /\ Z.of_nat (fst result) = Z.max 0 (Z.min 5 (6 - 4)).
Proof.
  assert (Hl : in_range 6) by (unfold in_range; lia).
  assert (Hu : in_range (UsageMonth Examples.carol_key))
    by (unfold in_range; simpl; lia).
  assert (Hc : MoreSpec.same_month Examples.carol_key Examples.clock)
    by (split; reflexivity).
  exact (quota_is_never_overshot
           [Examples.clock; Examples.clock; Examples.clock; Examples.clock;
            Examples.clock]
           Examples.key_store "altbot_5f2c" Examples.carol_key 6
           eq_refl Hl Hu
           (Forall_cons_2 _ _ _ Hc (Forall_cons_2 _ _ _ Hc
              (Forall_cons_2 _ _ _ Hc (Forall_cons_2 _ _ _ Hc
                 (Forall_cons_2 _ _ _ Hc (Forall_nil_2 _))))))).
Defined.

(** A key that is in memory is judged without a reload of the key file. *)
Lemma ValidateAPIKey_in_memory (c : Clock) (store : gmap string APIKey)
    (key : string) (k : APIKey) :
  store !! key = Some k ->
  ValidateAPIKey c store key
  = (if Active k && negb (ExpiresAt k <? now_validate c) then Some k else None,
     store).
Proof.
  intros Hl. unfold ValidateAPIKey. rewrite Hl.
  destruct (Active k); simpl; [|reflexivity].
  destruct (ExpiresAt k <? now_validate c); reflexivity.
Qed.

(** A request made with a key that is in memory changes no other key of
    the store, whatever its answer. *)
Lemma handleAltText_other_keys (c : Clock) (monthlyLimit : Z)
    (store : gmap string APIKey) (r : Request) (k : APIKey) (other : string) :
  store !! extractAPIKey (req_Authorization r) = Some k ->
  other <> extractAPIKey (req_Authorization r) ->
  snd (handleAltText c monthlyLimit store r) !! other = store !! other.
Proof.
  intros Hl Hne. unfold handleAltText.
  destruct (String.eqb (req_Method r) "POST"); simpl; [|reflexivity].
  destruct (String.eqb (extractAPIKey (req_Authorization r)) "");
    [reflexivity|].
  rewrite (ValidateAPIKey_in_memory c store _ k Hl).
  destruct (Active k && negb (ExpiresAt k <? now_validate c)); [|reflexivity].
  unfold CheckAndIncrementUsage. rewrite Hl.
  assert (Hframe : forall k1 : APIKey,
             <[extractAPIKey (req_Authorization r) := k1]> store !! other
             = store !! other)
    by (intros k1; apply lookup_insert_ne; congruence).
  destruct (monthlyLimit <=? UsageMonth (rollover c k)); simpl;
    [apply Hframe|].
  destruct (req_Body r) as [| | |format language]; simpl; try apply Hframe.
  destruct (String.eqb format ""); simpl; [apply Hframe|].
  destruct (req_Processing r); simpl; apply Hframe.
Qed.

(** The refusals of a request whose key is in memory. *)
Lemma handleAltText_refused (c : Clock) (monthlyLimit : Z)
    (store : gmap string APIKey) (r : Request) (k : APIKey) :
  store !! extractAPIKey (req_Authorization r) = Some k ->
  let status := fst (handleAltText c monthlyLimit store r) in
  let store' := snd (handleAltText c monthlyLimit store r) in
  (status = 405 \/ status = 401 -> store' = store)
  /\ (status = 429 ->
      monthlyLimit <= UsageMonth (rollover c k)
      /\ usage store' (extractAPIKey (req_Authorization r))
         = Some (UsageMonth (rollover c k))).
Proof.
  intros Hl. unfold handleAltText.
  destruct (String.eqb (req_Method r) "POST"); simpl;
    [|split; [reflexivity | discriminate]].
  destruct (String.eqb (extractAPIKey (req_Authorization r)) "");
    [split; [reflexivity | discriminate]|].
  rewrite (ValidateAPIKey_in_memory c store _ k Hl).
  destruct (Active k && negb (ExpiresAt k <? now_validate c));
    [|split; [reflexivity | discriminate]].
  unfold CheckAndIncrementUsage. rewrite Hl.
  destruct (Z.leb_spec monthlyLimit (UsageMonth (rollover c k))); simpl.
  - split; [intros [?|?]; discriminate|]. intros _. split; [assumption|].
    unfold usage. rewrite lookup_insert_eq. reflexivity.
  - destruct (req_Body r) as [| | |format language]; simpl;
      try (split; [intros [?|?]; discriminate | discriminate]).
    destruct (String.eqb format ""); simpl;
      [split; [intros [?|?]; discriminate | discriminate]|].
    destruct (req_Processing r); simpl;
      (split; [intros [?|?]; discriminate | discriminate]).
Qed.

(** X23.  A request is accounted to its own key, and only when it is not
    refused.  A request made with a key that is in memory changes no other
    key of the store, whatever its answer; answered 405 or 401 it leaves
    the whole store as it was; answered 429 it leaves the usage of the key
    where the month rollover put it, at or above the limit. *)
Theorem request_is_accounted_to_its_own_key (c : Clock) (monthlyLimit : Z)
    (store : gmap string APIKey) (r : Request) (k : APIKey) :
  store !! extractAPIKey (req_Authorization r) = Some k ->
  let status := fst (handleAltText c monthlyLimit store r) in
  let store' := snd (handleAltText c monthlyLimit store r) in
  (forall other, other <> extractAPIKey (req_Authorization r) ->
                 store' !! other = store !! other)
  /\ (status = 405 \/ status = 401 -> store' = store)
  /\ (status = 429 ->
      monthlyLimit <= UsageMonth (rollover c k)
      /\ usage store' (extractAPIKey (req_Authorization r))
         = Some (UsageMonth (rollover c k))).
Proof.
  intros Hl status store'. split.
  - intros other Hne. exact (handleAltText_other_keys c _ store r k other Hl Hne).
  - exact (handleAltText_refused c monthlyLimit store r k Hl).
Qed.

Lemma request_is_accounted_to_its_own_key_witness :
  let r := Examples.request (BodyImage "png" "en") (ProcessingDone "A cat.") in
  let status := fst (handleAltText Examples.clock 4 MoreExamples.two_keys r) in
  let store' := snd (handleAltText Examples.clock 4 MoreExamples.two_keys r) in
  (forall other, other <> extractAPIKey "Bearer altbot_5f2c" ->
                 store' !! other = MoreExamples.two_keys !! other)
  /\ (status = 405 \/ status = 401 -> store' = MoreExamples.two_keys)
  /\ (status = 429 ->
      4 <= UsageMonth (rollover Examples.clock Examples.carol_key)
      /\ usage store' (extractAPIKey "Bearer altbot_5f2c")
         = Some (UsageMonth (rollover Examples.clock Examples.carol_key))).
Proof.
  exact (request_is_accounted_to_its_own_key Examples.clock 4
           MoreExamples.two_keys
           (Examples.request (BodyImage "png" "en") (ProcessingDone "A cat."))
           Examples.carol_key eq_refl).
Defined.

(** X24.  A request with a key that is not in memory makes the store
    reload the key file: when the file is read, every other key that the
    file names is afterwards as the file has it, whatever usage memory
    had counted for it; when the file cannot be read the request is
    answered 401 and the store is as before. *)
Theorem unknown_key_reloads_the_key_file (c : Clock) (monthlyLimit : Z)
    (store : gmap string APIKey) (r : Request) :
  req_Method r = "POST" ->
  extractAPIKey (req_Authorization r) <> "" ->
  store !! extractAPIKey (req_Authorization r) = None ->
  match key_file c with
  | Some file =>
      forall other fileKey,
        other <> extractAPIKey (req_Authorization r) ->
        file !! other = Some fileKey ->
        snd (handleAltText c monthlyLimit store r) !! other = Some fileKey
  | None => handleAltText c monthlyLimit store r = (401, store)
  end.
Proof.
  intros Hpost Hkey Hl. apply String.eqb_neq in Hkey.
  unfold handleAltText. rewrite Hpost, Hkey. simpl.
  unfold ValidateAPIKey, LoadFromFile. rewrite Hl.
  destruct (key_file c) as [file|]; [|reflexivity].
  intros other fileKey Hne Hfile.
  assert (Hother : (file ∪ store) !! other = Some fileKey)
    by (apply lookup_union_Some_l; exact Hfile).
  destruct ((file ∪ store) !! extractAPIKey (req_Authorization r))
    as [k|] eqn:Hk; [|exact Hother].
  destruct (Active k); simpl; [|exact Hother].
  destruct (ExpiresAt k <? now_validate c); simpl; [exact Hother|].
  unfold CheckAndIncrementUsage. rewrite Hk.
  assert (Hframe : forall k1 : APIKey,
             <[extractAPIKey (req_Authorization r) := k1]> (file ∪ store)
               !! other = Some fileKey)
    by (intros k1; rewrite lookup_insert_ne by congruence; exact Hother).
  destruct (monthlyLimit <=? UsageMonth (rollover c k)); simpl;
    [apply Hframe|].
  destruct (req_Body r) as [| | |format language]; simpl; try apply Hframe.
  destruct (String.eqb format ""); simpl; [apply Hframe|].
  destruct (req_Processing r); simpl; apply Hframe.
Qed.

Lemma unknown_key_reloads_the_key_file_witness :
  usage Examples.key_store "altbot_5f2c" = Some 4
  /\ usage
       (snd (handleAltText MoreExamples.clock_with_file 100 Examples.key_store
               {| req_Method := "POST"; req_Authorization := "altbot_0000";
                  req_Body := BodyMalformed; req_Processing := QueueFull |}))
       "altbot_5f2c" = Some 0.
Proof.
  assert (Hkey : extractAPIKey "altbot_0000" <> "")
    by (vm_compute; discriminate).
  assert (Hne : "altbot_5f2c" <> extractAPIKey "altbot_0000")
    by (vm_compute; discriminate).
  split; [reflexivity|].
  unfold usage.
  rewrite (unknown_key_reloads_the_key_file MoreExamples.clock_with_file 100
             Examples.key_store
             {| req_Method := "POST"; req_Authorization := "altbot_0000";
                req_Body := BodyMalformed; req_Processing := QueueFull |}
             eq_refl Hkey eq_refl "altbot_5f2c"
             (with_usage Examples.carol_key 0 100) Hne eq_refl).
  reflexivity.
Defined.

(** X25.  A revoked key is refused by the alt-text endpoint without a
    reload of the key file and without any change to the store, so nothing
    is counted; the usage endpoint, which only looks the key up, still
    answers it. *)
Theorem revoked_key_is_refused (cal : Calendar) (c : Clock)
    (monthlyLimit : Z) (store : gmap string APIKey) (r : Request)
    (k : APIKey) :
  req_Method r = "POST" ->
  extractAPIKey (req_Authorization r) <> "" ->
  store !! extractAPIKey (req_Authorization r) = Some k ->
  let store1 :=
    snd (RevokeAPIKey cal store (extractAPIKey (req_Authorization r))) in
  handleAltText c monthlyLimit store1 r = (401, store1)
  /\ fst (handleUsage cal monthlyLimit store1 "GET" (req_Authorization r))
     = 200.
Proof.
  intros Hpost Hkey Hl store1. apply String.eqb_neq in Hkey.
  assert (Hl1 : store1 !! extractAPIKey (req_Authorization r)
                = Some (with_active k false)).
  { unfold store1, RevokeAPIKey. rewrite Hl. simpl. apply lookup_insert_eq. }
  split.
  - unfold handleAltText. rewrite Hpost, Hkey. simpl.
    rewrite (ValidateAPIKey_in_memory c store1 _ _ Hl1). reflexivity.
  - unfold handleUsage, GetAPIKeyUsage. simpl. rewrite Hkey, Hl1. reflexivity.
Qed.

Lemma revoked_key_is_refused_witness :
  let r := Examples.request (BodyImage "png" "en") (ProcessingDone "A cat.") in
  let store1 :=
    snd (RevokeAPIKey MoreExamples.calendar Examples.key_store
           (extractAPIKey "Bearer altbot_5f2c")) in
  handleAltText Examples.clock 100 store1 r = (401, store1)
  /\ fst (handleUsage MoreExamples.calendar 100 store1 "GET"
            "Bearer altbot_5f2c") = 200.
Proof.
  assert (Hkey : extractAPIKey "Bearer altbot_5f2c" <> "")
    by (vm_compute; discriminate).
  exact (revoked_key_is_refused MoreExamples.calendar Examples.clock 100
           Examples.key_store
           (Examples.request (BodyImage "png" "en") (ProcessingDone "A cat."))
           Examples.carol_key eq_refl Hkey eq_refl).
Defined.

(** X26.  Extending a revoked key reactivates it and keeps its usage:
    the new expiry counts from the old one, or from now when the key had
    expired, and the key is accepted again exactly when the new expiry is
    not in the past. *)
Theorem extended_key_is_active_again (cal : Calendar) (c : Clock)
    (store : gmap string APIKey) (key : string) (k : APIKey)
    (additionalDays : Z) :
  store !! key = Some k ->
  let store2 :=
    snd (ExtendAPIKey cal (snd (RevokeAPIKey cal store key)) key
           additionalDays) in
  let expiry :=
    if ExpiresAt k <? now_test cal
    then AddDays cal (now_base cal) additionalDays
    else AddDays cal (ExpiresAt k) additionalDays in
  exists k2,
    store2 !! key = Some k2
    /\ Active k2 = true /\ ExpiresAt k2 = expiry
    /\ UsageMonth k2 = UsageMonth k /\ LastReset k2 = LastReset k
    /\ (fst (ValidateAPIKey c store2 key) = Some k2
        <-> now_validate c <= expiry).
Proof.
  intros Hl store2 expiry.
  assert (Hl2 : store2 !! key
                = Some (with_active (with_expiry (with_active k false) expiry)
                          true)).
  { unfold store2, ExtendAPIKey, RevokeAPIKey. rewrite Hl. simpl.
    rewrite lookup_insert_eq. simpl. apply lookup_insert_eq. }
  eexists. split; [exact Hl2|]. repeat (split; [reflexivity|]).
  rewrite (ValidateAPIKey_in_memory c store2 key _ Hl2). simpl.
  destruct (Z.ltb_spec expiry (now_validate c)); simpl.
  - split; [discriminate | lia].
  - split; [intros _; assumption | reflexivity].
Qed.

Lemma extended_key_is_active_again_witness :
  let store2 :=
    snd (ExtendAPIKey MoreExamples.calendar
           (snd (RevokeAPIKey MoreExamples.calendar MoreExamples.two_keys
                   "altbot_77aa")) "altbot_77aa" 30) in
  exists k2,
    store2 !! "altbot_77aa" = Some k2
    /\ Active k2 = true /\ ExpiresAt k2 = 500 + 86400 * 30
    /\ UsageMonth k2 = 7 /\ LastReset k2 = 10
    /\ (fst (ValidateAPIKey Examples.clock store2 "altbot_77aa") = Some k2
        <-> 500 <= 500 + 86400 * 30).
Proof.
  exact (extended_key_is_active_again MoreExamples.calendar Examples.clock
           MoreExamples.two_keys "altbot_77aa" MoreExamples.erin_key 30
           eq_refl).
Defined.

(** The loop of [CleanupExpiredKeys] over a part of the store. *)
Lemma CleanupExpiredKeys_loop (cutoff : Z) (keys0 m : gmap string APIKey) :
  let result :=
    map_fold
      (fun key apiKey '(removed, keys) =>
         if ExpiresAt apiKey <? cutoff
         then (int_incr removed, delete key keys)
         else (removed, keys))
      (0, keys0) m in
  (Z.of_nat (size m) < 2 ^ 63 ->
   0 <= fst result <= Z.of_nat (size m)
   /\ fst result
      = Z.of_nat (size (filter (fun kv => ExpiresAt (snd kv) < cutoff) m)))
  /\ forall key,
      snd result !! key
      = match m !! key with
        | Some apiKey =>
            if ExpiresAt apiKey <? cutoff then None else keys0 !! key
        | None => keys0 !! key
        end.
Proof.
  cbv zeta.
  apply (map_fold_weak_ind
           (fun (result : Z * gmap string APIKey) (m : gmap string APIKey) =>
              (Z.of_nat (size m) < 2 ^ 63 ->
               0 <= fst result <= Z.of_nat (size m)
               /\ fst result
                  = Z.of_nat
                      (size (filter (fun kv => ExpiresAt (snd kv) < cutoff) m)))
              /\ forall key,
                  snd result !! key
                  = match m !! key with
                    | Some apiKey =>
                        if ExpiresAt apiKey <? cutoff then None
                        else keys0 !! key
                    | None => keys0 !! key
                    end)).
  - split.
    + intros _. rewrite map_filter_empty, map_size_empty. simpl. lia.
    + intros key. rewrite lookup_empty. reflexivity.
  - intros i x m' [removed keys] Hi [IHn IHk]. simpl in IHn, IHk.
    rewrite (map_size_insert_None i x m' Hi).
    destruct (Z.ltb_spec (ExpiresAt x) cutoff) as [Hexp | Hlive]; simpl; split.
    + intros Hsize. destruct IHn as [Hb ->]; [lia|].
      rewrite (map_filter_insert_True _ m' i x) by exact Hexp.
      rewrite map_size_insert_None
        by (apply map_lookup_filter_None; left; exact Hi).
      assert (Hincr : forall n : Z, 0 <= n -> n + 1 < 2 ^ 63 ->
                                    int_incr n = n + 1).
      { intros n H0 H1. unfold int_incr, wrap. rewrite Z.mod_small; lia. }
      rewrite Hincr by lia. lia.
    + intros key. destruct (decide (key = i)) as [-> | Hne].
      * rewrite lookup_delete_eq, lookup_insert_eq.
        destruct (Z.ltb_spec (ExpiresAt x) cutoff); [reflexivity | lia].
      * rewrite lookup_delete_ne, lookup_insert_ne by congruence. apply IHk.
    + intros Hsize. destruct IHn as [Hb ->]; [lia|].
      rewrite (map_filter_insert_False _ m' i x) by (simpl; lia).
      rewrite (delete_id m' i Hi). lia.
    + intros key. destruct (decide (key = i)) as [-> | Hne].
      * rewrite lookup_insert_eq.
        destruct (Z.ltb_spec (ExpiresAt x) cutoff); [lia|].
        rewrite IHk, Hi. reflexivity.
      * rewrite lookup_insert_ne by congruence. apply IHk.
Qed.

(** X27.  The cleanup of the key store removes exactly the keys whose
    expiry lies before the cutoff and keeps the others as they are; the
    number it returns is the number of keys removed, so that number and
    the size of the store afterwards add up to the size before. *)
Theorem cleanup_removes_expired_keys_only (cutoff : Z)
    (store : gmap string APIKey) :
  Z.of_nat (size store) < 2 ^ 63 ->
  let removed := fst (CleanupExpiredKeys cutoff store) in
  let store' := snd (CleanupExpiredKeys cutoff store) in
  store' = filter (fun kv => cutoff <= ExpiresAt (snd kv)) store
  /\ removed + Z.of_nat (size store') = Z.of_nat (size store).
Proof.
  intros Hsize removed store'.
  destruct (CleanupExpiredKeys_loop cutoff store store) as [Hn Hk].
  destruct (Hn Hsize) as [_ Hcount]. clear Hn.
  fold (CleanupExpiredKeys cutoff store) in Hcount, Hk.
  fold removed in Hcount. fold store' in Hk.
  assert (Hstore : store'
                   = filter (fun kv => cutoff <= ExpiresAt (snd kv)) store).
  { apply map_eq. intros key. rewrite Hk, map_lookup_filter.
    destruct (store !! key) as [apiKey|]; simpl; [|reflexivity].
    destruct (Z.ltb_spec (ExpiresAt apiKey) cutoff).
    - rewrite option_guard_False by lia. reflexivity.
    - rewrite option_guard_True by lia. reflexivity. }
  split; [exact Hstore|].
  rewrite Hcount, Hstore.
  rewrite <- (map_filter_union_complement
                (fun kv => ExpiresAt (snd kv) < cutoff) store) at 3.
  rewrite map_size_disj_union by apply map_disjoint_filter_complement.
  rewrite Nat2Z.inj_add. f_equal. f_equal. f_equal.
  apply map_filter_ext. intros key apiKey _. simpl. lia.
Qed.

Lemma cleanup_removes_expired_keys_only_witness :
  let removed := fst (CleanupExpiredKeys 400 MoreExamples.two_keys) in
  let store' := snd (CleanupExpiredKeys 400 MoreExamples.two_keys) in
  store' = filter (fun kv => 400 <= ExpiresAt (snd kv)) MoreExamples.two_keys
  /\ removed + Z.of_nat (size store') = Z.of_nat (size MoreExamples.two_keys).
Proof.
  assert (Hsize : Z.of_nat (size MoreExamples.two_keys) < 2 ^ 63)
    by (vm_compute; reflexivity).
  exact (cleanup_removes_expired_keys_only 400 MoreExamples.two_keys Hsize).
Defined.

End KeyStore.

(* ===================================================================== *)
(** * The periodic jobs *)
(* ===================================================================== *)

Module HousekeepingFacts.
Import GoString GoInt Housekeeping.

(** X28.  The cleanup of the reply table forgets the replies older than
    an hour without deleting them on the platform; after a pass, a Delete
    event for a post deletes the recorded reply exactly when the entry
    was at most an hour old, and does nothing otherwise. *)
Theorem delete_cascade_lasts_an_hour (now_at : string -> Z) (e : Env)
    (b : Bot) (originalID : string) (replyInfo : ReplyInfo) :
  replyMap b !! originalID = Some replyInfo ->
  let b1 := cleanupOldEntries now_at b in
  let b2 := Handlers.handleDeleteEvent e b1 originalID in
  trace b1 = trace b
  /\ if GoTime.Sub (now_at originalID) (ri_Timestamp replyInfo)
        <=? GoTime.Hour
     then delete_calls (ConsentFlow.new_events b1 b2) = [ri_ReplyID replyInfo]
     else b2 = b1.
Proof.
  intros Hl b1 b2. split; [reflexivity|].
  unfold b2, Handlers.handleDeleteEvent, b1, cleanupOldEntries. simpl.
  rewrite map_lookup_filter, Hl. simpl.
  destruct (Z.leb_spec (GoTime.Sub (now_at originalID) (ri_Timestamp replyInfo))
              GoTime.Hour) as [Hyoung | Hold].
  - rewrite option_guard_True by exact Hyoung. simpl.
    destruct (Mastodon.DeleteStatus (client e) (ri_ReplyID replyInfo));
      unfold ConsentFlow.new_events; simpl;
      rewrite drop_app_length; reflexivity.
  - rewrite option_guard_False by lia. reflexivity.
Qed.

Lemma delete_cascade_lasts_an_hour_witness :
  let e := Examples.env (Examples.platform Examples.bob true) in
  let b1 := cleanupOldEntries (fun _ => 900 + GoTime.Hour + 1)
              Examples.bot_replied in
  let b2 := Handlers.handleDeleteEvent e b1 "S" in
  trace b1 = trace Examples.bot_replied
  /\ if GoTime.Sub (900 + GoTime.Hour + 1) 900 <=? GoTime.Hour
     then delete_calls (ConsentFlow.new_events b1 b2) = ["R"]
     else b2 = b1.
Proof.
  exact (delete_cascade_lasts_an_hour (fun _ => 900 + GoTime.Hour + 1)
           (Examples.env (Examples.platform Examples.bob true))
           Examples.bot_replied "S"
           {| ri_ReplyID := "R"; ri_Timestamp := 900 |} eq_refl).
Defined.

(** X29.  Reminders to one user are a day apart: a user without an entry
    is reminded; once reminded, the next request is granted exactly when
    24 hours have passed since the instant recorded, a refused request
    changes nothing, and the entries of other users are never touched. *)
Theorem reminders_are_a_day_apart (t1 t1' t2 t2' : Z)
    (lastReminded : gmap string Z) (userID other : string) :
  fst (shouldSendReminder t1 t1' lastReminded userID) = true ->
  other <> userID ->
  let lr1 := snd (shouldSendReminder t1 t1' lastReminded userID) in
  lr1 !! userID = Some t1'
  /\ lr1 !! other = lastReminded !! other
  /\ shouldSendReminder t2 t2' lr1 userID
     = if 24 * GoTime.Hour <=? GoTime.Sub t2 t1'
       then (true, <[userID := t2']> lr1)
       else (false, lr1).
Proof.
  intros Hsend Hne lr1.
  assert (Hlr1 : lr1 = <[userID := t1']> lastReminded).
  { unfold lr1. unfold shouldSendReminder in *.
    destruct (negb _ || _); [reflexivity | discriminate]. }
  rewrite Hlr1. split; [apply lookup_insert_eq|].
  split; [apply lookup_insert_ne; congruence|].
  unfold shouldSendReminder. rewrite lookup_insert_eq. simpl.
  try rewrite bool_decide_eq_true_2 by (eexists; reflexivity). reflexivity.
Qed.

Lemma reminders_are_a_day_apart_witness :
  let lr1 := snd (shouldSendReminder 100 101 ∅ "U") in
  lr1 !! "U" = Some 101
  /\ lr1 !! "V" = (∅ : gmap string Z) !! "V"
  /\ shouldSendReminder (100 + GoTime.Hour) (101 + GoTime.Hour) lr1 "U"
     = if 24 * GoTime.Hour <=? GoTime.Sub (100 + GoTime.Hour) 101
       then (true, <["U" := 101 + GoTime.Hour]> lr1)
       else (false, lr1).
Proof.
  assert (Hne : "V" <> "U") by discriminate.
  exact (reminders_are_a_day_apart 100 101 (100 + GoTime.Hour)
           (101 + GoTime.Hour) ∅ "U" "V" eq_refl Hne).
Defined.

Lemma reminder_of_insert (e : Env) (clk : PassClock) (checkTime : Z)
    (m : gmap string AltTextCheck) (i : string) (x : AltTextCheck)
    (toot : Mastodon.Toot) :
  m !! i = None ->
  MoreSpec.reminder_of e clk checkTime m toot ->
  MoreSpec.reminder_of e clk checkTime (<[i := x]> m) toot.
Proof.
  intros Hi (Hv & postID & check & post & Hm & H).
  split; [exact Hv|]. exists postID, check, post. split; [|exact H].
  rewrite lookup_insert_ne by congruence. exact Hm.
Qed.

(** The loop of the periodic check over a part of the queue. *)
Lemma checkAltTextPeriodically_loop (e : Env) (clk : PassClock)
    (checkTime : Z) (r0 : Reminders) (m : gmap string AltTextCheck) :
  let r := map_fold (check_entry e clk checkTime) r0 m in
  (forall postID,
      altTextChecks r !! postID
      = match m !! postID with
        | Some check =>
            if due clk checkTime check then None
            else altTextChecks r0 !! postID
        | None => altTextChecks r0 !! postID
        end)
  /\ exists new,
      posted r = (posted r0 ++ new)%list
      /\ (List.length new
          <= size (filter (fun kv => due clk checkTime (snd kv) = true) m))%nat
      /\ Forall (MoreSpec.reminder_of e clk checkTime m) new.
Proof.
  cbv zeta.
  apply (map_fold_weak_ind
           (fun (r : Reminders) (m : gmap string AltTextCheck) =>
              (forall postID,
                  altTextChecks r !! postID
                  = match m !! postID with
                    | Some check =>
                        if due clk checkTime check then None
                        else altTextChecks r0 !! postID
                    | None => altTextChecks r0 !! postID
                    end)
              /\ exists new,
                  posted r = (posted r0 ++ new)%list
                  /\ (List.length new
                      <= size (filter (fun kv => due clk checkTime (snd kv) = true)
                                 m))%nat
                  /\ Forall (MoreSpec.reminder_of e clk checkTime m) new)).
  - split; [intros postID; rewrite lookup_empty; reflexivity|].
    exists []. rewrite app_nil_r. split; [reflexivity|].
    split; [simpl; lia | constructor].
  - intros i x m' r Hi (IHq & new & IHp & IHn & IHf).
    assert (Hkeep : Forall (MoreSpec.reminder_of e clk checkTime (<[i := x]> m')) new).
    { eapply Forall_impl; [exact IHf|].
      intros toot. apply reminder_of_insert. exact Hi. }
    unfold check_entry.
    destruct (due clk checkTime x) eqn:Hdue.
    2:{ split.
        - intros postID. destruct (decide (postID = i)) as [-> | Hne].
          + rewrite lookup_insert_eq, Hdue, IHq, Hi. reflexivity.
          + rewrite lookup_insert_ne by congruence. apply IHq.
        - exists new. split; [exact IHp|]. split; [|exact Hkeep].
          rewrite map_filter_insert_False by (simpl; congruence).
          rewrite (delete_id m' i Hi). exact IHn. }
    assert (Hsize :
      size (filter (fun kv => due clk checkTime (snd kv) = true) (<[i := x]> m'))
      = S (size (filter (fun kv => due clk checkTime (snd kv) = true) m'))).
    { rewrite map_filter_insert_True by exact Hdue.
      apply map_size_insert_None. apply map_lookup_filter_None. left. exact Hi. }
    assert (Hqueue : forall q : gmap string AltTextCheck,
      (forall postID,
          q !! postID
          = match m' !! postID with
            | Some check =>
                if due clk checkTime check then None
                else altTextChecks r0 !! postID
            | None => altTextChecks r0 !! postID
            end) ->
      forall postID,
        delete i q !! postID
        = match <[i := x]> m' !! postID with
          | Some check =>
              if due clk checkTime check then None
              else altTextChecks r0 !! postID
          | None => altTextChecks r0 !! postID
          end).
    { intros q Hq postID. destruct (decide (postID = i)) as [-> | Hne].
      - rewrite lookup_delete_eq, lookup_insert_eq, Hdue. reflexivity.
      - rewrite lookup_delete_ne, lookup_insert_ne by congruence. apply Hq. }
    destruct (Mastodon.GetStatus (client e) (ck_PostID x)) as [post|] eqn:Hget;
      simpl.
    2:{ split; [apply Hqueue; exact IHq|].
        exists new. split; [exact IHp|]. split; [lia | exact Hkeep]. }
    destruct (missingAltText post) eqn:Hmiss; simpl.
    2:{ split; [apply Hqueue; exact IHq|].
        exists new. split; [exact IHp|]. split; [lia | exact Hkeep]. }
    destruct (shouldSendReminder (test_now clk i) (store_now clk i)
                (LastReminded r) (ck_UserID x)) as [send lr]. simpl.
    split; [apply Hqueue; exact IHq|].
    destruct send.
    + exists (new ++ [reminder e post
                        (Mastodon.acc_Acct (Mastodon.st_Account post))])%list.
      split; [rewrite IHp, app_assoc; reflexivity|].
      split; [rewrite length_app; simpl; lia|].
      apply Forall_app. split; [exact Hkeep|].
      constructor; [|constructor].
      split; [reflexivity|]. exists i, x, post.
      rewrite lookup_insert_eq. repeat split; assumption || reflexivity.
    + exists new. split; [exact IHp|]. split; [lia | exact Hkeep].
Qed.

(** X30.  One pass of the periodic check takes every due check out of the
    queue, whatever the platform answers, and leaves the others; it posts
    at most one status for each due check, and every status it posts is a
    direct message in reply to the post of a due check that the platform
    still shows with an attachment without description. *)
Theorem periodic_check_pass (e : Env) (clk : PassClock) (checkTime : Z)
    (r : Reminders) :
  let r' := checkAltTextPeriodically e clk checkTime r in
  altTextChecks r'
  = filter (fun kv => due clk checkTime (snd kv) = false) (altTextChecks r)
  /\ exists new,
      posted r' = (posted r ++ new)%list
      /\ (List.length new
          <= size (filter (fun kv => due clk checkTime (snd kv) = true)
                     (altTextChecks r)))%nat
      /\ Forall (MoreSpec.reminder_of e clk checkTime (altTextChecks r)) new.
Proof.
  destruct (checkAltTextPeriodically_loop e clk checkTime r (altTextChecks r))
    as [Hq Hp].
  split; [|exact Hp].
  apply map_eq. intros postID.
  unfold checkAltTextPeriodically. rewrite Hq, map_lookup_filter.
  destruct (altTextChecks r !! postID) as [check|]; simpl; [|reflexivity].
  destruct (due clk checkTime check).
  - rewrite option_guard_False by discriminate. reflexivity.
  - rewrite option_guard_True by reflexivity. reflexivity.
Qed.

End HousekeepingFacts.
